(** * Gatekeeper firmware core: a shallow embedding and its checked properties

    The development follows the C sources of the repository:

    - [lib/utility/status.h]      status-word macros
    - [sim/sim_hal.c]             the simulator implementation of the HAL
    - [lib/input/cv_input.c]      CV hysteresis
    - [lib/input/button.c]        debounced button
    - [lib/output/cv_output.c]    gate / pulse / toggle output
    - [lib/events/events.c]       event processor
    - [lib/fsm/fsm.c]             table-driven state machine engine
    - [src/app_init.c]            settings persistence and startup
    - [src/core/coordinator.c]    the three-level coordinator

    Machine integers are [Z] with the wrap-around written out; status
    words are [Z] manipulated with [Z.land], [Z.lor] and [Z.lnot] exactly
    as the macros do; the simulated EEPROM and the pin file are lists
    indexed with stdpp's lookup and insert. *)

From Stdlib Require Import ZArith Bool Lia.
From stdpp Require Import base list.

Open Scope Z_scope.

(* ===================================================================== *)
(** * Part I: definitions *)
(* ===================================================================== *)

(** ** Machine arithmetic *)

(** Conversion to [uint8_t], [uint16_t], [uint32_t]. *)
Definition u8 (x : Z) : Z := x mod 256.
Definition u16 (x : Z) : Z := x mod 65536.
Definition u32 (x : Z) : Z := x mod 4294967296.

(** Difference of two [uint32_t] timestamps, as C computes it. *)
Definition u32_sub (a b : Z) : Z := u32 (a - b).

(** C truth value of an integer. *)
Definition truthy (x : Z) : bool := negb (x =? 0).

(** ** lib/utility/status.h *)

Definition STATUS_SET (status mask : Z) : Z := Z.lor status mask.
Definition STATUS_CLR (status mask : Z) : Z := Z.land status (Z.lnot mask).
Definition STATUS_ANY (status mask : Z) : bool := negb (Z.land status mask =? 0).
Definition STATUS_NONE (status mask : Z) : bool := Z.land status mask =? 0.
Definition STATUS_PUT (status mask : Z) (val : bool) : Z :=
  if val then STATUS_SET status mask else STATUS_CLR status mask.

(** ** sim/sim_hal.c : the HAL the core runs against

    The record gathers the file-scope variables of the simulator HAL.
    The two fault modes that draw from [rand()] (noisy ADC, corrupting
    EEPROM reads) are left out of the enumerations: they are not
    functions of the state. *)

Inductive SimAdcMode :=
  SIM_ADC_NORMAL | SIM_ADC_TIMEOUT | SIM_ADC_STUCK_LOW | SIM_ADC_STUCK_HIGH.

Inductive SimEepromMode :=
  SIM_EEPROM_NORMAL | SIM_EEPROM_WRITE_FAIL | SIM_EEPROM_READ_FF.

Definition SIM_NUM_PINS : Z := 8.
Definition SIM_EEPROM_SIZE : Z := 512.
Definition SIM_WDT_TIMEOUT_MS : Z := 250.

Definition PIN_BUTTON_A : Z := 2.
Definition PIN_BUTTON_B : Z := 4.
Definition PIN_SIG_OUT : Z := 1.

Record SimHal := mkSimHal {
  pin_states : list Z;
  sim_eeprom : list Z;
  sim_time_ms : Z;
  sim_cv_voltage : Z;
  adc_fault_mode : SimAdcMode;
  eeprom_fault_mode : SimEepromMode;
  wdt_enabled : bool;
  wdt_last_reset_time : Z;
  wdt_fired : bool
}.

Definition with_pins (h : SimHal) (p : list Z) : SimHal :=
  mkSimHal p (sim_eeprom h) (sim_time_ms h) (sim_cv_voltage h)
    (adc_fault_mode h) (eeprom_fault_mode h)
    (wdt_enabled h) (wdt_last_reset_time h) (wdt_fired h).

Definition with_eeprom (h : SimHal) (e : list Z) : SimHal :=
  mkSimHal (pin_states h) e (sim_time_ms h) (sim_cv_voltage h)
    (adc_fault_mode h) (eeprom_fault_mode h)
    (wdt_enabled h) (wdt_last_reset_time h) (wdt_fired h).

Definition with_time (h : SimHal) (t : Z) : SimHal :=
  mkSimHal (pin_states h) (sim_eeprom h) t (sim_cv_voltage h)
    (adc_fault_mode h) (eeprom_fault_mode h)
    (wdt_enabled h) (wdt_last_reset_time h) (wdt_fired h).

Definition with_wdt_fired (h : SimHal) (f : bool) : SimHal :=
  mkSimHal (pin_states h) (sim_eeprom h) (sim_time_ms h) (sim_cv_voltage h)
    (adc_fault_mode h) (eeprom_fault_mode h)
    (wdt_enabled h) (wdt_last_reset_time h) f.

(** [sim_hal_init]: pins low except the two pulled-up buttons, EEPROM
    erased, time zero.  The remaining file-scope variables keep their
    static initialisers. *)
Definition sim_hal_init : SimHal :=
  mkSimHal
    (<[Z.to_nat PIN_BUTTON_B := 1]>
       (<[Z.to_nat PIN_BUTTON_A := 1]> (replicate (Z.to_nat SIM_NUM_PINS) 0)))
    (replicate (Z.to_nat SIM_EEPROM_SIZE) 255)
    0 0 SIM_ADC_NORMAL SIM_EEPROM_NORMAL false 0 false.

Definition sim_set_pin (pin : Z) (h : SimHal) : SimHal :=
  if SIM_NUM_PINS <=? pin then h
  else with_pins h (<[Z.to_nat pin := 1]> (pin_states h)).

Definition sim_clear_pin (pin : Z) (h : SimHal) : SimHal :=
  if SIM_NUM_PINS <=? pin then h
  else with_pins h (<[Z.to_nat pin := 0]> (pin_states h)).

Definition sim_read_pin (pin : Z) (h : SimHal) : Z :=
  if SIM_NUM_PINS <=? pin then 0
  else default 0 (pin_states h !! Z.to_nat pin).

Definition sim_toggle_pin (pin : Z) (h : SimHal) : SimHal :=
  if SIM_NUM_PINS <=? pin then h
  else
    let v := default 0 (pin_states h !! Z.to_nat pin) in
    with_pins h (<[Z.to_nat pin := if v =? 0 then 1 else 0]> (pin_states h)).

Definition sim_millis (h : SimHal) : Z := sim_time_ms h.

Definition check_watchdog (h : SimHal) : SimHal :=
  if wdt_enabled h && negb (wdt_fired h) then
    let elapsed := u32_sub (sim_time_ms h) (wdt_last_reset_time h) in
    if SIM_WDT_TIMEOUT_MS <=? elapsed then with_wdt_fired h true else h
  else h.

Definition sim_delay_ms (ms : Z) (h : SimHal) : SimHal :=
  check_watchdog (with_time h (u32 (sim_time_ms h + ms))).

Definition sim_advance_time (ms : Z) (h : SimHal) : SimHal :=
  check_watchdog (with_time h (u32 (sim_time_ms h + ms))).

Definition sim_eeprom_read_byte (addr : Z) (h : SimHal) : Z :=
  if SIM_EEPROM_SIZE <=? addr then 255
  else
    match eeprom_fault_mode h with
    | SIM_EEPROM_READ_FF => 255
    | SIM_EEPROM_WRITE_FAIL | SIM_EEPROM_NORMAL =>
        default 0 (sim_eeprom h !! Z.to_nat addr)
    end.

Definition sim_eeprom_write_byte (addr value : Z) (h : SimHal) : SimHal :=
  if SIM_EEPROM_SIZE <=? addr then h
  else
    match eeprom_fault_mode h with
    | SIM_EEPROM_WRITE_FAIL => h
    | _ => with_eeprom h (<[Z.to_nat addr := u8 value]> (sim_eeprom h))
    end.

(** Little-endian word access built from the byte functions. *)
Definition sim_eeprom_read_word (addr : Z) (h : SimHal) : Z :=
  let lo := sim_eeprom_read_byte addr h in
  let hi := sim_eeprom_read_byte (u16 (addr + 1)) h in
  Z.lor lo (Z.shiftl hi 8).

Definition sim_eeprom_write_word (addr value : Z) (h : SimHal) : SimHal :=
  let h := sim_eeprom_write_byte addr (Z.land value 255) h in
  sim_eeprom_write_byte (u16 (addr + 1)) (Z.land (Z.shiftr value 8) 255) h.

Definition sim_adc_read (channel : Z) (h : SimHal) : Z :=
  if negb (channel =? 3) then 0
  else
    match adc_fault_mode h with
    | SIM_ADC_TIMEOUT => 128
    | SIM_ADC_STUCK_LOW => 0
    | SIM_ADC_STUCK_HIGH => 255
    | SIM_ADC_NORMAL => sim_cv_voltage h
    end.

(** The [sim_hal] interface value: pin assignments read through
    [p_hal->button_a_pin] and friends. *)
Definition max_pin : Z := SIM_NUM_PINS - 1.
Definition button_a_pin : Z := PIN_BUTTON_A.
Definition button_b_pin : Z := PIN_BUTTON_B.
Definition sig_out_pin : Z := PIN_SIG_OUT.

(** Test-side helpers of the simulator ([sim_set_button_a] and so on). *)
Definition sim_set_button_a (pressed : bool) (h : SimHal) : SimHal :=
  with_pins h (<[Z.to_nat PIN_BUTTON_A := if pressed then 0 else 1]> (pin_states h)).

Definition sim_set_button_b (pressed : bool) (h : SimHal) : SimHal :=
  with_pins h (<[Z.to_nat PIN_BUTTON_B := if pressed then 0 else 1]> (pin_states h)).

Definition sim_set_cv_voltage (adc_value : Z) (h : SimHal) : SimHal :=
  mkSimHal (pin_states h) (sim_eeprom h) (sim_time_ms h) adc_value
    (adc_fault_mode h) (eeprom_fault_mode h)
    (wdt_enabled h) (wdt_last_reset_time h) (wdt_fired h).

(** [util_delay_ms] comes from [utility/delay.h], which is not part of
    the sources at hand.  It is taken as a parameter of the startup code:
    any implementation that lets time pass without touching the pins or
    the EEPROM. *)
Class UtilDelay := {
  util_delay_ms : Z -> SimHal -> SimHal;
  util_delay_ms_pins :
    forall ms h, pin_states (util_delay_ms ms h) = pin_states h;
  util_delay_ms_eeprom :
    forall ms h, sim_eeprom (util_delay_ms ms h) = sim_eeprom h;
  util_delay_ms_eeprom_mode :
    forall ms h, eeprom_fault_mode (util_delay_ms ms h) = eeprom_fault_mode h
}.

(** ** lib/input/cv_input.c *)

Definition CV_ADC_CHANNEL : Z := 3.
Definition CV_DEFAULT_HIGH_THRESHOLD : Z := 128.
Definition CV_DEFAULT_LOW_THRESHOLD : Z := 77.

Record CVInput := mkCVInput {
  high_threshold : Z;
  low_threshold : Z;
  last_adc_value : Z;
  current_state : bool
}.

Definition cv_input_init_custom (high low : Z) : CVInput :=
  mkCVInput high low 0 false.

Definition cv_input_init : CVInput :=
  cv_input_init_custom CV_DEFAULT_HIGH_THRESHOLD CV_DEFAULT_LOW_THRESHOLD.

(** [cv_input_update] returns the updated state and the digital level. *)
Definition cv_input_update (cv : CVInput) (adc_value : Z) : CVInput * bool :=
  let st :=
    if current_state cv then
      if adc_value <? low_threshold cv then false else true
    else
      if high_threshold cv <? adc_value then true else false in
  (mkCVInput (high_threshold cv) (low_threshold cv) adc_value st, st).

Definition cv_input_get_state (cv : CVInput) : bool := current_state cv.

(** ** lib/input/button.c *)

Definition TAP_TIMEOUT_MS : Z := 500.
Definition TAPS_TO_CHANGE : Z := 5.
Definition HOLD_TIME_MS : Z := 1000.
Definition EDGE_DEBOUNCE_MS : Z := 5.

Definition BTN_RAW : Z := Z.shiftl 1 0.
Definition BTN_PRESSED : Z := Z.shiftl 1 1.
Definition BTN_LAST : Z := Z.shiftl 1 2.
Definition BTN_RISE : Z := Z.shiftl 1 3.
Definition BTN_FALL : Z := Z.shiftl 1 4.
Definition BTN_CONFIG : Z := Z.shiftl 1 5.
Definition BTN_COUNTING : Z := Z.shiftl 1 6.

Record Button := mkButton {
  btn_pin : Z;
  btn_status : Z;
  tap_count : Z;
  last_rise_time : Z;
  last_fall_time : Z;
  last_tap_time : Z
}.

Definition btn_with_status (b : Button) (s : Z) : Button :=
  mkButton (btn_pin b) s (tap_count b)
    (last_rise_time b) (last_fall_time b) (last_tap_time b).

Definition button_reset (b : Button) : Button :=
  mkButton (btn_pin b) 0 0 0 0 0.

(** [button_init] fails (returns [None] for C's [false]) on a pin above
    [p_hal->max_pin]. *)
Definition button_init (pin : Z) : option Button :=
  if max_pin <? pin then None
  else Some (button_reset (mkButton pin 0 0 0 0 0)).

Definition button_has_rising_edge (b : Button) (h : SimHal) : Button * bool :=
  if STATUS_ANY (btn_status b) BTN_RAW && STATUS_NONE (btn_status b) BTN_LAST then
    if EDGE_DEBOUNCE_MS <? u32_sub (sim_millis h) (last_rise_time b) then
      (mkButton (btn_pin b) (btn_status b) (tap_count b)
         (sim_millis h) (last_fall_time b) (last_tap_time b), true)
    else (b, false)
  else (b, false).

Definition button_has_falling_edge (b : Button) (h : SimHal) : Button * bool :=
  if STATUS_NONE (btn_status b) BTN_RAW && STATUS_ANY (btn_status b) BTN_LAST then
    if EDGE_DEBOUNCE_MS <? u32_sub (sim_millis h) (last_fall_time b) then
      (mkButton (btn_pin b) (btn_status b) (tap_count b)
         (last_rise_time b) (sim_millis h) (last_tap_time b), true)
    else (b, false)
  else (b, false).

(** Legacy five-tap gesture, still called from [button_update]. *)
Definition button_detect_config_action (b : Button) (h : SimHal) : Button * bool :=
  let current_time := sim_millis h in
  (* on rising edge *)
  let b :=
    if STATUS_ANY (btn_status b) BTN_RISE then
      let tc :=
        if u32_sub current_time (last_tap_time b) <=? TAP_TIMEOUT_MS
        then u8 (tap_count b + 1) else 1 in
      let st :=
        if TAPS_TO_CHANGE <=? tc
        then STATUS_SET (btn_status b) BTN_COUNTING else btn_status b in
      mkButton (btn_pin b) st tc (last_rise_time b) (last_fall_time b) current_time
    else b in
  (* hold on the last tap *)
  let '(b, action_detected) :=
    if STATUS_ANY (btn_status b) BTN_COUNTING && STATUS_ANY (btn_status b) BTN_PRESSED then
      if HOLD_TIME_MS <=? u32_sub current_time (last_tap_time b) then
        (mkButton (btn_pin b) (STATUS_CLR (btn_status b) BTN_COUNTING) 0
           (last_rise_time b) (last_fall_time b) (last_tap_time b), true)
      else (b, false)
    else (b, false) in
  (* released before the hold completed *)
  let b :=
    if STATUS_NONE (btn_status b) BTN_PRESSED then
      let st := STATUS_CLR (btn_status b) BTN_COUNTING in
      let tc :=
        if TAP_TIMEOUT_MS <? u32_sub current_time (last_tap_time b)
        then 0 else tap_count b in
      mkButton (btn_pin b) st tc (last_rise_time b) (last_fall_time b) (last_tap_time b)
    else b in
  (b, action_detected).

Definition button_update (b : Button) (h : SimHal) : Button :=
  (* raw sample, active-low *)
  let b := btn_with_status b
             (STATUS_PUT (btn_status b) BTN_RAW (negb (truthy (sim_read_pin (btn_pin b) h)))) in
  (* clear edge flags *)
  let b := btn_with_status b (STATUS_CLR (btn_status b) (Z.lor BTN_RISE BTN_FALL)) in
  (* rising edge *)
  let '(b, rise) := button_has_rising_edge b h in
  let b :=
    if rise then btn_with_status b (STATUS_SET (btn_status b) (Z.lor BTN_RISE BTN_PRESSED))
    else b in
  (* falling edge *)
  let '(b, fall) := button_has_falling_edge b h in
  let b :=
    if fall then
      btn_with_status b (STATUS_CLR (STATUS_SET (btn_status b) BTN_FALL) BTN_PRESSED)
    else b in
  (* legacy config action *)
  let '(b, cfg) := button_detect_config_action b h in
  let b := if cfg then btn_with_status b (STATUS_SET (btn_status b) BTN_CONFIG) else b in
  (* remember the debounced state *)
  btn_with_status b
    (STATUS_PUT (btn_status b) BTN_LAST (STATUS_ANY (btn_status b) BTN_PRESSED)).

(** ** lib/output/cv_output.c *)

Definition PULSE_DURATION_MS : Z := 10.

Definition CVOUT_STATE : Z := Z.shiftl 1 0.
Definition CVOUT_PULSE : Z := Z.shiftl 1 1.
Definition CVOUT_LAST_IN : Z := Z.shiftl 1 2.

Record CVOutput := mkCVOutput {
  cvout_pin : Z;
  cvout_status : Z;
  pulse_start : Z
}.

Definition cv_output_init (pin : Z) : CVOutput := mkCVOutput pin 0 0.

Definition cv_output_reset (o : CVOutput) (h : SimHal) : CVOutput * SimHal :=
  (mkCVOutput (cvout_pin o) 0 0, sim_clear_pin (cvout_pin o) h).

Definition cv_output_set (o : CVOutput) (h : SimHal) : CVOutput * SimHal :=
  (mkCVOutput (cvout_pin o) (STATUS_SET (cvout_status o) CVOUT_STATE) (pulse_start o),
   sim_set_pin (cvout_pin o) h).

Definition cv_output_clear (o : CVOutput) (h : SimHal) : CVOutput * SimHal :=
  (mkCVOutput (cvout_pin o) (STATUS_CLR (cvout_status o) CVOUT_STATE) (pulse_start o),
   sim_clear_pin (cvout_pin o) h).

Definition cv_output_update_gate (o : CVOutput) (input_state : bool) (h : SimHal)
  : CVOutput * SimHal * bool :=
  let '(o, h) := if input_state then cv_output_set o h else cv_output_clear o h in
  (o, h, STATUS_ANY (cvout_status o) CVOUT_STATE).

Definition cv_output_update_pulse (o : CVOutput) (input_state : bool) (h : SimHal)
  : CVOutput * SimHal * bool :=
  let last_input := STATUS_ANY (cvout_status o) CVOUT_LAST_IN in
  (* rising edge triggers new pulse *)
  let '(o, h) :=
    if input_state && negb last_input then
      cv_output_set
        (mkCVOutput (cvout_pin o) (STATUS_SET (cvout_status o) CVOUT_PULSE) (sim_millis h)) h
    else (o, h) in
  (* pulse expiry *)
  let '(o, h) :=
    if STATUS_ANY (cvout_status o) CVOUT_PULSE then
      let current_time := sim_millis h in
      if PULSE_DURATION_MS <=? u32_sub current_time (pulse_start o) then
        cv_output_clear
          (mkCVOutput (cvout_pin o) (STATUS_CLR (cvout_status o) CVOUT_PULSE) (pulse_start o)) h
      else (o, h)
    else (o, h) in
  let o := mkCVOutput (cvout_pin o)
             (STATUS_PUT (cvout_status o) CVOUT_LAST_IN input_state) (pulse_start o) in
  (o, h, STATUS_ANY (cvout_status o) CVOUT_STATE).

Definition cv_output_update_toggle (o : CVOutput) (input_state : bool) (h : SimHal)
  : CVOutput * SimHal * bool :=
  let last_input := STATUS_ANY (cvout_status o) CVOUT_LAST_IN in
  let '(o, h) :=
    if input_state && negb last_input then
      if STATUS_ANY (cvout_status o) CVOUT_STATE
      then cv_output_clear o h else cv_output_set o h
    else (o, h) in
  let o := mkCVOutput (cvout_pin o)
             (STATUS_PUT (cvout_status o) CVOUT_LAST_IN input_state) (pulse_start o) in
  (o, h, STATUS_ANY (cvout_status o) CVOUT_STATE).

(** ** lib/events/events.c *)

Inductive Event :=
| EVT_NONE
| EVT_A_PRESS | EVT_B_PRESS | EVT_CV_RISE | EVT_CV_FALL
| EVT_A_TAP | EVT_A_RELEASE | EVT_B_TAP | EVT_B_RELEASE
| EVT_A_HOLD | EVT_B_HOLD
| EVT_MENU_TOGGLE | EVT_MODE_NEXT
| EVT_TIMEOUT.

(** Numeric value of the enumerator, as passed to the FSM engine. *)
Definition Event_code (e : Event) : Z :=
  match e with
  | EVT_NONE => 0
  | EVT_A_PRESS => 1 | EVT_B_PRESS => 2 | EVT_CV_RISE => 3 | EVT_CV_FALL => 4
  | EVT_A_TAP => 5 | EVT_A_RELEASE => 6 | EVT_B_TAP => 7 | EVT_B_RELEASE => 8
  | EVT_A_HOLD => 9 | EVT_B_HOLD => 10
  | EVT_MENU_TOGGLE => 11 | EVT_MODE_NEXT => 12
  | EVT_TIMEOUT => 13
  end.

Definition Event_eqb (a b : Event) : bool := Event_code a =? Event_code b.

Definition EP_A_PRESSED : Z := Z.shiftl 1 0.
Definition EP_A_LAST : Z := Z.shiftl 1 1.
Definition EP_A_HOLD : Z := Z.shiftl 1 2.
Definition EP_B_PRESSED : Z := Z.shiftl 1 3.
Definition EP_B_LAST : Z := Z.shiftl 1 4.
Definition EP_B_HOLD : Z := Z.shiftl 1 5.
Definition EP_CV_STATE : Z := Z.shiftl 1 6.
Definition EP_CV_LAST : Z := Z.shiftl 1 7.

Definition EP_COMPOUND_FIRED : Z := Z.shiftl 1 0.
Definition EP_B_TOUCHED_DURING_A : Z := Z.shiftl 1 1.

Definition EP_HOLD_THRESHOLD_MS : Z := 500.
Definition EP_TAP_THRESHOLD_MS : Z := 300.

Record EventProcessor := mkEP {
  ep_status : Z;
  ext_status : Z;
  a_press_time : Z;
  b_press_time : Z
}.

Record EventInput := mkEventInput {
  button_a : bool;
  button_b : bool;
  cv_in : bool;
  current_time : Z
}.

Definition event_processor_init : EventProcessor := mkEP 0 0 0 0.
Definition event_processor_reset : EventProcessor := mkEP 0 0 0 0.

(** The body of [event_processor_update], block by block.  Each block
    takes the processor and the event chosen so far. *)

(** "Update current input states". *)
Definition ep_put_inputs (ep : EventProcessor) (input : EventInput) : EventProcessor :=
  let s := STATUS_PUT (ep_status ep) EP_A_PRESSED (button_a input) in
  let s := STATUS_PUT s EP_B_PRESSED (button_b input) in
  let s := STATUS_PUT s EP_CV_STATE (cv_in input) in
  mkEP s (ext_status ep) (a_press_time ep) (b_press_time ep).

(** "Button A edge detection". *)
Definition ep_button_a (ep : EventProcessor) (now : Z) : EventProcessor * Event :=
  let a_pressed := STATUS_ANY (ep_status ep) EP_A_PRESSED in
  let a_was_pressed := STATUS_ANY (ep_status ep) EP_A_LAST in
  if a_pressed && negb a_was_pressed then
    (mkEP (STATUS_CLR (ep_status ep) EP_A_HOLD)
          (Z.land (ext_status ep) (Z.lnot EP_B_TOUCHED_DURING_A))
          now (b_press_time ep),
     EVT_A_PRESS)
  else if negb a_pressed && a_was_pressed then
    let event :=
      if negb (STATUS_ANY (ep_status ep) EP_A_HOLD) then EVT_A_TAP
      else if negb (truthy (Z.land (ext_status ep) EP_B_TOUCHED_DURING_A))
              && negb (truthy (Z.land (ext_status ep) EP_COMPOUND_FIRED))
           then EVT_MODE_NEXT
           else EVT_A_RELEASE in
    (mkEP (STATUS_CLR (ep_status ep) EP_A_HOLD)
          (ext_status ep) (a_press_time ep) (b_press_time ep),
     event)
  else if a_pressed && negb (STATUS_ANY (ep_status ep) EP_A_HOLD) then
    if EP_HOLD_THRESHOLD_MS <=? u32_sub now (a_press_time ep) then
      (mkEP (STATUS_SET (ep_status ep) EP_A_HOLD)
            (ext_status ep) (a_press_time ep) (b_press_time ep),
       if negb (STATUS_ANY (ep_status ep) EP_B_PRESSED) then EVT_A_HOLD else EVT_NONE)
    else (ep, EVT_NONE)
  else (ep, EVT_NONE).

(** "Button B edge detection". *)
Definition ep_button_b (ep : EventProcessor) (now : Z) (event : Event)
  : EventProcessor * Event :=
  let b_pressed := STATUS_ANY (ep_status ep) EP_B_PRESSED in
  let b_was_pressed := STATUS_ANY (ep_status ep) EP_B_LAST in
  if b_pressed && negb b_was_pressed then
    let s := STATUS_CLR (ep_status ep) EP_B_HOLD in
    let x :=
      if STATUS_ANY s EP_A_HOLD
      then Z.lor (ext_status ep) EP_B_TOUCHED_DURING_A else ext_status ep in
    (mkEP s x (a_press_time ep) now,
     if Event_eqb event EVT_NONE then EVT_B_PRESS else event)
  else if negb b_pressed && b_was_pressed then
    let event :=
      if Event_eqb event EVT_NONE then
        if negb (STATUS_ANY (ep_status ep) EP_B_HOLD) then EVT_B_TAP else EVT_B_RELEASE
      else event in
    (mkEP (STATUS_CLR (ep_status ep) EP_B_HOLD)
          (ext_status ep) (a_press_time ep) (b_press_time ep),
     event)
  else if b_pressed && negb (STATUS_ANY (ep_status ep) EP_B_HOLD) then
    if EP_HOLD_THRESHOLD_MS <=? u32_sub now (b_press_time ep) then
      (mkEP (STATUS_SET (ep_status ep) EP_B_HOLD)
            (ext_status ep) (a_press_time ep) (b_press_time ep),
       if Event_eqb event EVT_NONE then EVT_B_HOLD else event)
    else (ep, event)
  else (ep, event).

(** "Compound gesture detection" and the clearing of the fired flag.
    [a_pressed] and [b_pressed] are the locals computed by the two
    blocks above. *)
Definition ep_compound (ep : EventProcessor) (a_pressed b_pressed : bool) (event : Event)
  : EventProcessor * Event :=
  let '(x, event) :=
    if negb (truthy (Z.land (ext_status ep) EP_COMPOUND_FIRED)) then
      if Event_eqb event EVT_B_HOLD
         && STATUS_ANY (ep_status ep) EP_A_PRESSED
         && (a_press_time ep <? b_press_time ep)
      then (Z.lor (ext_status ep) EP_COMPOUND_FIRED, EVT_MENU_TOGGLE)
      else (ext_status ep, event)
    else (ext_status ep, event) in
  let x :=
    if negb a_pressed && negb b_pressed
    then Z.land x (Z.lnot EP_COMPOUND_FIRED) else x in
  (mkEP (ep_status ep) x (a_press_time ep) (b_press_time ep), event).

(** "CV edge detection". *)
Definition ep_cv_edge (cv_high cv_was_high : bool) (event : Event) : Event :=
  if Event_eqb event EVT_NONE then
    if cv_high && negb cv_was_high then EVT_CV_RISE
    else if negb cv_high && cv_was_high then EVT_CV_FALL
    else event
  else event.

(** "Update last states for next cycle". *)
Definition ep_store_last (ep : EventProcessor) (a_pressed b_pressed cv_high : bool)
  : EventProcessor :=
  let s := STATUS_PUT (ep_status ep) EP_A_LAST a_pressed in
  let s := STATUS_PUT s EP_B_LAST b_pressed in
  let s := STATUS_PUT s EP_CV_LAST cv_high in
  mkEP s (ext_status ep) (a_press_time ep) (b_press_time ep).

Definition event_processor_update (ep : EventProcessor) (input : EventInput)
  : EventProcessor * Event :=
  let now := current_time input in
  let ep := ep_put_inputs ep input in
  let a_pressed := STATUS_ANY (ep_status ep) EP_A_PRESSED in
  let '(ep, event) := ep_button_a ep now in
  let b_pressed := STATUS_ANY (ep_status ep) EP_B_PRESSED in
  let '(ep, event) := ep_button_b ep now event in
  let '(ep, event) := ep_compound ep a_pressed b_pressed event in
  let cv_high := STATUS_ANY (ep_status ep) EP_CV_STATE in
  let cv_was_high := STATUS_ANY (ep_status ep) EP_CV_LAST in
  let event := ep_cv_edge cv_high cv_was_high event in
  (ep_store_last ep a_pressed b_pressed cv_high, event).

Definition event_processor_a_pressed (ep : EventProcessor) : bool :=
  STATUS_ANY (ep_status ep) EP_A_PRESSED.
Definition event_processor_b_pressed (ep : EventProcessor) : bool :=
  STATUS_ANY (ep_status ep) EP_B_PRESSED.
Definition event_processor_a_holding (ep : EventProcessor) : bool :=
  STATUS_ANY (ep_status ep) EP_A_HOLD.
Definition event_processor_b_holding (ep : EventProcessor) : bool :=
  STATUS_ANY (ep_status ep) EP_B_HOLD.

(** Feeding a sequence of inputs, collecting the events returned. *)
Fixpoint ep_run (ep : EventProcessor) (inputs : list EventInput)
  : EventProcessor * list Event :=
  match inputs with
  | [] => (ep, [])
  | i :: rest =>
      let '(ep, e) := event_processor_update ep i in
      let '(ep, es) := ep_run ep rest in
      (ep, e :: es)
  end.

Definition is_event (e : Event) : bool := negb (Event_eqb e EVT_NONE).

(** ** lib/fsm/fsm.c

    Callbacks are pointers to parameterless [void] functions in C.  A pointer is modelled
    by a tag, run by an interpreter supplied by the client: [SA] tags the
    per-state callbacks, [TA] the transition actions.  The callbacks act
    on a world [W] that contains the FSM instance itself; the FSM pointer
    argument of every engine function becomes a pair of accessors into
    that world, so a callback that touches the very FSM being stepped is
    seen by the engine. *)

Definition FSM_NO_TRANSITION : Z := 255.
Definition FSM_ANY_STATE : Z := 254.

Record State (SA : Type) := mkState {
  state_id : Z;
  on_enter : option SA;
  on_exit : option SA;
  on_update : option SA
}.
Arguments mkState {SA}.
Arguments state_id {SA}.
Arguments on_enter {SA}.
Arguments on_exit {SA}.
Arguments on_update {SA}.

Record Transition (TA : Type) := mkTransition {
  from_state : Z;
  trans_event : Z;
  to_state : Z;
  action : option TA
}.
Arguments mkTransition {TA}.
Arguments from_state {TA}.
Arguments trans_event {TA}.
Arguments to_state {TA}.
Arguments action {TA}.

(** The table pointers may be [NULL] ([None]); the counts say how many
    rows the engine visits. *)
Record FSM (SA TA : Type) := mkFSM {
  states : option (list (State SA));
  transitions : option (list (Transition TA));
  num_states : Z;
  num_transitions : Z;
  fsm_current_state : Z;
  initial_state : Z;
  active : bool
}.
Arguments mkFSM {SA TA}.
Arguments states {SA TA}.
Arguments transitions {SA TA}.
Arguments num_states {SA TA}.
Arguments num_transitions {SA TA}.
Arguments fsm_current_state {SA TA}.
Arguments initial_state {SA TA}.
Arguments active {SA TA}.

Definition fsm_with_state {SA TA} (f : FSM SA TA) (s : Z) : FSM SA TA :=
  mkFSM (states f) (transitions f) (num_states f) (num_transitions f)
        s (initial_state f) (active f).

Definition fsm_with_active {SA TA} (f : FSM SA TA) (a : bool) : FSM SA TA :=
  mkFSM (states f) (transitions f) (num_states f) (num_transitions f)
        (fsm_current_state f) (initial_state f) a.

Definition fsm_init {SA TA} (sts : option (list (State SA))) (n_states : Z)
    (trs : option (list (Transition TA))) (n_trans : Z) (initial : Z) : FSM SA TA :=
  mkFSM sts trs n_states n_trans initial initial false.

Definition fsm_get_state {SA TA} (f : FSM SA TA) : Z := fsm_current_state f.
Definition fsm_is_active {SA TA} (f : FSM SA TA) : bool := active f.

(** The [for] loop of [find_state_index] over the rows [i, i+1, ...]. *)
Fixpoint find_state_from {SA} (rows : list (State SA)) (i : Z) (id : Z) : Z :=
  match rows with
  | [] => 255
  | s :: rest => if state_id s =? id then i else find_state_from rest (i + 1) id
  end.

Definition find_state_index {SA TA} (f : FSM SA TA) (id : Z) : Z :=
  match states f with
  | None => 255
  | Some rows => find_state_from (take (Z.to_nat (num_states f)) rows) 0 id
  end.

(** Row [idx] of the state table, read after a successful search. *)
Definition read_state {SA TA} (f : FSM SA TA) (idx : Z) : option (State SA) :=
  match states f with
  | None => None
  | Some rows => rows !! Z.to_nat idx
  end.

Section FsmEngine.
Context {SA TA W : Type}.
Variable run_state_action : SA -> W -> W.
Variable run_action : TA -> W -> W.
(** The [FSM *fsm] argument. *)
Variable fsm_of : W -> FSM SA TA.
Variable put_fsm : FSM SA TA -> W -> W.

Definition run_opt {A} (run : A -> W -> W) (cb : option A) (w : W) : W :=
  match cb with
  | Some a => run a w
  | None => w
  end.

Definition call_entry_action (id : Z) (w : W) : W :=
  let idx := find_state_index (fsm_of w) id in
  if idx =? 255 then w
  else match read_state (fsm_of w) idx with
       | Some s => run_opt run_state_action (on_enter s) w
       | None => w
       end.

Definition call_exit_action (id : Z) (w : W) : W :=
  let idx := find_state_index (fsm_of w) id in
  if idx =? 255 then w
  else match read_state (fsm_of w) idx with
       | Some s => run_opt run_state_action (on_exit s) w
       | None => w
       end.

Definition fsm_start (w : W) : W :=
  let w := put_fsm (fsm_with_active (fsm_of w) true) w in
  call_entry_action (fsm_current_state (fsm_of w)) w.

(** The search loop of [fsm_process_event]; it leaves at the first
    matching row, so the world is the same for every row inspected. *)
Fixpoint fsm_process_rows (rows : list (Transition TA)) (event : Z) (w : W) : W * bool :=
  match rows with
  | [] => (w, false)
  | t :: rest =>
      let state_matches :=
        (from_state t =? fsm_current_state (fsm_of w)) || (from_state t =? FSM_ANY_STATE) in
      let event_matches := trans_event t =? event in
      if state_matches && event_matches then
        if to_state t =? FSM_NO_TRANSITION then
          (run_opt run_action (action t) w, false)
        else
          let w := call_exit_action (fsm_current_state (fsm_of w)) w in
          let w := run_opt run_action (action t) w in
          let w := put_fsm (fsm_with_state (fsm_of w) (to_state t)) w in
          let w := call_entry_action (fsm_current_state (fsm_of w)) w in
          (w, true)
      else fsm_process_rows rest event w
  end.

Definition fsm_process_event (event : Z) (w : W) : W * bool :=
  if negb (active (fsm_of w)) then (w, false)
  else match transitions (fsm_of w) with
       | None => (w, false)
       | Some rows =>
           fsm_process_rows (take (Z.to_nat (num_transitions (fsm_of w))) rows) event w
       end.

Definition fsm_update (w : W) : W :=
  if negb (active (fsm_of w)) then w
  else
    let idx := find_state_index (fsm_of w) (fsm_current_state (fsm_of w)) in
    if idx =? 255 then w
    else match read_state (fsm_of w) idx with
         | Some s => run_opt run_state_action (on_update s) w
         | None => w
         end.

Definition fsm_reset (w : W) : W :=
  let w := if active (fsm_of w)
           then call_exit_action (fsm_current_state (fsm_of w)) w else w in
  let w := put_fsm (fsm_with_state (fsm_of w) (initial_state (fsm_of w))) w in
  if active (fsm_of w) then call_entry_action (initial_state (fsm_of w)) w else w.

Definition fsm_stop (w : W) : W :=
  if negb (active (fsm_of w)) then w
  else
    let w := call_exit_action (fsm_current_state (fsm_of w)) w in
    put_fsm (fsm_with_active (fsm_of w) false) w.

Definition fsm_set_state (id : Z) (w : W) : W :=
  let w := if active (fsm_of w)
           then call_exit_action (fsm_current_state (fsm_of w)) w else w in
  let w := put_fsm (fsm_with_state (fsm_of w) id) w in
  if active (fsm_of w) then call_entry_action id w else w.
End FsmEngine.

(** The row of the state table that [find_state_index] stops at: the
    first of the visited rows that carries the id. *)
Fixpoint fsm_find_row {SA} (rows : list (State SA)) (id : Z) : option (State SA) :=
  match rows with
  | [] => None
  | s :: rest => if state_id s =? id then Some s else fsm_find_row rest id
  end.

Definition fsm_state_row {SA TA} (f : FSM SA TA) (id : Z) : option (State SA) :=
  match states f with
  | None => None
  | Some rows => fsm_find_row (take (Z.to_nat (num_states f)) rows) id
  end.

(** The exit and the entry callback the state table declares for an id,
    if any. *)
Definition fsm_exit_callback {SA TA} (f : FSM SA TA) (id : Z) : option SA :=
  match fsm_state_row f id with
  | Some s => on_exit s
  | None => None
  end.

Definition fsm_entry_callback {SA TA} (f : FSM SA TA) (id : Z) : option SA :=
  match fsm_state_row f id with
  | Some s => on_enter s
  | None => None
  end.

(** A client of the engine whose callbacks are numbered and whose world
    keeps, beside the FSM, the numbers of the callbacks run so far,
    oldest first. *)
Definition LogWorld : Type := FSM Z unit * list Z.

Definition log_callback (a : Z) (w : LogWorld) : LogWorld := (fst w, snd w ++ [a]).
Definition log_fsm_of (w : LogWorld) : FSM Z unit := fst w.
Definition log_put_fsm (f : FSM Z unit) (w : LogWorld) : LogWorld := (f, snd w).

(** Two states: state 0 with entry callback 10 and exit callback 11,
    state 1 with entry callback 20 and exit callback 21; the FSM is in
    state 0. *)
Definition log_states : list (State Z) :=
  [mkState 0 (Some 10) (Some 11) None; mkState 1 (Some 20) (Some 21) None].

Definition log_world (is_active : bool) : LogWorld :=
  (mkFSM (Some log_states) None 2 0 0 0 is_active, []).

(** ** src/core/states.h and src/config/mode_config.h *)

Definition TOP_PERFORM : Z := 0.
Definition TOP_MENU : Z := 1.
Definition TOP_STATE_COUNT : Z := 2.

Definition MODE_GATE : Z := 0.
Definition MODE_TRIGGER : Z := 1.
Definition MODE_TOGGLE : Z := 2.
Definition MODE_DIVIDE : Z := 3.
Definition MODE_CYCLE : Z := 4.
Definition MODE_COUNT : Z := 5.

Definition PAGE_GATE_CV : Z := 0.
Definition PAGE_TRIGGER_BEHAVIOR : Z := 1.
Definition PAGE_TRIGGER_PULSE_LEN : Z := 2.
Definition PAGE_TOGGLE_BEHAVIOR : Z := 3.
Definition PAGE_DIVIDE_DIVISOR : Z := 4.
Definition PAGE_CYCLE_PATTERN : Z := 5.
Definition PAGE_CV_GLOBAL : Z := 6.
Definition PAGE_MENU_TIMEOUT : Z := 7.
Definition PAGE_COUNT : Z := 8.

Definition mode_to_start_page (mode : Z) : Z :=
  if mode =? MODE_GATE then PAGE_GATE_CV
  else if mode =? MODE_TRIGGER then PAGE_TRIGGER_BEHAVIOR
  else if mode =? MODE_TOGGLE then PAGE_TOGGLE_BEHAVIOR
  else if mode =? MODE_DIVIDE then PAGE_DIVIDE_DIVISOR
  else if mode =? MODE_CYCLE then PAGE_CYCLE_PATTERN
  else PAGE_GATE_CV.

Definition TRIGGER_PULSE_COUNT : Z := 4.
Definition TRIGGER_EDGE_COUNT : Z := 3.
Definition DIVIDE_DIVISOR_COUNT : Z := 4.
Definition CYCLE_TEMPO_COUNT : Z := 5.
Definition TOGGLE_EDGE_COUNT : Z := 2.
Definition GATE_A_MODE_OFF : Z := 0.
Definition GATE_A_MODE_MANUAL : Z := 1.
Definition GATE_A_MODE_COUNT : Z := 2.
Definition SETTINGS_FIELD_COUNT : Z := 8.

(** ** src/app_init.c *)

Definition APP_INIT_RESET_HOLD_MS : Z := 3000.
Definition APP_INIT_RESET_POLL_MS : Z := 50.
Definition APP_INIT_RESET_BLINK_MS : Z := 100.
Definition DEFAULTS_BLINK_COUNT : Z := 2.
Definition APP_INIT_RESET_MAX_ITERATIONS : Z :=
  APP_INIT_RESET_HOLD_MS / APP_INIT_RESET_POLL_MS + 20.

Definition EEPROM_MAGIC_ADDR : Z := 0.
Definition EEPROM_SCHEMA_ADDR : Z := 2.
Definition EEPROM_SETTINGS_ADDR : Z := 3.
Definition EEPROM_CHECKSUM_ADDR : Z := 16.
Definition EEPROM_MAGIC_VALUE : Z := 18251.
Definition SETTINGS_SCHEMA_VERSION : Z := 2.

Inductive AppInitResult :=
  APP_INIT_OK | APP_INIT_OK_DEFAULTS | APP_INIT_OK_FACTORY_RESET.

Record AppSettings := mkAppSettings {
  mode : Z;
  trigger_pulse_idx : Z;
  trigger_edge : Z;
  divide_divisor_idx : Z;
  cycle_tempo_idx : Z;
  toggle_edge : Z;
  gate_a_mode : Z;
  reserved : Z
}.

(** [sizeof(AppSettings)]: the struct is packed, eight [uint8_t]. *)
Definition APP_SETTINGS_SIZE : Z := 8.

(** The struct seen as the byte array the C code casts it to ... *)
Definition settings_bytes (s : AppSettings) : list Z :=
  [mode s; trigger_pulse_idx s; trigger_edge s; divide_divisor_idx s;
   cycle_tempo_idx s; toggle_edge s; gate_a_mode s; reserved s].

Definition settings_byte (s : AppSettings) (i : Z) : Z :=
  default 0 (settings_bytes s !! Z.to_nat i).

(** ... and a store [data[i] = v] through that byte view. *)
Definition settings_store (s : AppSettings) (i : Z) (v : Z) : AppSettings :=
  match <[Z.to_nat i := v]> (settings_bytes s) with
  | [b0; b1; b2; b3; b4; b5; b6; b7] => mkAppSettings b0 b1 b2 b3 b4 b5 b6 b7
  | _ => s
  end.

Definition SETTINGS_LIMITS : list Z :=
  [MODE_COUNT; TRIGGER_PULSE_COUNT; TRIGGER_EDGE_COUNT; DIVIDE_DIVISOR_COUNT;
   CYCLE_TEMPO_COUNT; TOGGLE_EDGE_COUNT; GATE_A_MODE_COUNT; 0].

Definition settings_limit (i : Z) : Z :=
  default 0 (SETTINGS_LIMITS !! Z.to_nat i).

Definition calculate_checksum (s : AppSettings) : Z :=
  fold_left (fun checksum i => Z.lxor checksum (settings_byte s i))
            (seqZ 0 APP_SETTINGS_SIZE) 0.

Definition app_init_get_defaults : AppSettings :=
  mkAppSettings MODE_GATE 0 0 0 0 0 0 0.

Definition app_init_clear_eeprom (h : SimHal) : SimHal :=
  sim_eeprom_write_word EEPROM_MAGIC_ADDR 65535 h.

Definition app_init_save_settings (s : AppSettings) (h : SimHal) : SimHal :=
  let h := sim_eeprom_write_word EEPROM_MAGIC_ADDR EEPROM_MAGIC_VALUE h in
  let h := sim_eeprom_write_byte EEPROM_SCHEMA_ADDR SETTINGS_SCHEMA_VERSION h in
  let h := fold_left
             (fun h i => sim_eeprom_write_byte (EEPROM_SETTINGS_ADDR + i) (settings_byte s i) h)
             (seqZ 0 APP_SETTINGS_SIZE) h in
  sim_eeprom_write_byte EEPROM_CHECKSUM_ADDR (calculate_checksum s) h.

(** Level 4 of the loader: the loop over the limits table, leaving with
    failure at the first field at or above a non-zero limit. *)
Definition settings_in_range (s : AppSettings) : bool :=
  forallb (fun i =>
             let limit := settings_limit i in
             negb ((0 <? limit) && (limit <=? settings_byte s i)))
          (seqZ 0 SETTINGS_FIELD_COUNT).

(** [load_settings] writes through its argument from level 3 on, also
    when it then fails; the pair is the struct as left behind and the
    result. *)
Definition load_settings (s : AppSettings) (h : SimHal) : AppSettings * bool :=
  let magic := sim_eeprom_read_word EEPROM_MAGIC_ADDR h in
  if negb (magic =? EEPROM_MAGIC_VALUE) then (s, false)
  else
    let schema := sim_eeprom_read_byte EEPROM_SCHEMA_ADDR h in
    if negb (schema =? SETTINGS_SCHEMA_VERSION) then (s, false)
    else
      let s := fold_left
                 (fun s i => settings_store s i (sim_eeprom_read_byte (EEPROM_SETTINGS_ADDR + i) h))
                 (seqZ 0 APP_SETTINGS_SIZE) s in
      let stored_checksum := sim_eeprom_read_byte EEPROM_CHECKSUM_ADDR h in
      let calculated_checksum := calculate_checksum s in
      if negb (stored_checksum =? calculated_checksum) then (s, false)
      else if negb (settings_in_range s) then (s, false)
      else (s, true).

Section Startup.
Context `{UtilDelay}.

Definition reset_feedback_tick (h : SimHal) : SimHal :=
  sim_toggle_pin sig_out_pin h.

Definition reset_complete_feedback (h : SimHal) : SimHal :=
  let h := sim_set_pin sig_out_pin h in
  let h := util_delay_ms 500 h in
  sim_clear_pin sig_out_pin h.

Definition blink_once (h : SimHal) : SimHal :=
  let h := sim_set_pin sig_out_pin h in
  let h := util_delay_ms 100 h in
  let h := sim_clear_pin sig_out_pin h in
  util_delay_ms 100 h.

Definition defaults_feedback (h : SimHal) : SimHal :=
  let h := Nat.iter (Z.to_nat DEFAULTS_BLINK_COUNT) blink_once h in
  let h := util_delay_ms 200 h in
  Nat.iter (Z.to_nat DEFAULTS_BLINK_COUNT) blink_once h.

(** The polling loop of [app_init_check_factory_reset].  [remaining]
    is [APP_INIT_RESET_MAX_ITERATIONS - iterations]; the result is
    [true] when the loop ran to its end and [false] when a button was
    released. *)
Fixpoint reset_poll (remaining : nat) (start_time last_blink : Z) (h : SimHal)
  : SimHal * bool :=
  match remaining with
  | O => (h, true)
  | S r =>
      if u32_sub (sim_millis h) start_time <? APP_INIT_RESET_HOLD_MS then
        let '(h, last_blink) :=
          if APP_INIT_RESET_BLINK_MS <=? u32_sub (sim_millis h) last_blink then
            let h := reset_feedback_tick h in (h, sim_millis h)
          else (h, last_blink) in
        if truthy (sim_read_pin button_a_pin h) || truthy (sim_read_pin button_b_pin h) then
          (sim_clear_pin sig_out_pin h, false)
        else reset_poll r start_time last_blink (util_delay_ms APP_INIT_RESET_POLL_MS h)
      else (h, true)
  end.

Definition app_init_check_factory_reset (h : SimHal) : SimHal * bool :=
  let t1 := sim_millis h in
  let h := util_delay_ms 10 h in
  let t2 := sim_millis h in
  if t2 <=? t1 then (h, false)
  else if truthy (sim_read_pin button_a_pin h) || truthy (sim_read_pin button_b_pin h) then
    (h, false)
  else
    let start_time := sim_millis h in
    let '(h, held) :=
      reset_poll (Z.to_nat APP_INIT_RESET_MAX_ITERATIONS) start_time start_time h in
    if held then (reset_complete_feedback h, true) else (h, false).

(** [app_init_run] on a non-null [settings]; [s] is what the caller's
    struct held on entry. *)
Definition app_init_run (s : AppSettings) (h : SimHal)
  : AppSettings * SimHal * AppInitResult :=
  let '(h, reset) := app_init_check_factory_reset h in
  if reset then
    let h := app_init_clear_eeprom h in
    let s := app_init_get_defaults in
    let h := app_init_save_settings s h in
    let verify_magic := sim_eeprom_read_word EEPROM_MAGIC_ADDR h in
    let h :=
      if negb (verify_magic =? EEPROM_MAGIC_VALUE) then
        let h := Nat.iter 10 (fun h => util_delay_ms 50 (sim_toggle_pin sig_out_pin h)) h in
        sim_clear_pin sig_out_pin h
      else h in
    (s, h, APP_INIT_OK_FACTORY_RESET)
  else
    let '(s, ok) := load_settings s h in
    if ok then (s, h, APP_INIT_OK)
    else (app_init_get_defaults, defaults_feedback h, APP_INIT_OK_DEFAULTS).
End Startup.

(** ** src/modes/mode_handlers.h

    Only the header of the mode handlers is among the sources; the
    coordinator is therefore stated over any implementation of its two
    entry points.  [mode_handler_process] receives the mode, the context,
    the input bit, the output bit it may overwrite and the HAL it may
    read the time from. *)
Class ModeHandlers := {
  ModeContext : Type;
  mode_handler_init : Z -> ModeContext -> option AppSettings -> ModeContext;
  mode_handler_process : Z -> ModeContext -> bool -> bool -> SimHal -> ModeContext * bool
}.

(** ** src/core/coordinator.c *)

Definition MENU_TIMEOUT_MS : Z := 60000.

(** The five action functions of the coordinator, as table entries. *)
Inductive CoordAction :=
  ActEnterMenu | ActExitMenu | ActNextMode | ActNextPage | ActCycleValue.

(** Every state row of the coordinator has [NULL] callbacks: there is no
    state-callback function to point to. *)
Inductive NoCallback : Type := .

Definition run_no_callback {W : Type} (cb : NoCallback) (w : W) : W :=
  match cb with end.

Definition top_states : list (State NoCallback) :=
  [ mkState TOP_PERFORM None None None;
    mkState TOP_MENU None None None ].

Definition mode_states : list (State NoCallback) :=
  [ mkState MODE_GATE None None None;
    mkState MODE_TRIGGER None None None;
    mkState MODE_TOGGLE None None None;
    mkState MODE_DIVIDE None None None;
    mkState MODE_CYCLE None None None ].

Definition menu_states : list (State NoCallback) :=
  [ mkState PAGE_GATE_CV None None None;
    mkState PAGE_TRIGGER_BEHAVIOR None None None;
    mkState PAGE_TRIGGER_PULSE_LEN None None None;
    mkState PAGE_TOGGLE_BEHAVIOR None None None;
    mkState PAGE_DIVIDE_DIVISOR None None None;
    mkState PAGE_CYCLE_PATTERN None None None;
    mkState PAGE_CV_GLOBAL None None None;
    mkState PAGE_MENU_TIMEOUT None None None ].

Definition top_transitions : list (Transition CoordAction) :=
  [ mkTransition TOP_PERFORM (Event_code EVT_MENU_TOGGLE) TOP_MENU (Some ActEnterMenu);
    mkTransition TOP_MENU (Event_code EVT_MENU_TOGGLE) TOP_PERFORM (Some ActExitMenu);
    mkTransition TOP_MENU (Event_code EVT_TIMEOUT) TOP_PERFORM (Some ActExitMenu) ].

Definition mode_transitions : list (Transition CoordAction) :=
  [ mkTransition FSM_ANY_STATE (Event_code EVT_MODE_NEXT) FSM_NO_TRANSITION (Some ActNextMode) ].

Definition menu_transitions : list (Transition CoordAction) :=
  [ mkTransition FSM_ANY_STATE (Event_code EVT_A_TAP) FSM_NO_TRANSITION (Some ActNextPage);
    mkTransition FSM_ANY_STATE (Event_code EVT_B_TAP) FSM_NO_TRANSITION (Some ActCycleValue) ].

Definition CoordFSM : Type := FSM NoCallback CoordAction.

Section CoordinatorDefs.
Context `{ModeHandlers}.

(** [settings] is the pointer together with the struct it points to;
    [None] is [NULL]. *)
Record Coordinator := mkCoordinator {
  top_fsm : CoordFSM;
  mode_fsm : CoordFSM;
  menu_fsm : CoordFSM;
  events : EventProcessor;
  cv_input : CVInput;
  menu_entry_mode : Z;
  menu_enter_time : Z;
  last_activity : Z;
  settings : option AppSettings;
  mode_ctx : ModeContext;
  output_state : bool
}.

(** What the actions can reach: the coordinator behind [g_coord]
    ([g_coord = false] is the [NULL] pointer) and the HAL behind
    [p_hal]. *)
Record World := mkWorld {
  coord : Coordinator;
  g_coord : bool;
  hal : SimHal
}.

Definition with_coord (w : World) (c : Coordinator) : World :=
  mkWorld c (g_coord w) (hal w).
Definition with_g_coord (w : World) (g : bool) : World :=
  mkWorld (coord w) g (hal w).
Definition with_hal (w : World) (h : SimHal) : World :=
  mkWorld (coord w) (g_coord w) h.

Definition set_top_fsm (c : Coordinator) (f : CoordFSM) : Coordinator :=
  mkCoordinator f (mode_fsm c) (menu_fsm c) (events c) (cv_input c)
    (menu_entry_mode c) (menu_enter_time c) (last_activity c)
    (settings c) (mode_ctx c) (output_state c).
Definition set_mode_fsm (c : Coordinator) (f : CoordFSM) : Coordinator :=
  mkCoordinator (top_fsm c) f (menu_fsm c) (events c) (cv_input c)
    (menu_entry_mode c) (menu_enter_time c) (last_activity c)
    (settings c) (mode_ctx c) (output_state c).
Definition set_menu_fsm (c : Coordinator) (f : CoordFSM) : Coordinator :=
  mkCoordinator (top_fsm c) (mode_fsm c) f (events c) (cv_input c)
    (menu_entry_mode c) (menu_enter_time c) (last_activity c)
    (settings c) (mode_ctx c) (output_state c).
Definition set_inputs (c : Coordinator) (ep : EventProcessor) (cv : CVInput) : Coordinator :=
  mkCoordinator (top_fsm c) (mode_fsm c) (menu_fsm c) ep cv
    (menu_entry_mode c) (menu_enter_time c) (last_activity c)
    (settings c) (mode_ctx c) (output_state c).
Definition set_menu_entry (c : Coordinator) (m t : Z) : Coordinator :=
  mkCoordinator (top_fsm c) (mode_fsm c) (menu_fsm c) (events c) (cv_input c)
    m t t (settings c) (mode_ctx c) (output_state c).
Definition set_last_activity (c : Coordinator) (t : Z) : Coordinator :=
  mkCoordinator (top_fsm c) (mode_fsm c) (menu_fsm c) (events c) (cv_input c)
    (menu_entry_mode c) (menu_enter_time c) t
    (settings c) (mode_ctx c) (output_state c).
Definition set_settings (c : Coordinator) (s : option AppSettings) : Coordinator :=
  mkCoordinator (top_fsm c) (mode_fsm c) (menu_fsm c) (events c) (cv_input c)
    (menu_entry_mode c) (menu_enter_time c) (last_activity c)
    s (mode_ctx c) (output_state c).
Definition set_mode_ctx (c : Coordinator) (x : ModeContext) : Coordinator :=
  mkCoordinator (top_fsm c) (mode_fsm c) (menu_fsm c) (events c) (cv_input c)
    (menu_entry_mode c) (menu_enter_time c) (last_activity c)
    (settings c) x (output_state c).
Definition set_mode_output (c : Coordinator) (x : ModeContext) (o : bool) : Coordinator :=
  mkCoordinator (top_fsm c) (mode_fsm c) (menu_fsm c) (events c) (cv_input c)
    (menu_entry_mode c) (menu_enter_time c) (last_activity c)
    (settings c) x o.

(** The three FSM pointers [&g_coord->top_fsm] and so on. *)
Definition top_of (w : World) : CoordFSM := top_fsm (coord w).
Definition put_top (f : CoordFSM) (w : World) : World :=
  with_coord w (set_top_fsm (coord w) f).
Definition mode_of (w : World) : CoordFSM := mode_fsm (coord w).
Definition put_mode (f : CoordFSM) (w : World) : World :=
  with_coord w (set_mode_fsm (coord w) f).
Definition menu_of (w : World) : CoordFSM := menu_fsm (coord w).
Definition put_menu (f : CoordFSM) (w : World) : World :=
  with_coord w (set_menu_fsm (coord w) f).

Definition action_enter_menu (w : World) : World :=
  if negb (g_coord w) then w
  else
    let entry := fsm_get_state (mode_of w) in
    let t := sim_millis (hal w) in
    let w := with_coord w (set_menu_entry (coord w) entry t) in
    let start_page := mode_to_start_page (menu_entry_mode (coord w)) in
    fsm_set_state run_no_callback menu_of put_menu start_page w.

Definition action_exit_menu (w : World) : World :=
  if negb (g_coord w) then w
  else
    match settings (coord w) with
    | None => w
    | Some s =>
        let s := mkAppSettings (fsm_get_state (mode_of w))
                   (trigger_pulse_idx s) (trigger_edge s) (divide_divisor_idx s)
                   (cycle_tempo_idx s) (toggle_edge s) (gate_a_mode s) (reserved s) in
        let w := with_coord w (set_settings (coord w) (Some s)) in
        with_hal w (app_init_save_settings s (hal w))
    end.

Definition action_next_mode (w : World) : World :=
  if negb (g_coord w) then w
  else
    let current := fsm_get_state (mode_of w) in
    let next := u8 ((current + 1) mod MODE_COUNT) in
    let w := fsm_set_state run_no_callback mode_of put_mode next w in
    let w := with_coord w
               (set_mode_ctx (coord w)
                  (mode_handler_init next (mode_ctx (coord w)) (settings (coord w)))) in
    with_coord w (set_last_activity (coord w) (sim_millis (hal w))).

Definition action_next_page (w : World) : World :=
  if negb (g_coord w) then w
  else
    let current := fsm_get_state (menu_of w) in
    let next := u8 ((current + 1) mod PAGE_COUNT) in
    let w := fsm_set_state run_no_callback menu_of put_menu next w in
    with_coord w (set_last_activity (coord w) (sim_millis (hal w))).

Definition action_cycle_value (w : World) : World :=
  if negb (g_coord w) then w
  else
    match settings (coord w) with
    | None => w
    | Some s =>
        let page := fsm_get_state (menu_of w) in
        let current_mode := fsm_get_state (mode_of w) in
        let '(s, reinit_needed) :=
          if page =? PAGE_GATE_CV then
            (mkAppSettings (mode s) (trigger_pulse_idx s) (trigger_edge s)
               (divide_divisor_idx s) (cycle_tempo_idx s) (toggle_edge s)
               (u8 ((gate_a_mode s + 1) mod GATE_A_MODE_COUNT)) (reserved s),
             current_mode =? MODE_GATE)
          else if page =? PAGE_TRIGGER_BEHAVIOR then
            (mkAppSettings (mode s) (trigger_pulse_idx s)
               (u8 ((trigger_edge s + 1) mod TRIGGER_EDGE_COUNT))
               (divide_divisor_idx s) (cycle_tempo_idx s) (toggle_edge s)
               (gate_a_mode s) (reserved s),
             current_mode =? MODE_TRIGGER)
          else if page =? PAGE_TRIGGER_PULSE_LEN then
            (mkAppSettings (mode s)
               (u8 ((trigger_pulse_idx s + 1) mod TRIGGER_PULSE_COUNT)) (trigger_edge s)
               (divide_divisor_idx s) (cycle_tempo_idx s) (toggle_edge s)
               (gate_a_mode s) (reserved s),
             current_mode =? MODE_TRIGGER)
          else if page =? PAGE_TOGGLE_BEHAVIOR then
            (mkAppSettings (mode s) (trigger_pulse_idx s) (trigger_edge s)
               (divide_divisor_idx s) (cycle_tempo_idx s)
               (u8 ((toggle_edge s + 1) mod TOGGLE_EDGE_COUNT))
               (gate_a_mode s) (reserved s),
             current_mode =? MODE_TOGGLE)
          else if page =? PAGE_DIVIDE_DIVISOR then
            (mkAppSettings (mode s) (trigger_pulse_idx s) (trigger_edge s)
               (u8 ((divide_divisor_idx s + 1) mod DIVIDE_DIVISOR_COUNT))
               (cycle_tempo_idx s) (toggle_edge s) (gate_a_mode s) (reserved s),
             current_mode =? MODE_DIVIDE)
          else if page =? PAGE_CYCLE_PATTERN then
            (mkAppSettings (mode s) (trigger_pulse_idx s) (trigger_edge s)
               (divide_divisor_idx s)
               (u8 ((cycle_tempo_idx s + 1) mod CYCLE_TEMPO_COUNT))
               (toggle_edge s) (gate_a_mode s) (reserved s),
             current_mode =? MODE_CYCLE)
          else (s, false) in
        let w := with_coord w (set_settings (coord w) (Some s)) in
        let w :=
          if reinit_needed then
            with_coord w
              (set_mode_ctx (coord w)
                 (mode_handler_init current_mode (mode_ctx (coord w)) (settings (coord w))))
          else w in
        with_coord w (set_last_activity (coord w) (sim_millis (hal w)))
    end.

(** Calling through an action pointer of the transition tables. *)
Definition run_coord_action (a : CoordAction) (w : World) : World :=
  match a with
  | ActEnterMenu => action_enter_menu w
  | ActExitMenu => action_exit_menu w
  | ActNextMode => action_next_mode w
  | ActNextPage => action_next_page w
  | ActCycleValue => action_cycle_value w
  end.

Definition top_process_event : Z -> World -> World * bool :=
  fsm_process_event run_no_callback run_coord_action top_of put_top.
Definition mode_process_event : Z -> World -> World * bool :=
  fsm_process_event run_no_callback run_coord_action mode_of put_mode.
Definition menu_process_event : Z -> World -> World * bool :=
  fsm_process_event run_no_callback run_coord_action menu_of put_menu.

(** [coordinator_init] overwrites every field of [c]; the mode context
    is initialised in place by the gate handler. *)
Definition coordinator_init (c : Coordinator) (s : option AppSettings) : Coordinator :=
  mkCoordinator
    (fsm_init (Some top_states) TOP_STATE_COUNT
              (Some top_transitions) (Z.of_nat (length top_transitions)) TOP_PERFORM)
    (fsm_init (Some mode_states) MODE_COUNT
              (Some mode_transitions) (Z.of_nat (length mode_transitions)) MODE_GATE)
    (fsm_init (Some menu_states) PAGE_COUNT
              (Some menu_transitions) (Z.of_nat (length menu_transitions)) PAGE_GATE_CV)
    event_processor_init
    cv_input_init
    MODE_GATE 0 0
    s
    (mode_handler_init MODE_GATE (mode_ctx c) s)
    false.

Definition coordinator_start (w : World) : World :=
  let w := fsm_start run_no_callback top_of put_top w in
  let w := fsm_start run_no_callback mode_of put_mode w in
  let w := fsm_start run_no_callback menu_of put_menu w in
  with_coord w (set_last_activity (coord w) (sim_millis (hal w))).

(** First block of [coordinator_update]: the ADC sample goes through
    the hysteresis, the two button pins are read from the HAL and
    inverted. *)
Definition coordinator_read_inputs (w : World) : CVInput * EventInput :=
  let cv_adc := sim_adc_read CV_ADC_CHANNEL (hal w) in
  let '(cv, cv_state) := cv_input_update (cv_input (coord w)) cv_adc in
  (cv, mkEventInput
         (negb (truthy (sim_read_pin button_a_pin (hal w))))
         (negb (truthy (sim_read_pin button_b_pin (hal w))))
         cv_state
         (sim_millis (hal w))).

(** Second block: routing of a non-none event. *)
Definition coordinator_route_event (event : Event) (w : World) : World :=
  if is_event event then
    let top_state := fsm_get_state (top_of w) in
    let w :=
      if top_state =? TOP_MENU
      then with_coord w (set_last_activity (coord w) (sim_millis (hal w)))
      else w in
    let '(w, handled) := top_process_event (Event_code event) w in
    if negb handled then
      if top_state =? TOP_PERFORM
      then fst (mode_process_event (Event_code event) w)
      else fst (menu_process_event (Event_code event) w)
    else w
  else w.

(** Third block: the menu timeout. *)
Definition coordinator_check_timeout (w : World) : World :=
  if fsm_get_state (top_of w) =? TOP_MENU then
    let elapsed := u32_sub (sim_millis (hal w)) (last_activity (coord w)) in
    if MENU_TIMEOUT_MS <=? elapsed
    then fst (top_process_event (Event_code EVT_TIMEOUT) w)
    else w
  else w.

(** Fourth block: the input bit of the mode handler. *)
Definition coordinator_mode_input (cv_state : bool) (w : World) : bool :=
  let md := fsm_get_state (mode_of w) in
  if fsm_get_state (top_of w) =? TOP_PERFORM then
    let b_triggers := event_processor_b_pressed (events (coord w))
                      && negb (event_processor_a_pressed (events (coord w))) in
    let input_state := cv_state || b_triggers in
    match settings (coord w) with
    | Some s =>
        if (md =? MODE_GATE) && (gate_a_mode s =? GATE_A_MODE_MANUAL)
        then input_state || event_processor_a_pressed (events (coord w))
        else input_state
    | None => input_state
    end
  else cv_state.

Definition coordinator_update (w : World) : World :=
  let w := with_g_coord w true in
  let '(cv, input) := coordinator_read_inputs w in
  let cv_state := cv_in input in
  let '(ep, event) := event_processor_update (events (coord w)) input in
  let w := with_coord w (set_inputs (coord w) ep cv) in
  let w := coordinator_route_event event w in
  let w := coordinator_check_timeout w in
  let md := fsm_get_state (mode_of w) in
  let input_state := coordinator_mode_input cv_state w in
  let '(ctx, out) :=
    mode_handler_process md (mode_ctx (coord w)) input_state
                         (output_state (coord w)) (hal w) in
  let w := with_coord w (set_mode_output (coord w) ctx out) in
  with_g_coord w false.

Definition coordinator_get_top_state (c : Coordinator) : Z := fsm_get_state (top_fsm c).
Definition coordinator_get_mode (c : Coordinator) : Z := fsm_get_state (mode_fsm c).
Definition coordinator_get_page (c : Coordinator) : Z := fsm_get_state (menu_fsm c).
Definition coordinator_in_menu (c : Coordinator) : bool :=
  fsm_get_state (top_fsm c) =? TOP_MENU.
Definition coordinator_get_output (c : Coordinator) : bool := output_state c.

Definition coordinator_set_mode (md : Z) (w : World) : World :=
  if MODE_COUNT <=? md then w
  else
    let w := fsm_set_state run_no_callback mode_of put_mode md w in
    with_coord w
      (set_mode_ctx (coord w)
         (mode_handler_init md (mode_ctx (coord w)) (settings (coord w)))).

(** The loop the unit tests drive the coordinator with: one update,
    then one millisecond. *)
Fixpoint run_for_ms (ms : nat) (w : World) : World :=
  match ms with
  | O => w
  | S n =>
      let w := coordinator_update w in
      run_for_ms n (with_hal w (sim_advance_time 1 (hal w)))
  end.
End CoordinatorDefs.

(** ** Drivers and instances used to execute the model *)

(** Levels reported by [cv_input_update] over a sequence of samples. *)
Fixpoint cv_input_run (cv : CVInput) (samples : list Z) : list bool :=
  match samples with
  | [] => []
  | adc :: rest =>
      let '(cv, level) := cv_input_update cv adc in
      level :: cv_input_run cv rest
  end.


(** Modelled from the spec: [util_delay_ms] (utility/delay.h is not among
    the sources) as the blocking delay of the HAL, which in the simulator
    advances the clock. *)
#[export] Instance hal_util_delay : UtilDelay.
Proof.
  refine {| util_delay_ms := sim_delay_ms |}.
  - intros ms h. unfold sim_delay_ms, check_watchdog.
    repeat match goal with |- context [if ?b then _ else _] => destruct b end; reflexivity.
  - intros ms h. unfold sim_delay_ms, check_watchdog.
    repeat match goal with |- context [if ?b then _ else _] => destruct b end; reflexivity.
  - intros ms h. unfold sim_delay_ms, check_watchdog.
    repeat match goal with |- context [if ?b then _ else _] => destruct b end; reflexivity.
Defined.

(** Modelled from the spec: the gate handler of section 4.6 ("output
    follows input"; mode_handlers.c is not among the sources), installed
    for every mode.  It serves to execute the coordinator where the
    handler does not matter. *)
#[export] Instance gate_handlers : ModeHandlers :=
  {| ModeContext := bool;
     mode_handler_init := fun _ _ _ => false;
     mode_handler_process := fun _ _ input _ _ => (input, input) |}.

(** The world after [coordinator_init] and [coordinator_start] on a
    freshly initialised simulator, as in the set-up of the unit tests. *)
Definition boot_world (s : AppSettings) : World :=
  coordinator_start
    (mkWorld
       (coordinator_init
          (mkCoordinator (fsm_init None 0 None 0 0) (fsm_init None 0 None 0 0)
             (fsm_init None 0 None 0 0) event_processor_init cv_input_init
             0 0 0 None false false)
          (Some s))
       false sim_hal_init).

Definition press_button_a (w : World) : World := with_hal w (sim_set_button_a true (hal w)).
Definition release_button_a (w : World) : World := with_hal w (sim_set_button_a false (hal w)).
Definition press_button_b (w : World) : World := with_hal w (sim_set_button_b true (hal w)).
Definition release_button_b (w : World) : World := with_hal w (sim_set_button_b false (hal w)).

(** The three events the A block can choose on a falling edge of A. *)
Definition a_release_event (e : Event) : bool :=
  match e with
  | EVT_A_TAP | EVT_MODE_NEXT | EVT_A_RELEASE => true
  | _ => false
  end.

(** A pressed at time [t] and sampled every millisecond for 600 ms, then
    released at [t + 600]; B never pressed, CV low. *)
Definition solo_hold_inputs (t : Z) : list EventInput :=
  ((fun k => mkEventInput true false false (u32 (t + k))) <$> seqZ 0 600)
  ++ [mkEventInput false false false (u32 (t + 600))].

(** The non-none events returned over a sequence of inputs. *)
Definition ep_events (ep : EventProcessor) (inputs : list EventInput) : list Event :=
  List.filter is_event (snd (ep_run ep inputs)).

(** The non-none events returned over a sequence of inputs, each with
    the time of the call that returned it. *)
Definition ep_timed_events (ep : EventProcessor) (inputs : list EventInput)
  : list (Z * Event) :=
  List.filter (fun p => is_event (snd p))
    (zip (current_time <$> inputs) (snd (ep_run ep inputs))).

(** ** Predicates used in the statements *)

(** The simulated EEPROM has its 512 cells and no fault is injected. *)
Definition eeprom_ok (h : SimHal) : Prop :=
  length (sim_eeprom h) = Z.to_nat SIM_EEPROM_SIZE /\
  eeprom_fault_mode h = SIM_EEPROM_NORMAL.

(** Each of the first seven fields is strictly below its upper bound. *)
Definition fields_below_limits (s : AppSettings) : Prop :=
  mode s < MODE_COUNT /\
  trigger_pulse_idx s < TRIGGER_PULSE_COUNT /\
  trigger_edge s < TRIGGER_EDGE_COUNT /\
  divide_divisor_idx s < DIVIDE_DIVISOR_COUNT /\
  cycle_tempo_idx s < CYCLE_TEMPO_COUNT /\
  toggle_edge s < TOGGLE_EDGE_COUNT /\
  gate_a_mode s < GATE_A_MODE_COUNT.

(** Every field holds a value of its C type, [uint8_t]. *)
Definition fields_are_bytes (s : AppSettings) : Prop :=
  Forall (fun b => 0 <= b < 256) (settings_bytes s).

(** The eight settings bytes as they sit in the EEPROM. *)
Definition eeprom_record (h : SimHal) : AppSettings :=
  mkAppSettings
    (sim_eeprom_read_byte 3 h) (sim_eeprom_read_byte 4 h)
    (sim_eeprom_read_byte 5 h) (sim_eeprom_read_byte 6 h)
    (sim_eeprom_read_byte 7 h) (sim_eeprom_read_byte 8 h)
    (sim_eeprom_read_byte 9 h) (sim_eeprom_read_byte 10 h).

(** At least one button is released: the factory-reset gesture is not
    being made. *)
Definition a_button_released (h : SimHal) : Prop :=
  truthy (sim_read_pin button_a_pin h) || truthy (sim_read_pin button_b_pin h) = true.

(** The three FSMs carry the tables that [coordinator_init] installs and
    have been started. *)
Definition fsm_wired (f : CoordFSM) (sts : list (State NoCallback))
    (trs : list (Transition CoordAction)) : Prop :=
  states f = Some sts /\ num_states f = Z.of_nat (length sts) /\
  transitions f = Some trs /\ num_transitions f = Z.of_nat (length trs) /\
  active f = true.

Definition coordinator_wired `{ModeHandlers} (c : Coordinator) : Prop :=
  fsm_wired (top_fsm c) top_states top_transitions /\
  fsm_wired (mode_fsm c) mode_states mode_transitions /\
  fsm_wired (menu_fsm c) menu_states menu_transitions.

(** The gestures of the coordinator unit tests. *)
Definition do_menu_toggle_gesture (w : World) : World :=
  run_for_ms 550 (press_button_b (run_for_ms 100 (press_button_a w))).

Definition do_menu_exit_gesture (w : World) : World :=
  run_for_ms 50 (release_button_a (run_for_ms 550 (press_button_a w))).

(** Test "menu exits on A hold", up to its last assertion. *)
Definition test_menu_exits_on_a_hold : World :=
  do_menu_exit_gesture
    (run_for_ms 100
       (release_button_b
          (release_button_a
             (do_menu_toggle_gesture (boot_world app_init_get_defaults))))).

(** The part of the coordinator that only [coordinator_update] writes:
    the event processor and the CV hysteresis. *)
Definition inputs_of `{ModeHandlers} (w : World) : EventProcessor * CVInput :=
  (events (coord w), cv_input (coord w)).

(** [button_consume_config_action] (legacy). *)
Definition button_consume_config_action (b : Button) : Button :=
  btn_with_status b (STATUS_CLR (btn_status b) BTN_CONFIG).


(** The simulator has its eight pins. *)
Definition pins_ok (h : SimHal) : Prop :=
  length (pin_states h) = Z.to_nat SIM_NUM_PINS.

(** The level of the output pin equals the state flag of the output. *)
Definition cv_output_pin_mirrors (o : CVOutput) (h : SimHal) : Prop :=
  truthy (sim_read_pin (cvout_pin o) h) = STATUS_ANY (cvout_status o) CVOUT_STATE.


Definition cv_input_get_adc_value (cv : CVInput) : Z := last_adc_value cv.

(** [cv_adc_to_millivolts]: the product is formed in [uint32_t], the
    quotient cast to [uint16_t]. *)
Definition cv_adc_to_millivolts (adc_value : Z) : Z :=
  u16 (u32 (adc_value * 5000) / 255).


(** The row the search loop of [fsm_process_event] stops at: the first
    one whose source state is the current state or the wildcard and
    whose event is the one processed. *)
Fixpoint fsm_first_match {TA} (rows : list (Transition TA)) (cur event : Z)
  : option (Transition TA) :=
  match rows with
  | [] => None
  | t :: rest =>
      if ((from_state t =? cur) || (from_state t =? FSM_ANY_STATE))
         && (trans_event t =? event)
      then Some t else fsm_first_match rest cur event
  end.


(** Settings a C caller can hold and the loader accepts: every field a
    byte, the first seven below their limits. *)
Definition settings_valid (s : AppSettings) : Prop :=
  fields_are_bytes s /\ fields_below_limits s.

(** The coordinator as [coordinator_init] and [coordinator_start] leave
    it and as the main loop keeps it: tables installed and FSMs active,
    each FSM in one of its declared states, the settings (when there
    are any) valid. *)
Definition coordinator_ok `{ModeHandlers} (c : Coordinator) : Prop :=
  coordinator_wired c /\
  (coordinator_get_top_state c = TOP_PERFORM \/ coordinator_get_top_state c = TOP_MENU) /\
  0 <= coordinator_get_mode c < MODE_COUNT /\
  0 <= coordinator_get_page c < PAGE_COUNT /\
  (forall s, settings c = Some s -> settings_valid s).


(** The event that [coordinator_update] gets from the event processor
    on the inputs it reads in world [w]. *)
Definition coordinator_event `{ModeHandlers} (w : World) : Event :=
  snd (event_processor_update (events (coord w)) (snd (coordinator_read_inputs w))).

(** The settings field that [action_cycle_value] edits on a menu page,
    as an index into the byte view of the settings; the last two pages
    edit nothing. *)
Definition page_setting_index (page : Z) : option Z :=
  if page =? PAGE_GATE_CV then Some 6
  else if page =? PAGE_TRIGGER_BEHAVIOR then Some 2
  else if page =? PAGE_TRIGGER_PULSE_LEN then Some 1
  else if page =? PAGE_TOGGLE_BEHAVIOR then Some 5
  else if page =? PAGE_DIVIDE_DIVISOR then Some 3
  else if page =? PAGE_CYCLE_PATTERN then Some 4
  else None.

(** The settings with the mode field replaced, as [action_exit_menu]
    writes them. *)
Definition settings_with_mode (s : AppSettings) (m : Z) : AppSettings :=
  mkAppSettings m (trigger_pulse_idx s) (trigger_edge s) (divide_divisor_idx s)
    (cycle_tempo_idx s) (toggle_edge s) (gate_a_mode s) (reserved s).


(** Worlds reached by the button gestures of the unit tests, from a
    boot with the default settings and the gate handlers. *)
Definition booted : World := boot_world app_init_get_defaults.

(** In PERFORM, one tick before the menu toggle fires: A down for
    600 ms, B down for the last 500 of them. *)
Definition about_to_toggle (w : World) : World :=
  run_for_ms 500 (press_button_b (run_for_ms 100 (press_button_a w))).

(** In MENU with both buttons released for 100 ms. *)
Definition menu_world : World :=
  run_for_ms 100 (release_button_b (release_button_a (do_menu_toggle_gesture booted))).

(** A released after a hold of 550 ms, the release not yet seen. *)
Definition a_hold_released (w : World) : World :=
  release_button_a (run_for_ms 550 (press_button_a w)).

(** A, respectively B, released after 50 ms, the release not yet seen. *)
Definition a_tapped (w : World) : World :=
  release_button_a (run_for_ms 50 (press_button_a w)).
Definition b_tapped (w : World) : World :=
  release_button_b (run_for_ms 50 (press_button_b w)).


(** The watchdog of the simulator. *)
Definition sim_wdt_enable (h : SimHal) : SimHal :=
  mkSimHal (pin_states h) (sim_eeprom h) (sim_time_ms h) (sim_cv_voltage h)
    (adc_fault_mode h) (eeprom_fault_mode h) true (sim_time_ms h) false.

Definition sim_wdt_reset (h : SimHal) : SimHal :=
  if wdt_enabled h then
    mkSimHal (pin_states h) (sim_eeprom h) (sim_time_ms h) (sim_cv_voltage h)
      (adc_fault_mode h) (eeprom_fault_mode h)
      (wdt_enabled h) (sim_time_ms h) (wdt_fired h)
  else h.

Definition sim_wdt_disable (h : SimHal) : SimHal :=
  mkSimHal (pin_states h) (sim_eeprom h) (sim_time_ms h) (sim_cv_voltage h)
    (adc_fault_mode h) (eeprom_fault_mode h) false (wdt_last_reset_time h) (wdt_fired h).

Definition sim_wdt_has_fired (h : SimHal) : bool := wdt_fired h.

Definition sim_wdt_clear_fired (h : SimHal) : SimHal := with_wdt_fired h false.

(** A loop that kicks the watchdog and then lets [d] milliseconds pass,
    for each [d] of the list. *)
Fixpoint wdt_kicked_run (delays : list Z) (h : SimHal) : SimHal :=
  match delays with
  | [] => h
  | d :: rest => wdt_kicked_run rest (sim_advance_time d (sim_wdt_reset h))
  end.


(** ** lib/output/neopixel.c

    The frame buffer of the two-pixel chain.  Sending the buffer down
    the wire is inline assembly on I/O registers and is not part of the
    model: of [neopixel_flush] only the dirty flag remains. *)

Definition NEOPIXEL_COUNT : Z := 2.
Definition LED_MODE : Z := 0.
Definition LED_ACTIVITY : Z := 1.

(** [NeopixelColor]; the C fields are [r], [g] and [b]. *)
Record NeopixelColor := mkColor {
  col_r : Z;
  col_g : Z;
  col_b : Z
}.

Record Neopixel := mkNeopixel {
  led_buffer : list Z;
  buffer_dirty : bool
}.

Definition neopixel_set_rgb (index r g b : Z) (np : Neopixel) : Neopixel :=
  if NEOPIXEL_COUNT <=? index then np
  else
    let offset := u8 (index * 3) in
    mkNeopixel
      (<[Z.to_nat (offset + 2) := b]>
         (<[Z.to_nat (offset + 1) := g]> (<[Z.to_nat (offset + 0) := r]> (led_buffer np))))
      true.

Definition neopixel_set_color (index : Z) (color : NeopixelColor) (np : Neopixel)
  : Neopixel :=
  if NEOPIXEL_COUNT <=? index then np
  else
    let offset := u8 (index * 3) in
    mkNeopixel
      (<[Z.to_nat (offset + 2) := col_b color]>
         (<[Z.to_nat (offset + 1) := col_g color]>
            (<[Z.to_nat (offset + 0) := col_r color]> (led_buffer np))))
      true.

Definition neopixel_get_color (index : Z) (np : Neopixel) : NeopixelColor :=
  if NEOPIXEL_COUNT <=? index then mkColor 0 0 0
  else
    let offset := u8 (index * 3) in
    mkColor (default 0 (led_buffer np !! Z.to_nat (offset + 0)))
            (default 0 (led_buffer np !! Z.to_nat (offset + 1)))
            (default 0 (led_buffer np !! Z.to_nat (offset + 2))).

Definition neopixel_clear (np : Neopixel) : Neopixel :=
  mkNeopixel
    (fold_left (fun buf i => <[Z.to_nat i := 0]> buf) (seqZ 0 (NEOPIXEL_COUNT * 3))
       (led_buffer np))
    true.

Definition neopixel_is_dirty (np : Neopixel) : bool := buffer_dirty np.

Definition neopixel_flush (np : Neopixel) : Neopixel :=
  if negb (buffer_dirty np) then np else mkNeopixel (led_buffer np) false.

Definition neopixel_init (np : Neopixel) : Neopixel :=
  neopixel_flush (neopixel_clear np).

(** ** lib/output/led_animation.c *)

Inductive AnimationType := ANIM_NONE | ANIM_BLINK | ANIM_GLOW.

Definition ANIM_BLINK_PERIOD_MS : Z := 500.
Definition ANIM_GLOW_PERIOD_MS : Z := 1000.

(** [LEDAnimation]; [anim_type] is the C field [type]. *)
Record LEDAnimation := mkLEDAnimation {
  anim_type : AnimationType;
  base_color : NeopixelColor;
  period_ms : Z;
  last_update : Z;
  phase : Z;
  current_on : bool
}.

Definition led_animation_init : LEDAnimation :=
  mkLEDAnimation ANIM_NONE (mkColor 0 0 0) ANIM_BLINK_PERIOD_MS 0 0 true.

Definition led_animation_set (anim : LEDAnimation) (type : AnimationType)
    (color : NeopixelColor) (period : Z) : LEDAnimation :=
  mkLEDAnimation type color
    (if 0 <? period then period else ANIM_BLINK_PERIOD_MS)
    (last_update anim) 0 true.

Definition led_animation_set_static (anim : LEDAnimation) (color : NeopixelColor)
  : LEDAnimation :=
  mkLEDAnimation ANIM_NONE color (period_ms anim) (last_update anim)
    (phase anim) (current_on anim).

(** Each channel is widened to [uint16_t], multiplied, divided by 255
    and stored in a [uint8_t]. *)
Definition led_color_scale (color : NeopixelColor) (brightness : Z) : NeopixelColor :=
  mkColor (u8 (u16 (col_r color * brightness) / 255))
          (u8 (u16 (col_g color * brightness) / 255))
          (u8 (u16 (col_b color * brightness) / 255)).

(** [led_animation_update].  In the glow branch the C code divides by
    [period_ms]; the model follows Rocq's total division there, the
    properties below are stated for a period that is not zero. *)
Definition led_animation_update (anim : LEDAnimation) (led_index current_time : Z)
    (np : Neopixel) : LEDAnimation * Neopixel :=
  match anim_type anim with
  | ANIM_NONE => (anim, neopixel_set_color led_index (base_color anim) np)
  | ANIM_BLINK =>
      let half_period := u16 (period_ms anim / 2) in
      let anim :=
        if half_period <=? u32_sub current_time (last_update anim) then
          mkLEDAnimation (anim_type anim) (base_color anim) (period_ms anim)
            current_time (phase anim) (negb (current_on anim))
        else anim in
      (anim,
       if current_on anim then neopixel_set_color led_index (base_color anim) np
       else neopixel_set_rgb led_index 0 0 0 np)
  | ANIM_GLOW =>
      let phase_time := current_time mod period_ms anim in
      let ph := u8 (u32 (phase_time * 255) / period_ms anim) in
      let anim :=
        mkLEDAnimation (anim_type anim) (base_color anim) (period_ms anim)
          (last_update anim) ph (current_on anim) in
      let brightness := u8 (if ph <? 128 then ph * 2 else (255 - ph) * 2) in
      let scaled := led_color_scale (base_color anim) brightness in
      (anim, neopixel_set_color led_index scaled np)
  end.

Definition led_animation_stop (anim : LEDAnimation) (led_index : Z) (np : Neopixel)
  : LEDAnimation * Neopixel :=
  (mkLEDAnimation ANIM_NONE (mkColor 0 0 0) (period_ms anim) (last_update anim)
     (phase anim) (current_on anim),
   neopixel_set_rgb led_index 0 0 0 np).

(** ** src/modes/mode_handlers.h: [LEDFeedback] and the mode colours *)

Record LEDFeedback := mkLEDFeedback {
  mode_r : Z;
  mode_g : Z;
  mode_b : Z;
  activity_r : Z;
  activity_g : Z;
  activity_b : Z;
  activity_brightness : Z;
  current_mode : Z;
  current_page : Z;
  in_menu : bool;
  setting_value : Z;
  setting_max : Z
}.

(** ** src/output/led_feedback.c *)

Definition mode_colors : list NeopixelColor :=
  [ mkColor 0 255 0;      (* MODE_GATE: green *)
    mkColor 0 128 255;    (* MODE_TRIGGER: cyan *)
    mkColor 255 64 0;     (* MODE_TOGGLE: orange *)
    mkColor 255 0 255;    (* MODE_DIVIDE: magenta *)
    mkColor 255 255 0 ].  (* MODE_CYCLE: yellow *)

Definition global_color : NeopixelColor := mkColor 255 255 255.

Definition page_mode_map : list Z :=
  [ MODE_GATE; MODE_TRIGGER; MODE_TRIGGER; MODE_TOGGLE; MODE_DIVIDE; MODE_CYCLE;
    MODE_COUNT; MODE_COUNT ].

Definition page_anim_type : list Z := [0; 0; 1; 0; 0; 0; 0; 1].

(** [LEDFeedbackController]; the last four fields are [in_menu],
    [current_mode], [current_page] and [last_setting_value] in C. *)
Record LEDFeedbackController := mkLEDFeedbackController {
  mode_anim : LEDAnimation;
  activity_anim : LEDAnimation;
  ctrl_in_menu : bool;
  ctrl_current_mode : Z;
  ctrl_current_page : Z;
  last_setting_value : Z
}.

Definition led_feedback_get_mode_color (md : Z) : NeopixelColor :=
  if MODE_COUNT <=? md then mkColor 0 0 0
  else default (mkColor 0 0 0) (mode_colors !! Z.to_nat md).

Definition led_feedback_get_page_color (page : Z) : NeopixelColor :=
  if PAGE_COUNT <=? page then mkColor 128 128 128
  else
    let md := default 0 (page_mode_map !! Z.to_nat page) in
    if MODE_COUNT <=? md then global_color
    else default (mkColor 0 0 0) (mode_colors !! Z.to_nat md).

Definition led_feedback_set_mode (ctrl : LEDFeedbackController) (md : Z)
  : LEDFeedbackController :=
  let md := if MODE_COUNT <=? md then 0 else md in
  mkLEDFeedbackController
    (if negb (ctrl_in_menu ctrl)
     then led_animation_set_static (mode_anim ctrl) (led_feedback_get_mode_color md)
     else mode_anim ctrl)
    (activity_anim ctrl) (ctrl_in_menu ctrl) md (ctrl_current_page ctrl)
    (last_setting_value ctrl).

(** The animation of LED X for a menu page: glow on the second page of
    a group, blink on the first. *)
Definition page_animation (anim : LEDAnimation) (second_page : bool) (page : Z)
  : LEDAnimation :=
  if second_page
  then led_animation_set anim ANIM_GLOW (led_feedback_get_page_color page)
         ANIM_GLOW_PERIOD_MS
  else led_animation_set anim ANIM_BLINK (led_feedback_get_page_color page)
         ANIM_BLINK_PERIOD_MS.

Definition led_feedback_enter_menu (ctrl : LEDFeedbackController) (page : Z)
  : LEDFeedbackController :=
  mkLEDFeedbackController
    (page_animation (mode_anim ctrl)
       ((page <? PAGE_COUNT) && truthy (default 0 (page_anim_type !! Z.to_nat page)))
       page)
    (activity_anim ctrl) true (ctrl_current_mode ctrl) page 255.

Definition led_feedback_exit_menu (ctrl : LEDFeedbackController) : LEDFeedbackController :=
  mkLEDFeedbackController
    (led_animation_set_static (mode_anim ctrl)
       (led_feedback_get_mode_color (ctrl_current_mode ctrl)))
    (activity_anim ctrl) false (ctrl_current_mode ctrl) (ctrl_current_page ctrl)
    (last_setting_value ctrl).

Definition led_feedback_set_page (ctrl : LEDFeedbackController) (page : Z)
  : LEDFeedbackController :=
  let page := if PAGE_COUNT <=? page then 0 else page in
  mkLEDFeedbackController
    (if ctrl_in_menu ctrl
     then page_animation (mode_anim ctrl)
            (truthy (default 0 (page_anim_type !! Z.to_nat page))) page
     else mode_anim ctrl)
    (activity_anim ctrl) (ctrl_in_menu ctrl) (ctrl_current_mode ctrl) page 255.

Definition led_feedback_flash (ctrl : LEDFeedbackController) (r g b : Z)
  : LEDFeedbackController :=
  mkLEDFeedbackController (mode_anim ctrl)
    (led_animation_set (activity_anim ctrl) ANIM_BLINK (mkColor r g b) 200)
    (ctrl_in_menu ctrl) (ctrl_current_mode ctrl) (ctrl_current_page ctrl)
    (last_setting_value ctrl).

Definition led_feedback_init (np : Neopixel) : LEDFeedbackController * Neopixel :=
  let np := neopixel_init np in
  (led_feedback_set_mode
     (mkLEDFeedbackController led_animation_init led_animation_init false 0 0 255) 0,
   np).

Definition ctrl_with_mode_anim (ctrl : LEDFeedbackController) (a : LEDAnimation)
  : LEDFeedbackController :=
  mkLEDFeedbackController a (activity_anim ctrl) (ctrl_in_menu ctrl)
    (ctrl_current_mode ctrl) (ctrl_current_page ctrl) (last_setting_value ctrl).

Definition ctrl_with_activity_anim (ctrl : LEDFeedbackController) (a : LEDAnimation)
  : LEDFeedbackController :=
  mkLEDFeedbackController (mode_anim ctrl) a (ctrl_in_menu ctrl)
    (ctrl_current_mode ctrl) (ctrl_current_page ctrl) (last_setting_value ctrl).

Definition led_feedback_update (ctrl : LEDFeedbackController) (feedback : LEDFeedback)
    (current_time : Z) (np : Neopixel) : LEDFeedbackController * Neopixel :=
  (* menu state transitions *)
  let ctrl :=
    if in_menu feedback && negb (ctrl_in_menu ctrl)
    then led_feedback_enter_menu ctrl (current_page feedback)
    else if negb (in_menu feedback) && ctrl_in_menu ctrl
         then led_feedback_exit_menu ctrl
         else ctrl in
  (* mode changes, when not in menu *)
  let ctrl :=
    if negb (in_menu feedback) && negb (current_mode feedback =? ctrl_current_mode ctrl)
    then led_feedback_set_mode ctrl (current_mode feedback)
    else ctrl in
  (* page changes, when in menu *)
  let ctrl :=
    if in_menu feedback && negb (current_page feedback =? ctrl_current_page ctrl)
    then led_feedback_set_page ctrl (current_page feedback)
    else ctrl in
  let '(ctrl, np) :=
    if negb (ctrl_in_menu ctrl) then
      let '(ma, np) := led_animation_update (mode_anim ctrl) LED_MODE current_time np in
      let ctrl := ctrl_with_mode_anim ctrl ma in
      let activity_color :=
        mkColor (activity_r feedback) (activity_g feedback) (activity_b feedback) in
      let aa :=
        if activity_brightness feedback =? 255
        then led_animation_set_static (activity_anim ctrl) activity_color
        else if activity_brightness feedback =? 0
             then led_animation_set_static (activity_anim ctrl) (mkColor 0 0 0)
             else led_animation_set_static (activity_anim ctrl)
                    (led_color_scale activity_color (activity_brightness feedback)) in
      let '(aa, np) := led_animation_update aa LED_ACTIVITY current_time np in
      (ctrl_with_activity_anim ctrl aa, np)
    else
      let '(ma, np) := led_animation_update (mode_anim ctrl) LED_MODE current_time np in
      let ctrl := ctrl_with_mode_anim ctrl ma in
      let ctrl :=
        if negb (setting_value feedback =? last_setting_value ctrl) then
          let page_color := led_feedback_get_page_color (ctrl_current_page ctrl) in
          let aa :=
            if setting_value feedback =? 0
            then led_animation_set_static (activity_anim ctrl) (mkColor 0 0 0)
            else if setting_value feedback =? 1
                 then led_animation_set_static (activity_anim ctrl) page_color
                 else if setting_value feedback =? 2
                      then led_animation_set (activity_anim ctrl) ANIM_BLINK page_color
                             ANIM_BLINK_PERIOD_MS
                      else led_animation_set (activity_anim ctrl) ANIM_GLOW page_color
                             ANIM_GLOW_PERIOD_MS in
          mkLEDFeedbackController (mode_anim ctrl) aa (ctrl_in_menu ctrl)
            (ctrl_current_mode ctrl) (ctrl_current_page ctrl) (setting_value feedback)
        else ctrl in
      let '(aa, np) :=
        led_animation_update (activity_anim ctrl) LED_ACTIVITY current_time np in
      (ctrl_with_activity_anim ctrl aa, np) in
  (ctrl, neopixel_flush np).

(** [coordinator_get_led_feedback].  The call to [mode_handler_get_led],
    whose code is not among the sources, is represented by its result:
    [feedback] is the struct as the handler left it. *)
Definition coordinator_get_led_feedback `{ModeHandlers} (c : Coordinator)
    (feedback : LEDFeedback) : LEDFeedback :=
  let md := fsm_get_state (mode_fsm c) in
  let page := u8 (fsm_get_state (menu_fsm c)) in
  let '(value, vmax) :=
    match settings c with
    | None => (0, 1)
    | Some s =>
        if page =? PAGE_GATE_CV then (gate_a_mode s, GATE_A_MODE_COUNT)
        else if page =? PAGE_TRIGGER_BEHAVIOR then (trigger_edge s, TRIGGER_EDGE_COUNT)
        else if page =? PAGE_TRIGGER_PULSE_LEN then (trigger_pulse_idx s, TRIGGER_PULSE_COUNT)
        else if page =? PAGE_TOGGLE_BEHAVIOR then (toggle_edge s, TOGGLE_EDGE_COUNT)
        else if page =? PAGE_DIVIDE_DIVISOR then (divide_divisor_idx s, DIVIDE_DIVISOR_COUNT)
        else if page =? PAGE_CYCLE_PATTERN then (cycle_tempo_idx s, CYCLE_TEMPO_COUNT)
        else (0, 1)
    end in
  mkLEDFeedback (mode_r feedback) (mode_g feedback) (mode_b feedback)
    (activity_r feedback) (activity_g feedback) (activity_b feedback)
    (activity_brightness feedback)
    md page (fsm_get_state (top_fsm c) =? TOP_MENU) value vmax.

(** Predicates on colours and on the frame buffer. *)
Definition color_is_bytes (c : NeopixelColor) : Prop :=
  0 <= col_r c < 256 /\ 0 <= col_g c < 256 /\ 0 <= col_b c < 256.

Definition color_le (c d : NeopixelColor) : Prop :=
  col_r c <= col_r d /\ col_g c <= col_g d /\ col_b c <= col_b d.

Definition neopixel_ok (np : Neopixel) : Prop :=
  length (led_buffer np) = Z.to_nat (NEOPIXEL_COUNT * 3).


(** The animation type [led_feedback_enter_menu] and
    [led_feedback_set_page] choose for a page. *)
Definition page_animation_type (page : Z) : AnimationType :=
  if (page <? PAGE_COUNT) && truthy (default 0 (page_anim_type !! Z.to_nat page))
  then ANIM_GLOW else ANIM_BLINK.

(** The LED controller between two updates: the mode is a declared one
    and LED X carries the static mode colour in perform mode, the
    animated page colour in the menu. *)
Definition led_ctrl_ok (ctrl : LEDFeedbackController) : Prop :=
  0 <= ctrl_current_mode ctrl < MODE_COUNT /\
  0 < period_ms (mode_anim ctrl) < 65536 /\
  if ctrl_in_menu ctrl
  then anim_type (mode_anim ctrl) = page_animation_type (ctrl_current_page ctrl) /\
       base_color (mode_anim ctrl) = led_feedback_get_page_color (ctrl_current_page ctrl)
  else anim_type (mode_anim ctrl) = ANIM_NONE /\
       base_color (mode_anim ctrl) = led_feedback_get_mode_color (ctrl_current_mode ctrl).


(* ===================================================================== *)
(** * Part II: properties *)
(* ===================================================================== *)

(** ** Status words, bit by bit *)

Lemma testbit_one (k : Z) : Z.testbit 1 k = (k =? 0).
Proof. destruct k; reflexivity. Qed.

Lemma testbit_mask (i j : Z) :
  0 <= i -> 0 <= j -> Z.testbit (Z.shiftl 1 j) i = (i =? j).
Proof.
  intros Hi Hj. rewrite Z.shiftl_spec by assumption. rewrite testbit_one.
  destruct (Z.eqb_spec (i - j) 0), (Z.eqb_spec i j); try reflexivity; lia.
Qed.

Lemma land_mask_zero (s i : Z) :
  0 <= i -> (Z.land s (Z.shiftl 1 i) =? 0) = negb (Z.testbit s i).
Proof.
  intros Hi. destruct (Z.testbit s i) eqn:E; cbn [negb].
  - apply Z.eqb_neq. intros Hz.
    assert (Hb : Z.testbit (Z.land s (Z.shiftl 1 i)) i = true).
    { rewrite Z.land_spec, E, testbit_mask, Z.eqb_refl by lia. reflexivity. }
    rewrite Hz, Z.bits_0 in Hb. discriminate.
  - apply Z.eqb_eq. apply Z.bits_inj'. intros n Hn.
    rewrite Z.land_spec, Z.bits_0, testbit_mask by lia.
    destruct (Z.eqb_spec n i) as [->|]; [rewrite E|]; auto using andb_false_r.
Qed.

Lemma STATUS_ANY_bit (s i : Z) :
  0 <= i -> STATUS_ANY s (Z.shiftl 1 i) = Z.testbit s i.
Proof. intros Hi. unfold STATUS_ANY. rewrite land_mask_zero, negb_involutive; auto. Qed.

Lemma STATUS_NONE_bit (s i : Z) :
  0 <= i -> STATUS_NONE s (Z.shiftl 1 i) = negb (Z.testbit s i).
Proof. intros Hi. unfold STATUS_NONE. apply land_mask_zero; auto. Qed.

Lemma truthy_land_bit (s i : Z) :
  0 <= i -> truthy (Z.land s (Z.shiftl 1 i)) = Z.testbit s i.
Proof. exact (STATUS_ANY_bit s i). Qed.

Lemma testbit_SET (s m i : Z) :
  Z.testbit (STATUS_SET s m) i = Z.testbit s i || Z.testbit m i.
Proof. apply Z.lor_spec. Qed.

Lemma testbit_CLR (s m i : Z) :
  0 <= i -> Z.testbit (STATUS_CLR s m) i = Z.testbit s i && negb (Z.testbit m i).
Proof. intros Hi. unfold STATUS_CLR. rewrite Z.land_spec, Z.lnot_spec; auto. Qed.

Lemma testbit_PUT (s m i : Z) (v : bool) :
  0 <= i ->
  Z.testbit (STATUS_PUT s m v) i =
  if v then Z.testbit s i || Z.testbit m i else Z.testbit s i && negb (Z.testbit m i).
Proof. intros Hi. destruct v; [apply testbit_SET | apply testbit_CLR; auto]. Qed.

(** Rewriting a goal about status words into one about single bits. *)
Ltac status_bits :=
  repeat first
    [ rewrite STATUS_ANY_bit by lia
    | rewrite STATUS_NONE_bit by lia
    | rewrite truthy_land_bit by lia
    | rewrite testbit_PUT by lia
    | rewrite testbit_SET
    | rewrite testbit_CLR by lia
    | rewrite Z.lor_spec
    | rewrite Z.land_spec
    | rewrite Z.lnot_spec by lia
    | rewrite testbit_mask by lia ];
  cbn [Z.eqb Pos.eqb andb orb negb];
  repeat (progress (rewrite ?orb_false_r, ?orb_true_r, ?andb_true_r, ?andb_false_r;
                    cbn [andb orb negb])).

(** ** Unsigned 32-bit time differences *)

Lemma u32_sub_add (t j k : Z) :
  0 <= k - j < 4294967296 -> u32_sub (u32 (t + k)) (u32 (t + j)) = k - j.
Proof.
  intros Hk. unfold u32_sub, u32.
  rewrite Zminus_mod_idemp_l, Zminus_mod_idemp_r.
  replace (t + k - (t + j)) with (k - j) by lia. apply Z.mod_small; lia.
Qed.

Lemma u32_sub_self (t : Z) : u32_sub t t = 0.
Proof. unfold u32_sub, u32. rewrite Z.sub_diag. reflexivity. Qed.

(** ** CV hysteresis *)

(** C6: with low threshold below high threshold, a low level flips to
    high exactly on a sample strictly above the high threshold, a high
    level flips to low exactly on a sample strictly below the low
    threshold, the level is retained otherwise (and it is the level
    returned); from low with the default thresholds (77, 128) the samples
    100, 120, 128, 129, 80, 78, 77, 76, 128 give low, low, low, high,
    high, high, high, low, low. *)
Theorem cv_input_update_hysteresis :
  (forall (cv : CVInput) (adc : Z),
      low_threshold cv < high_threshold cv ->
      0 <= adc <= 255 ->
      let level := snd (cv_input_update cv adc) in
      current_state (fst (cv_input_update cv adc)) = level /\
      (current_state cv = false -> (level = true <-> high_threshold cv < adc)) /\
      (current_state cv = true -> (level = false <-> adc < low_threshold cv)) /\
      high_threshold (fst (cv_input_update cv adc)) = high_threshold cv /\
      low_threshold (fst (cv_input_update cv adc)) = low_threshold cv)
  /\ cv_input_run cv_input_init [100; 120; 128; 129; 80; 78; 77; 76; 128]
     = [false; false; false; true; true; true; true; false; false].
Proof.
  split; [|reflexivity].
  intros cv adc _ _. unfold cv_input_update.
  cbn [fst snd current_state high_threshold low_threshold].
  split; [reflexivity|]. split; [|split; [|split; reflexivity]].
  - intros Hs. rewrite Hs.
    destruct (Z.ltb_spec (high_threshold cv) adc); split; intros; try assumption;
      try reflexivity; try discriminate; lia.
  - intros Hs. rewrite Hs.
    destruct (Z.ltb_spec adc (low_threshold cv)); split; intros; try assumption;
      try reflexivity; try discriminate; lia.
Qed.

Lemma cv_input_update_hysteresis_witness :
  let cv := mkCVInput 128 77 0 false in
  snd (cv_input_update cv 129) = true <-> high_threshold cv < 129.
Proof.
  intros cv.
  assert (H1 : low_threshold cv < high_threshold cv) by (cbn; lia).
  assert (H2 : 0 <= 129 <= 255) by lia.
  exact (proj1 (proj2 (proj1 cv_input_update_hysteresis cv 129 H1 H2)) eq_refl).
Defined.

Arguments u32_sub : simpl never.

(** ** Debounced button *)

Lemma button_has_rising_edge_snd (b : Button) (h : SimHal) :
  snd (button_has_rising_edge b h) =
  Z.testbit (btn_status b) 0 && negb (Z.testbit (btn_status b) 2)
  && (EDGE_DEBOUNCE_MS <? u32_sub (sim_millis h) (last_rise_time b)).
Proof.
  unfold button_has_rising_edge, BTN_RAW, BTN_LAST. status_bits.
  destruct (Z.testbit (btn_status b) 0), (Z.testbit (btn_status b) 2);
    cbn [andb negb snd]; try reflexivity.
  destruct (EDGE_DEBOUNCE_MS <? _); reflexivity.
Qed.

Lemma button_has_rising_edge_status (b : Button) (h : SimHal) :
  btn_status (fst (button_has_rising_edge b h)) = btn_status b.
Proof.
  unfold button_has_rising_edge.
  repeat match goal with |- context [if ?c then _ else _] => destruct c end; reflexivity.
Qed.

Lemma button_has_falling_edge_status (b : Button) (h : SimHal) :
  btn_status (fst (button_has_falling_edge b h)) = btn_status b.
Proof.
  unfold button_has_falling_edge.
  repeat match goal with |- context [if ?c then _ else _] => destruct c end; reflexivity.
Qed.

(** The legacy gesture detector only ever touches the counting flag. *)
Lemma button_detect_config_action_bits (b : Button) (h : SimHal) (i : Z) :
  0 <= i -> i <> 6 ->
  Z.testbit (btn_status (fst (button_detect_config_action b h))) i
  = Z.testbit (btn_status b) i.
Proof.
  intros Hi Hne. unfold button_detect_config_action, BTN_COUNTING.
  repeat match goal with
         | |- context [if ?c then _ else _] => destruct c
         | |- context [let '(_, _) := ?p in _] => destruct p
         end;
    cbn [fst btn_status]; status_bits;
    destruct (Z.eqb_spec i 6); try lia; status_bits; reflexivity.
Qed.



(** ** Pulse output *)




(** ** Event processor *)


(** The A block on a falling edge of A. *)
Lemma ep_button_a_falling (ep : EventProcessor) (now : Z) :
  Z.testbit (ep_status ep) 0 = false ->
  Z.testbit (ep_status ep) 1 = true ->
  ext_status (fst (ep_button_a ep now)) = ext_status ep /\
  a_release_event (snd (ep_button_a ep now)) = true /\
  Z.testbit (ep_status (fst (ep_button_a ep now))) 3 = Z.testbit (ep_status ep) 3.
Proof.
  intros H0 H1. unfold ep_button_a, EP_A_PRESSED, EP_A_LAST, EP_A_HOLD,
    EP_B_TOUCHED_DURING_A, EP_COMPOUND_FIRED.
  status_bits. rewrite H0, H1. cbn [andb negb].
  cbn [fst snd ext_status ep_status]. status_bits.
  repeat split.
  repeat match goal with |- context [if ?c then _ else _] => destruct c end; reflexivity.
Qed.

(** The B block never touches the compound-fired flag, keeps an event
    already chosen, and keeps the pressed bits. *)
Lemma ep_button_b_frame (ep : EventProcessor) (now : Z) (e : Event) :
  Z.testbit (ext_status (fst (ep_button_b ep now e))) 0 = Z.testbit (ext_status ep) 0 /\
  (Event_eqb e EVT_NONE = false -> snd (ep_button_b ep now e) = e) /\
  Z.testbit (ep_status (fst (ep_button_b ep now e))) 0 = Z.testbit (ep_status ep) 0 /\
  Z.testbit (ep_status (fst (ep_button_b ep now e))) 3 = Z.testbit (ep_status ep) 3.
Proof.
  unfold ep_button_b, EP_B_PRESSED, EP_B_LAST, EP_B_HOLD, EP_A_HOLD, EP_B_TOUCHED_DURING_A.
  repeat split; try intros He; rewrite ?He;
    repeat match goal with |- context [if ?c then _ else _] => destruct c end;
    cbn [fst snd ext_status ep_status]; status_bits; reflexivity.
Qed.

(** C8: in a call that sees A go from pressed to not pressed, the
    compound-fired flag ends up cleared when B is not pressed at the end
    of the call and keeps its prior value when B is still pressed; so a
    flag that was set is cleared by the call if and only if B is not
    pressed. *)
Theorem a_release_clears_compound_fired (ep : EventProcessor) (input : EventInput) :
  STATUS_ANY (ep_status ep) EP_A_LAST = true ->
  button_a input = false ->
  let ep' := fst (event_processor_update ep input) in
  event_processor_b_pressed ep' = button_b input /\
  truthy (Z.land (ext_status ep') EP_COMPOUND_FIRED)
  = (if button_b input then truthy (Z.land (ext_status ep) EP_COMPOUND_FIRED) else false) /\
  (truthy (Z.land (ext_status ep) EP_COMPOUND_FIRED) = true ->
   (truthy (Z.land (ext_status ep') EP_COMPOUND_FIRED) = false <-> button_b input = false)).
Proof.
  intros Hlast Ha ep'.
  assert (Hmain :
    event_processor_b_pressed ep' = button_b input /\
    truthy (Z.land (ext_status ep') EP_COMPOUND_FIRED)
    = (if button_b input then truthy (Z.land (ext_status ep) EP_COMPOUND_FIRED) else false)).
  { subst ep'. unfold event_processor_update, event_processor_b_pressed.
    set (ep1 := ep_put_inputs ep input).
    assert (H0 : Z.testbit (ep_status ep1) 0 = false).
    { subst ep1. unfold ep_put_inputs, EP_A_PRESSED, EP_B_PRESSED, EP_CV_STATE.
      cbn [ep_status]. rewrite Ha. status_bits.
      destruct (button_b input), (cv_in input); status_bits; reflexivity. }
    assert (H1 : Z.testbit (ep_status ep1) 1 = true).
    { unfold EP_A_LAST in Hlast. rewrite STATUS_ANY_bit in Hlast by lia.
      subst ep1. unfold ep_put_inputs, EP_A_PRESSED, EP_B_PRESSED, EP_CV_STATE.
      cbn [ep_status]. rewrite Ha.
      destruct (button_b input), (cv_in input); status_bits; exact Hlast. }
    assert (H3 : Z.testbit (ep_status ep1) 3 = button_b input).
    { subst ep1. unfold ep_put_inputs, EP_A_PRESSED, EP_B_PRESSED, EP_CV_STATE.
      cbn [ep_status]. rewrite Ha.
      destruct (button_b input), (cv_in input); status_bits; reflexivity. }
    assert (Hext : ext_status ep1 = ext_status ep) by reflexivity.
    destruct (ep_button_a_falling ep1 (current_time input) H0 H1) as (Hax & Hae & Ha3).
    destruct (ep_button_a ep1 (current_time input)) as [ep2 e2]. cbn [fst snd] in *.
    destruct (ep_button_b_frame ep2 (current_time input) e2) as (Hbx & Hbe & Hb0 & Hb3).
    assert (He2 : Event_eqb e2 EVT_NONE = false) by (destruct e2; try discriminate; reflexivity).
    specialize (Hbe He2).
    destruct (ep_button_b ep2 (current_time input) e2) as [ep3 e3]. cbn [fst snd] in *.
    subst e3.
    assert (Hnot : Event_eqb e2 EVT_B_HOLD = false) by (destruct e2; try discriminate; reflexivity).
    assert (Hx3 : Z.testbit (ext_status ep3) 0 = Z.testbit (ext_status ep) 0) by congruence.
    assert (Hs3 : Z.testbit (ep_status ep3) 3 = button_b input) by congruence.
    unfold ep_compound, ep_store_last, EP_COMPOUND_FIRED, EP_A_PRESSED, EP_B_PRESSED,
      EP_A_LAST, EP_B_LAST, EP_CV_LAST, EP_CV_STATE.
    rewrite Hnot. cbn [andb]. status_bits. rewrite ?H0, ?Ha3, ?H3, ?Hx3.
    destruct (button_b input), (Z.testbit (ext_status ep) 0);
      cbn [negb andb fst snd ep_status ext_status]; status_bits;
      rewrite ?Hs3, ?Hx3; status_bits;
      repeat match goal with |- context [if ?c then _ else _] => destruct c end;
      status_bits; rewrite ?Hs3, ?Hx3; split; reflexivity. }
  destruct Hmain as [Hb Hflag]. split; [exact Hb|]. split; [exact Hflag|].
  intros Hset. rewrite Hflag, Hset. destruct (button_b input); split; congruence.
Qed.

Lemma a_release_clears_compound_fired_witness :
  let ep := mkEP 15 1 100 300 in
  let input := mkEventInput false true false 900 in
  truthy (Z.land (ext_status (fst (event_processor_update ep input))) EP_COMPOUND_FIRED)
  = true.
Proof.
  intros ep input.
  assert (H1 : STATUS_ANY (ep_status ep) EP_A_LAST = true) by reflexivity.
  assert (H2 : button_a input = false) by reflexivity.
  exact (proj1 (proj2 (a_release_clears_compound_fired ep input H1 H2))).
Defined.


Lemma ep_press (T : Z) :
  event_processor_update event_processor_init (mkEventInput true false false T)
  = (mkEP 3 0 T 0, EVT_A_PRESS).
Proof. reflexivity. Qed.

Lemma ep_wait (T now : Z) :
  u32_sub now T < EP_HOLD_THRESHOLD_MS ->
  event_processor_update (mkEP 3 0 T 0) (mkEventInput true false false now)
  = (mkEP 3 0 T 0, EVT_NONE).
Proof.
  intros Hlt. apply Z.leb_gt in Hlt.
  unfold event_processor_update, ep_put_inputs, ep_button_a.
  cbn -[Z.leb u32_sub EP_HOLD_THRESHOLD_MS]. rewrite Hlt. reflexivity.
Qed.

Lemma ep_hold (T now : Z) :
  EP_HOLD_THRESHOLD_MS <= u32_sub now T ->
  event_processor_update (mkEP 3 0 T 0) (mkEventInput true false false now)
  = (mkEP 7 0 T 0, EVT_A_HOLD).
Proof.
  intros Hle. apply Z.leb_le in Hle.
  unfold event_processor_update, ep_put_inputs, ep_button_a.
  cbn -[Z.leb u32_sub EP_HOLD_THRESHOLD_MS]. rewrite Hle. reflexivity.
Qed.

Lemma ep_held (T now : Z) :
  event_processor_update (mkEP 7 0 T 0) (mkEventInput true false false now)
  = (mkEP 7 0 T 0, EVT_NONE).
Proof. reflexivity. Qed.

Lemma ep_solo_release (T now : Z) :
  event_processor_update (mkEP 7 0 T 0) (mkEventInput false false false now)
  = (mkEP 0 0 T 0, EVT_MODE_NEXT).
Proof. reflexivity. Qed.

Lemma ep_run_app (ep : EventProcessor) (l1 l2 : list EventInput) :
  ep_run ep (l1 ++ l2)
  = (fst (ep_run (fst (ep_run ep l1)) l2),
     snd (ep_run ep l1) ++ snd (ep_run (fst (ep_run ep l1)) l2)).
Proof.
  revert ep. induction l1 as [|i l1 IH]; intros ep; cbn [ep_run app fst snd].
  - destruct (ep_run ep l2); reflexivity.
  - destruct (event_processor_update ep i) as [ep1 e]. rewrite IH.
    destruct (ep_run ep1 l1) as [ep2 es]. cbn [fst snd].
    destruct (ep_run ep2 l2). reflexivity.
Qed.

Lemma ep_run_quiet (ep : EventProcessor) (l : list EventInput) :
  Forall (fun i => event_processor_update ep i = (ep, EVT_NONE)) l ->
  ep_run ep l = (ep, repeat EVT_NONE (length l)).
Proof.
  induction 1 as [|i l Hi _ IH]; cbn [ep_run length repeat]; [reflexivity|].
  rewrite Hi, IH. reflexivity.
Qed.

Lemma seqZ_600_phases :
  seqZ 0 600 = [0] ++ seqZ 1 499 ++ [500] ++ seqZ 501 99.
Proof. vm_compute. reflexivity. Qed.

(** What each of the 601 calls of the solo hold returns. *)
Lemma solo_hold_release_run (t : Z) :
  snd (ep_run event_processor_reset (solo_hold_inputs t))
  = [EVT_A_PRESS] ++ repeat EVT_NONE 499 ++ [EVT_A_HOLD] ++ repeat EVT_NONE 99
    ++ [EVT_MODE_NEXT].
Proof.
  unfold solo_hold_inputs, event_processor_reset.
  rewrite seqZ_600_phases, !fmap_app, <- !app_assoc.
  set (f := fun k => mkEventInput true false false (u32 (t + k))).
  assert (Hwait : ep_run (mkEP 3 0 (u32 (t + 0)) 0) (f <$> seqZ 1 499)
                  = (mkEP 3 0 (u32 (t + 0)) 0, repeat EVT_NONE 499)).
  { rewrite ep_run_quiet.
    - rewrite length_fmap, length_seqZ. reflexivity.
    - apply Forall_fmap, Forall_seqZ. intros k Hk. unfold f. cbn beta.
      apply ep_wait. rewrite u32_sub_add by lia. unfold EP_HOLD_THRESHOLD_MS. lia. }
  assert (Hheld : ep_run (mkEP 7 0 (u32 (t + 0)) 0) (f <$> seqZ 501 99)
                  = (mkEP 7 0 (u32 (t + 0)) 0, repeat EVT_NONE 99)).
  { rewrite ep_run_quiet.
    - rewrite length_fmap, length_seqZ. reflexivity.
    - apply Forall_fmap, Forall_seqZ. intros k Hk. apply ep_held. }
  assert (Hhold : event_processor_update (mkEP 3 0 (u32 (t + 0)) 0) (f 500)
                  = (mkEP 7 0 (u32 (t + 0)) 0, EVT_A_HOLD)).
  { apply ep_hold. unfold f. rewrite u32_sub_add by lia.
    unfold EP_HOLD_THRESHOLD_MS. lia. }
  cbn [fmap list_fmap app]. cbn [ep_run].
  change (f 0) with (mkEventInput true false false (u32 (t + 0))).
  rewrite ep_press.
  rewrite ep_run_app, Hwait. cbn [fst snd].
  cbn [ep_run]. rewrite Hhold.
  rewrite ep_run_app, Hheld. cbn [fst snd ep_run].
  rewrite ep_solo_release.
  cbn [snd]. reflexivity.
Qed.

Lemma solo_hold_inputs_times (t : Z) :
  current_time <$> solo_hold_inputs t
  = ((fun k => u32 (t + k)) <$> seqZ 0 600) ++ [u32 (t + 600)].
Proof.
  unfold solo_hold_inputs. rewrite fmap_app, <- list_fmap_compose. reflexivity.
Qed.

(** C7 (as the code has it): from a reset processor, A pressed at time
    [t] and the processor called once every millisecond with B up and
    the CV input low, A released at [t + 600].  The call at [t] returns
    A-press, the call at [t + 500] returns A-hold, the call at
    [t + 600] returns mode-next, and every other call returns no event;
    so the non-none events are exactly A-press, A-hold, mode-next, and
    neither A-tap nor A-release occurs.  Times are 32-bit and wrap. *)
Theorem solo_hold_release_events (t : Z) :
  snd (ep_run event_processor_reset (solo_hold_inputs t))
  = [EVT_A_PRESS] ++ repeat EVT_NONE 499 ++ [EVT_A_HOLD] ++ repeat EVT_NONE 99
    ++ [EVT_MODE_NEXT] /\
  ep_timed_events event_processor_reset (solo_hold_inputs t)
  = [(u32 t, EVT_A_PRESS); (u32 (t + 500), EVT_A_HOLD); (u32 (t + 600), EVT_MODE_NEXT)] /\
  ep_events event_processor_reset (solo_hold_inputs t)
  = [EVT_A_PRESS; EVT_A_HOLD; EVT_MODE_NEXT].
Proof.
  split; [apply solo_hold_release_run|]. split.
  - unfold ep_timed_events.
    rewrite solo_hold_release_run, solo_hold_inputs_times.
    replace (u32 t) with (u32 (t + 0)) by (f_equal; lia).
    change (u32 (t + 0)) with ((fun k => u32 (t + k)) 0).
    change (u32 (t + 500)) with ((fun k => u32 (t + k)) 500).
    change (u32 (t + 600)) with ((fun k => u32 (t + k)) 600).
    generalize (fun k => u32 (t + k)). intros tm.
    vm_compute. reflexivity.
  - unfold ep_events. rewrite solo_hold_release_run. vm_compute. reflexivity.
Qed.

(** The claimed sequence leaves out the A-hold event that the processor
    returns when the solo hold reaches 500 ms. *)
Lemma solo_hold_release_counterexample :
  ep_events event_processor_reset (solo_hold_inputs 100)
  <> [EVT_A_PRESS; EVT_MODE_NEXT].
Proof. vm_compute. discriminate. Qed.


(** ** Settings store *)

Lemma u8_small (x : Z) : 0 <= x < 256 -> u8 x = x.
Proof. intros Hx. unfold u8. apply Z.mod_small. lia. Qed.

Lemma lxor_byte (a b : Z) :
  0 <= a < 256 -> 0 <= b < 256 -> 0 <= Z.lxor a b < 256.
Proof.
  intros Ha Hb. assert (H0 : 0 <= Z.lxor a b) by (apply Z.lxor_nonneg; split; lia).
  split; [assumption|].
  destruct (Z.eq_dec (Z.lxor a b) 0) as [->|Hne]; [lia|].
  change 256 with (2 ^ 8). apply Z.log2_lt_pow2; [lia|].
  pose proof (Z.log2_lxor a b ltac:(lia) ltac:(lia)) as Hl.
  assert (Z.log2 a < 8).
  { destruct (Z.eq_dec a 0) as [->|]; [reflexivity|]. apply Z.log2_lt_pow2; lia. }
  assert (Z.log2 b < 8).
  { destruct (Z.eq_dec b 0) as [->|]; [reflexivity|]. apply Z.log2_lt_pow2; lia. }
  lia.
Qed.

Lemma calculate_checksum_byte (s : AppSettings) :
  fields_are_bytes s -> 0 <= calculate_checksum s < 256.
Proof.
  destruct s as [b0 b1 b2 b3 b4 b5 b6 b7]. unfold fields_are_bytes.
  intros H. unfold settings_bytes in H. cbn in H. repeat match goal with H : Forall _ (_ :: _) |- _ => inversion H; clear H; subst end.
  change (calculate_checksum (mkAppSettings b0 b1 b2 b3 b4 b5 b6 b7))
    with (Z.lxor (Z.lxor (Z.lxor (Z.lxor (Z.lxor (Z.lxor (Z.lxor (Z.lxor 0 b0) b1) b2) b3) b4) b5) b6) b7).
  repeat apply lxor_byte; lia.
Qed.

Lemma eeprom_ok_write (a v : Z) (h : SimHal) :
  eeprom_ok h -> eeprom_ok (sim_eeprom_write_byte a v h).
Proof.
  intros [Hl Hm]. unfold sim_eeprom_write_byte.
  destruct (SIM_EEPROM_SIZE <=? a); [split; assumption|]. rewrite Hm.
  split; cbn; [rewrite length_insert|]; assumption.
Qed.

Lemma read_write_same (a v : Z) (h : SimHal) :
  eeprom_ok h -> 0 <= a < SIM_EEPROM_SIZE ->
  sim_eeprom_read_byte a (sim_eeprom_write_byte a v h) = u8 v.
Proof.
  intros [Hl Hm] Ha. unfold sim_eeprom_read_byte, sim_eeprom_write_byte.
  unfold SIM_EEPROM_SIZE in *.
  destruct (Z.leb_spec 512 a); [lia|]. rewrite Hm. cbn. rewrite Hm.
  rewrite list_lookup_insert_eq; [reflexivity|]. rewrite Hl. lia.
Qed.

Lemma read_write_other (a b v : Z) (h : SimHal) :
  0 <= a -> 0 <= b -> a <> b ->
  sim_eeprom_read_byte a (sim_eeprom_write_byte b v h) = sim_eeprom_read_byte a h.
Proof.
  intros Ha Hb Hne. unfold sim_eeprom_read_byte, sim_eeprom_write_byte.
  destruct (SIM_EEPROM_SIZE <=? a); [reflexivity|].
  destruct (SIM_EEPROM_SIZE <=? b); [reflexivity|].
  destruct (eeprom_fault_mode h) eqn:Hm; cbn; rewrite ?Hm; try reflexivity.
  rewrite list_lookup_insert_ne; [reflexivity|]. lia.
Qed.

Lemma sim_read_pin_write_byte (p a v : Z) (h : SimHal) :
  sim_read_pin p (sim_eeprom_write_byte a v h) = sim_read_pin p h.
Proof.
  unfold sim_read_pin, sim_eeprom_write_byte.
  destruct (SIM_EEPROM_SIZE <=? a), (eeprom_fault_mode h); reflexivity.
Qed.

Arguments sim_eeprom_read_byte : simpl never.
Arguments sim_eeprom_write_byte : simpl never.

(** What [app_init_save_settings] amounts to: twelve byte writes. *)
Lemma app_init_save_settings_writes (s : AppSettings) (h : SimHal) :
  app_init_save_settings s h =
  sim_eeprom_write_byte 16 (calculate_checksum s)
    (sim_eeprom_write_byte 10 (reserved s)
    (sim_eeprom_write_byte 9 (gate_a_mode s)
    (sim_eeprom_write_byte 8 (toggle_edge s)
    (sim_eeprom_write_byte 7 (cycle_tempo_idx s)
    (sim_eeprom_write_byte 6 (divide_divisor_idx s)
    (sim_eeprom_write_byte 5 (trigger_edge s)
    (sim_eeprom_write_byte 4 (trigger_pulse_idx s)
    (sim_eeprom_write_byte 3 (mode s)
    (sim_eeprom_write_byte 2 2
    (sim_eeprom_write_byte 1 71
    (sim_eeprom_write_byte 0 75 h))))))))))).
Proof. reflexivity. Qed.

Lemma load_settings_reads (s : AppSettings) (h : SimHal) :
  load_settings s h =
  if negb (sim_eeprom_read_word 0 h =? EEPROM_MAGIC_VALUE) then (s, false)
  else if negb (sim_eeprom_read_byte 2 h =? SETTINGS_SCHEMA_VERSION) then (s, false)
  else if negb (sim_eeprom_read_byte 16 h =? calculate_checksum (eeprom_record h))
       then (eeprom_record h, false)
  else if negb (settings_in_range (eeprom_record h)) then (eeprom_record h, false)
  else (eeprom_record h, true).
Proof. reflexivity. Qed.

Lemma settings_in_range_iff (s : AppSettings) :
  settings_in_range s = true <-> fields_below_limits s.
Proof.
  destruct s as [b0 b1 b2 b3 b4 b5 b6 b7].
  change (settings_in_range (mkAppSettings b0 b1 b2 b3 b4 b5 b6 b7))
    with (negb (5 <=? b0) && (negb (4 <=? b1) && (negb (3 <=? b2) && (negb (4 <=? b3)
          && (negb (5 <=? b4) && (negb (2 <=? b5) && (negb (2 <=? b6) && true))))))).
  unfold fields_below_limits. cbn.
  rewrite !andb_true_iff, !negb_true_iff, !Z.leb_gt. tauto.
Qed.

Lemma sim_eeprom_read_byte_ext (a : Z) (h1 h2 : SimHal) :
  sim_eeprom h1 = sim_eeprom h2 ->
  eeprom_fault_mode h1 = eeprom_fault_mode h2 ->
  sim_eeprom_read_byte a h1 = sim_eeprom_read_byte a h2.
Proof. intros He Hm. unfold sim_eeprom_read_byte. rewrite He, Hm. reflexivity. Qed.

Lemma load_settings_ext (s : AppSettings) (h1 h2 : SimHal) :
  sim_eeprom h1 = sim_eeprom h2 ->
  eeprom_fault_mode h1 = eeprom_fault_mode h2 ->
  load_settings s h1 = load_settings s h2.
Proof.
  intros He Hm. rewrite !load_settings_reads.
  unfold sim_eeprom_read_word, eeprom_record.
  rewrite !(sim_eeprom_read_byte_ext _ h1 h2 He Hm). reflexivity.
Qed.

Lemma fields_below_limits_defaults : fields_below_limits app_init_get_defaults.
Proof. repeat split. Qed.

(** The loader against the four levels, spelled out on the EEPROM. *)
Lemma load_settings_true_iff (s : AppSettings) (h : SimHal) :
  snd (load_settings s h) = true <->
  sim_eeprom_read_word EEPROM_MAGIC_ADDR h = EEPROM_MAGIC_VALUE /\
  sim_eeprom_read_byte EEPROM_SCHEMA_ADDR h = SETTINGS_SCHEMA_VERSION /\
  sim_eeprom_read_byte EEPROM_CHECKSUM_ADDR h
  = fold_left Z.lxor (settings_bytes (eeprom_record h)) 0 /\
  fields_below_limits (eeprom_record h).
Proof.
  rewrite load_settings_reads, <- settings_in_range_iff.
  change (calculate_checksum (eeprom_record h))
    with (fold_left Z.lxor (settings_bytes (eeprom_record h)) 0).
  change EEPROM_MAGIC_ADDR with 0. change EEPROM_SCHEMA_ADDR with 2.
  change EEPROM_CHECKSUM_ADDR with 16.
  destruct (Z.eqb_spec (sim_eeprom_read_word 0 h) EEPROM_MAGIC_VALUE) as [Hm|Hm];
    cbn [negb snd]; [|split; [discriminate | tauto]].
  destruct (Z.eqb_spec (sim_eeprom_read_byte 2 h) SETTINGS_SCHEMA_VERSION) as [Hv|Hv];
    cbn [negb snd]; [|split; [discriminate | tauto]].
  destruct (Z.eqb_spec (sim_eeprom_read_byte 16 h)
              (fold_left Z.lxor (settings_bytes (eeprom_record h)) 0)) as [Hc|Hc];
    cbn [negb snd]; [|split; [discriminate | tauto]].
  destruct (settings_in_range (eeprom_record h));
    cbn [negb snd]; [tauto | split; [discriminate | intros (_ & _ & _ & ?); discriminate]].
Qed.

Lemma sim_toggle_pin_eeprom (p : Z) (h : SimHal) :
  sim_eeprom (sim_toggle_pin p h) = sim_eeprom h /\
  eeprom_fault_mode (sim_toggle_pin p h) = eeprom_fault_mode h.
Proof. unfold sim_toggle_pin. destruct (SIM_NUM_PINS <=? p); split; reflexivity. Qed.

Lemma sim_set_pin_eeprom (p : Z) (h : SimHal) :
  sim_eeprom (sim_set_pin p h) = sim_eeprom h /\
  eeprom_fault_mode (sim_set_pin p h) = eeprom_fault_mode h.
Proof. unfold sim_set_pin. destruct (SIM_NUM_PINS <=? p); split; reflexivity. Qed.

Lemma sim_clear_pin_eeprom (p : Z) (h : SimHal) :
  sim_eeprom (sim_clear_pin p h) = sim_eeprom h /\
  eeprom_fault_mode (sim_clear_pin p h) = eeprom_fault_mode h.
Proof. unfold sim_clear_pin. destruct (SIM_NUM_PINS <=? p); split; reflexivity. Qed.

Section StartupProperties.
Context `{UtilDelay}.

Lemma sim_read_pin_delay (p ms : Z) (h : SimHal) :
  sim_read_pin p (util_delay_ms ms h) = sim_read_pin p h.
Proof. unfold sim_read_pin. rewrite util_delay_ms_pins. reflexivity. Qed.

Lemma app_init_check_factory_reset_released (h : SimHal) :
  a_button_released h ->
  app_init_check_factory_reset h = (util_delay_ms 10 h, false).
Proof.
  unfold a_button_released, app_init_check_factory_reset. intros Hrel.
  destruct (sim_millis (util_delay_ms 10 h) <=? sim_millis h); [reflexivity|].
  rewrite !sim_read_pin_delay, Hrel. reflexivity.
Qed.

Lemma app_init_run_released (s : AppSettings) (h : SimHal) :
  a_button_released h ->
  app_init_run s h =
  if snd (load_settings s h)
  then (fst (load_settings s h), util_delay_ms 10 h, APP_INIT_OK)
  else (app_init_get_defaults, defaults_feedback (util_delay_ms 10 h), APP_INIT_OK_DEFAULTS).
Proof.
  intros Hrel. unfold app_init_run.
  rewrite (app_init_check_factory_reset_released h Hrel).
  rewrite (load_settings_ext s (util_delay_ms 10 h) h)
    by (apply util_delay_ms_eeprom || apply util_delay_ms_eeprom_mode).
  destruct (load_settings s h) as [s' [|]]; reflexivity.
Qed.

Lemma reset_poll_eeprom (n : nat) (start_time last_blink : Z) (h : SimHal) :
  sim_eeprom (fst (reset_poll n start_time last_blink h)) = sim_eeprom h /\
  eeprom_fault_mode (fst (reset_poll n start_time last_blink h)) = eeprom_fault_mode h.
Proof.
  revert last_blink h. induction n as [|n IH]; intros last_blink h; cbn [reset_poll].
  - split; reflexivity.
  - destruct (_ <? APP_INIT_RESET_HOLD_MS); [|split; reflexivity].
    destruct (APP_INIT_RESET_BLINK_MS <=? _).
    + unfold reset_feedback_tick.
      destruct (sim_toggle_pin_eeprom sig_out_pin h) as [E1 E2].
      destruct (_ || _); cbn [fst].
      * destruct (sim_clear_pin_eeprom sig_out_pin (sim_toggle_pin sig_out_pin h))
          as [C1 C2].
        rewrite C1, C2. auto.
      * destruct (IH (sim_millis (sim_toggle_pin sig_out_pin h))
                    (util_delay_ms APP_INIT_RESET_POLL_MS (sim_toggle_pin sig_out_pin h)))
          as [I1 I2].
        rewrite I1, I2, util_delay_ms_eeprom, util_delay_ms_eeprom_mode. auto.
    + destruct (_ || _); cbn [fst].
      * apply sim_clear_pin_eeprom.
      * destruct (IH last_blink (util_delay_ms APP_INIT_RESET_POLL_MS h)) as [I1 I2].
        rewrite I1, I2, util_delay_ms_eeprom, util_delay_ms_eeprom_mode. auto.
Qed.

Lemma app_init_check_factory_reset_eeprom (h : SimHal) :
  sim_eeprom (fst (app_init_check_factory_reset h)) = sim_eeprom h /\
  eeprom_fault_mode (fst (app_init_check_factory_reset h)) = eeprom_fault_mode h.
Proof.
  unfold app_init_check_factory_reset.
  assert (Hd : sim_eeprom (util_delay_ms 10 h) = sim_eeprom h /\
               eeprom_fault_mode (util_delay_ms 10 h) = eeprom_fault_mode h)
    by (rewrite util_delay_ms_eeprom, util_delay_ms_eeprom_mode; auto).
  destruct (_ <=? _); [exact Hd|].
  destruct (_ || _); [exact Hd|].
  destruct (reset_poll_eeprom (Z.to_nat APP_INIT_RESET_MAX_ITERATIONS)
              (sim_millis (util_delay_ms 10 h)) (sim_millis (util_delay_ms 10 h))
              (util_delay_ms 10 h)) as [P1 P2].
  destruct (reset_poll _ _ _ _) as [h1 [|]]; cbn [fst] in *.
  - unfold reset_complete_feedback.
    destruct (sim_clear_pin_eeprom sig_out_pin
                (util_delay_ms 500 (sim_set_pin sig_out_pin h1))) as [C1 C2].
    destruct (sim_set_pin_eeprom sig_out_pin h1) as [S1 S2].
    rewrite C1, C2, util_delay_ms_eeprom, util_delay_ms_eeprom_mode, S1, S2, P1, P2.
    exact Hd.
  - rewrite P1, P2. exact Hd.
Qed.

(** Whether the startup loads or resets is decided by the factory-reset
    check alone, and the load reads the EEPROM as it was at entry. *)
Lemma app_init_run_cases (s : AppSettings) (h : SimHal) :
  app_init_run s h
  = (if snd (app_init_check_factory_reset h) then app_init_run s h
     else if snd (load_settings s h)
          then (fst (load_settings s h), fst (app_init_check_factory_reset h), APP_INIT_OK)
          else (app_init_get_defaults,
                defaults_feedback (fst (app_init_check_factory_reset h)),
                APP_INIT_OK_DEFAULTS)).
Proof.
  destruct (app_init_check_factory_reset_eeprom h) as [E1 E2].
  unfold app_init_run.
  destruct (app_init_check_factory_reset h) as [h1 [|]]; cbn [fst snd] in *;
    [reflexivity|].
  rewrite (load_settings_ext s h1 h E1 E2).
  destruct (load_settings s h) as [s' [|]]; reflexivity.
Qed.

Lemma app_init_run_reset (s : AppSettings) (h : SimHal) :
  snd (app_init_check_factory_reset h) = true ->
  fst (fst (app_init_run s h)) = app_init_get_defaults /\
  snd (app_init_run s h) = APP_INIT_OK_FACTORY_RESET.
Proof.
  unfold app_init_run.
  destruct (app_init_check_factory_reset h) as [h1 [|]]; cbn [fst snd];
    [|discriminate].
  intros _. split; reflexivity.
Qed.

(** C5: the loader succeeds exactly when the magic is 0x474B, the
    schema is the current version, the byte at 0x10 is the XOR of the
    eight settings bytes and each of the first seven fields is below
    its bound; it then returns the record held in the EEPROM; when
    level 1 or 2 fails it stops before reading anything into the
    caller's struct; and whatever the EEPROM holds, the record left by
    the startup has its first seven fields below their bounds, being
    the defaults record whenever the result is not "ok"; with a button
    released, a failed load gives the defaults with "ok-defaults".
    Whatever the buttons and the clock do, an EEPROM on which the load
    fails makes the startup install the defaults, with "factory reset"
    when the reset gesture was detected and "ok-defaults" otherwise;
    the startup answers "ok" exactly when no reset was detected and the
    load succeeds. *)
Theorem load_settings_four_levels :
  (forall (s : AppSettings) (h : SimHal),
      snd (load_settings s h) = true <->
      sim_eeprom_read_word EEPROM_MAGIC_ADDR h = EEPROM_MAGIC_VALUE /\
      sim_eeprom_read_byte EEPROM_SCHEMA_ADDR h = SETTINGS_SCHEMA_VERSION /\
      sim_eeprom_read_byte EEPROM_CHECKSUM_ADDR h
      = fold_left Z.lxor (settings_bytes (eeprom_record h)) 0 /\
      fields_below_limits (eeprom_record h))
  /\ (forall (s : AppSettings) (h : SimHal),
         snd (load_settings s h) = true -> fst (load_settings s h) = eeprom_record h)
  /\ (forall (s : AppSettings) (h : SimHal),
         sim_eeprom_read_word EEPROM_MAGIC_ADDR h <> EEPROM_MAGIC_VALUE \/
         sim_eeprom_read_byte EEPROM_SCHEMA_ADDR h <> SETTINGS_SCHEMA_VERSION ->
         load_settings s h = (s, false))
  /\ (forall (s : AppSettings) (h : SimHal),
         fields_below_limits (fst (fst (app_init_run s h))) /\
         (snd (app_init_run s h) <> APP_INIT_OK ->
          fst (fst (app_init_run s h)) = app_init_get_defaults))
  /\ (forall (s : AppSettings) (h : SimHal),
         a_button_released h -> snd (load_settings s h) = false ->
         fst (fst (app_init_run s h)) = app_init_get_defaults /\
         snd (app_init_run s h) = APP_INIT_OK_DEFAULTS)
  /\ (forall (s : AppSettings) (h : SimHal),
         snd (load_settings s h) = false ->
         fst (fst (app_init_run s h)) = app_init_get_defaults /\
         snd (app_init_run s h)
         = (if snd (app_init_check_factory_reset h)
            then APP_INIT_OK_FACTORY_RESET else APP_INIT_OK_DEFAULTS))
  /\ (forall (s : AppSettings) (h : SimHal),
         snd (app_init_run s h) = APP_INIT_OK <->
         snd (app_init_check_factory_reset h) = false /\ snd (load_settings s h) = true).
Proof.
  split; [exact load_settings_true_iff|].
  split; [|split; [|split; [|split; [|split]]]].
  - intros s h. rewrite load_settings_reads.
    repeat match goal with |- context [if ?c then _ else _] => destruct c end;
      cbn [fst snd]; congruence.
  - intros s h Hfail. rewrite load_settings_reads.
    change EEPROM_MAGIC_ADDR with 0 in Hfail. change EEPROM_SCHEMA_ADDR with 2 in Hfail.
    destruct (Z.eqb_spec (sim_eeprom_read_word 0 h) EEPROM_MAGIC_VALUE);
      cbn [negb]; [|reflexivity].
    destruct (Z.eqb_spec (sim_eeprom_read_byte 2 h) SETTINGS_SCHEMA_VERSION);
      cbn [negb]; [|reflexivity].
    destruct Hfail; contradiction.
  - intros s h. unfold app_init_run.
    destruct (app_init_check_factory_reset h) as [h1 [|]].
    + cbn [fst snd]. split; [exact fields_below_limits_defaults | reflexivity].
    + pose proof (load_settings_true_iff s h1) as Hiff.
      assert (Hrec : snd (load_settings s h1) = true ->
                     fst (load_settings s h1) = eeprom_record h1).
      { rewrite load_settings_reads.
        repeat match goal with |- context [if ?c then _ else _] => destruct c end;
          cbn [fst snd]; congruence. }
      destruct (load_settings s h1) as [s' [|]]; cbn [fst snd] in *.
      * split; [|congruence]. rewrite Hrec by reflexivity. apply Hiff. reflexivity.
      * split; [exact fields_below_limits_defaults | reflexivity].
  - intros s h Hrel Hfail. rewrite (app_init_run_released s h Hrel), Hfail.
    split; reflexivity.
  - intros s h Hfail.
    destruct (snd (app_init_check_factory_reset h)) eqn:Hr.
    + apply app_init_run_reset. exact Hr.
    + rewrite app_init_run_cases, Hr, Hfail. split; reflexivity.
  - intros s h.
    destruct (snd (app_init_check_factory_reset h)) eqn:Hr.
    + rewrite (proj2 (app_init_run_reset s h Hr)). split; [discriminate|].
      intros [? _]. discriminate.
    + rewrite app_init_run_cases, Hr.
      destruct (snd (load_settings s h)); cbn [snd]; split; try discriminate; auto.
      intros [_ ?]. discriminate.
Qed.

Lemma sim_read_pin_save (p : Z) (s : AppSettings) (h : SimHal) :
  sim_read_pin p (app_init_save_settings s h) = sim_read_pin p h.
Proof.
  rewrite app_init_save_settings_writes. rewrite !sim_read_pin_write_byte. reflexivity.
Qed.

Ltac read_saved :=
  repeat (rewrite read_write_other by lia);
  rewrite read_write_same by (repeat apply eeprom_ok_write; first [assumption | unfold SIM_EEPROM_SIZE; lia]).

(** After a save on a sound EEPROM, the loader reads back the record. *)
Lemma load_after_save (s s0 : AppSettings) (h : SimHal) :
  eeprom_ok h -> fields_are_bytes s -> fields_below_limits s ->
  load_settings s0 (app_init_save_settings s h) = (s, true).
Proof.
  intros Hok Hbytes Hlim.
  pose proof (calculate_checksum_byte s Hbytes) as Hck.
  assert (Hb := Hbytes). destruct s as [b0 b1 b2 b3 b4 b5 b6 b7].
  unfold fields_are_bytes, settings_bytes in Hb. cbn in Hb.
  repeat match goal with H : Forall _ (_ :: _) |- _ => inversion H; clear H; subst end.
  set (s := mkAppSettings b0 b1 b2 b3 b4 b5 b6 b7) in *.
  set (h' := app_init_save_settings s h).
  assert (Hrec : eeprom_record h' = s).
  { subst h'. rewrite app_init_save_settings_writes. unfold eeprom_record, s.
    cbn [mode trigger_pulse_idx trigger_edge divide_divisor_idx cycle_tempo_idx
         toggle_edge gate_a_mode reserved].
    f_equal; read_saved; apply u8_small; assumption. }
  assert (Hmagic : sim_eeprom_read_word 0 h' = EEPROM_MAGIC_VALUE).
  { subst h'. rewrite app_init_save_settings_writes. unfold sim_eeprom_read_word.
    change (u16 (0 + 1)) with 1.
    replace (sim_eeprom_read_byte 0 _) with (u8 75) by (symmetry; read_saved; reflexivity).
    replace (sim_eeprom_read_byte 1 _) with (u8 71) by (symmetry; read_saved; reflexivity).
    reflexivity. }
  assert (Hschema : sim_eeprom_read_byte 2 h' = SETTINGS_SCHEMA_VERSION).
  { subst h'. rewrite app_init_save_settings_writes. read_saved. reflexivity. }
  assert (Hsum : sim_eeprom_read_byte 16 h' = calculate_checksum s).
  { subst h'. rewrite app_init_save_settings_writes. read_saved.
    apply u8_small. exact Hck. }
  rewrite load_settings_reads, Hmagic, Hschema, Hrec, Hsum, !Z.eqb_refl.
  cbn [negb]. apply settings_in_range_iff in Hlim. rewrite Hlim. reflexivity.
Qed.

Lemma sim_eeprom_read_byte_erased (a : Z) (h : SimHal) :
  sim_eeprom h = replicate (Z.to_nat SIM_EEPROM_SIZE) 255 ->
  0 <= a -> sim_eeprom_read_byte a h = 255.
Proof.
  intros He Ha. unfold sim_eeprom_read_byte. rewrite He.
  destruct (Z.leb_spec SIM_EEPROM_SIZE a); [reflexivity|].
  rewrite lookup_replicate_2 by (unfold SIM_EEPROM_SIZE in *; lia).
  destruct (eeprom_fault_mode h); reflexivity.
Qed.

(** C4: a record whose first seven fields are below their bounds,
    saved on a sound EEPROM and loaded by the startup with at least
    one button released, comes back field for field with result "ok";
    the startup on an erased EEPROM (all 0xFF) gives the defaults
    record with result "ok-defaults". *)
Theorem save_then_load_roundtrip :
  (forall (s s0 : AppSettings) (h : SimHal),
      eeprom_ok h -> fields_are_bytes s -> fields_below_limits s ->
      a_button_released h ->
      fst (fst (app_init_run s0 (app_init_save_settings s h))) = s /\
      snd (app_init_run s0 (app_init_save_settings s h)) = APP_INIT_OK)
  /\ (forall (s0 : AppSettings) (h : SimHal),
         sim_eeprom h = replicate (Z.to_nat SIM_EEPROM_SIZE) 255 ->
         a_button_released h ->
         fst (fst (app_init_run s0 h)) = app_init_get_defaults /\
         snd (app_init_run s0 h) = APP_INIT_OK_DEFAULTS).
Proof.
  split.
  - intros s s0 h Hok Hbytes Hlim Hrel.
    rewrite app_init_run_released
      by (unfold a_button_released; rewrite !sim_read_pin_save; exact Hrel).
    rewrite (load_after_save s s0 h Hok Hbytes Hlim). cbn [fst snd]. split; reflexivity.
  - intros s0 h Herased Hrel.
    rewrite (app_init_run_released s0 h Hrel), load_settings_reads.
    unfold sim_eeprom_read_word. change (u16 (0 + 1)) with 1.
    rewrite !(sim_eeprom_read_byte_erased _ h Herased) by lia.
    cbn [fst snd]. split; reflexivity.
Qed.
End StartupProperties.

(** The loader on an erased EEPROM; and a startup with both buttons
    down, the clock 5 ms before its wrap and an erased EEPROM: the reset
    is not taken, the load fails and the defaults are installed. *)
Lemma load_settings_four_levels_witness :
  let s := mkAppSettings 4 3 2 3 4 1 1 0 in
  let h := with_time (sim_set_button_b true (sim_set_button_a true sim_hal_init))
             4294967291 in
  load_settings app_init_get_defaults sim_hal_init = (app_init_get_defaults, false) /\
  (sim_read_pin button_a_pin h = 0 /\ sim_read_pin button_b_pin h = 0) /\
  fst (fst (app_init_run s h)) = app_init_get_defaults /\
  snd (app_init_run s h) = APP_INIT_OK_DEFAULTS.
Proof.
  intros s h. split; [|split; [split; reflexivity|]].
  - apply (proj1 (proj2 (proj2 load_settings_four_levels))).
    left. vm_compute. discriminate.
  - assert (Hfail : snd (load_settings s h) = false) by (vm_compute; reflexivity).
    assert (Hr : snd (app_init_check_factory_reset h) = false)
      by (vm_compute; reflexivity).
    pose proof (proj1 (proj2 (proj2 (proj2 (proj2 (proj2 load_settings_four_levels)))))
                  s h Hfail) as Hrun.
    rewrite Hr in Hrun. exact Hrun.
Defined.

Lemma save_then_load_roundtrip_witness :
  let s := mkAppSettings MODE_TRIGGER 1 0 2 3 0 0 0 in
  (fst (fst (app_init_run app_init_get_defaults (app_init_save_settings s sim_hal_init))) = s /\
   snd (app_init_run app_init_get_defaults (app_init_save_settings s sim_hal_init)) = APP_INIT_OK)
  /\ (fst (fst (app_init_run s sim_hal_init)) = app_init_get_defaults /\
      snd (app_init_run s sim_hal_init) = APP_INIT_OK_DEFAULTS).
Proof.
  intros s. split.
  - apply (proj1 save_then_load_roundtrip s app_init_get_defaults sim_hal_init).
    + split; reflexivity.
    + unfold fields_are_bytes, settings_bytes. cbn.
      repeat (apply List.Forall_cons; [unfold MODE_TRIGGER; lia|]). apply List.Forall_nil.
    + unfold fields_below_limits. cbn. repeat split; reflexivity.
    + reflexivity.
  - apply (proj2 save_then_load_roundtrip s sim_hal_init).
    + reflexivity.
    + reflexivity.
Defined.


(** ** State machine engine *)

Section FsmEngineProperties.
Context {SA TA W : Type}.
Variable run_state_action : SA -> W -> W.
Variable fsm_of : W -> FSM SA TA.
Variable put_fsm : FSM SA TA -> W -> W.
Hypothesis fsm_of_put : forall f w, fsm_of (put_fsm f w) = f.

(** An inactive FSM: the state is overwritten and no callback runs. *)
Lemma fsm_set_state_inactive (id : Z) (w : W) :
  active (fsm_of w) = false ->
  fsm_set_state run_state_action fsm_of put_fsm id w
  = put_fsm (fsm_with_state (fsm_of w) id) w.
Proof.
  intros Hin. unfold fsm_set_state. rewrite Hin, fsm_of_put.
  cbn [fsm_with_state active]. rewrite Hin. reflexivity.
Qed.

(** An active FSM whose callbacks leave the FSM record alone: exit
    callback of the old state, overwrite, entry callback of the new
    state; the tables play no part and are not changed. *)
Lemma fsm_set_state_active (id : Z) (w : W) :
  (forall a w, fsm_of (run_state_action a w) = fsm_of w) ->
  active (fsm_of w) = true ->
  fsm_set_state run_state_action fsm_of put_fsm id w
  = call_entry_action run_state_action fsm_of id
      (put_fsm (fsm_with_state (fsm_of w) id)
         (call_exit_action run_state_action fsm_of (fsm_current_state (fsm_of w)) w))
  /\ fsm_of (fsm_set_state run_state_action fsm_of put_fsm id w)
     = fsm_with_state (fsm_of w) id.
Proof.
  intros Hframe Hact.
  assert (Hexit : forall i w, fsm_of (call_exit_action run_state_action fsm_of i w) = fsm_of w).
  { intros i w0. unfold call_exit_action.
    destruct (_ =? 255); [reflexivity|].
    destruct (read_state _ _) as [s|]; [|reflexivity].
    destruct (on_exit s); cbn [run_opt]; auto. }
  assert (Hentry : forall i w, fsm_of (call_entry_action run_state_action fsm_of i w) = fsm_of w).
  { intros i w0. unfold call_entry_action.
    destruct (_ =? 255); [reflexivity|].
    destruct (read_state _ _) as [s|]; [|reflexivity].
    destruct (on_enter s); cbn [run_opt]; auto. }
  unfold fsm_set_state. rewrite Hact, fsm_of_put, Hexit.
  cbn [fsm_with_state active]. rewrite Hact.
  split; [reflexivity|]. rewrite Hentry, fsm_of_put. reflexivity.
Qed.
End FsmEngineProperties.

Lemma find_state_from_row {SA} (rows : list (State SA)) (i id : Z) :
  0 <= i -> i + Z.of_nat (length rows) <= 255 ->
  match fsm_find_row rows id with
  | Some s => exists k : nat, find_state_from rows i id = i + Z.of_nat k /\
                              rows !! k = Some s
  | None => find_state_from rows i id = 255
  end.
Proof.
  revert i. induction rows as [|s rows IH]; intros i Hi Hlen;
    cbn [fsm_find_row find_state_from]; [reflexivity|].
  cbn [length] in Hlen.
  destruct (state_id s =? id).
  - exists 0%nat. split; [lia | reflexivity].
  - specialize (IH (i + 1) ltac:(lia) ltac:(lia)).
    destruct (fsm_find_row rows id) as [s'|]; [|exact IH].
    destruct IH as (k & Hk & Hrow). exists (S k). split; [lia | exact Hrow].
Qed.

(** Against the state table, [find_state_index] followed by the read of
    the row is the lookup of the first row with the id, as long as the
    row count is a byte. *)
Lemma find_state_index_row {SA TA} (f : FSM SA TA) (id : Z) :
  num_states f <= 255 ->
  match fsm_state_row f id with
  | Some s => find_state_index f id <> 255 /\ read_state f (find_state_index f id) = Some s
  | None => find_state_index f id = 255
  end.
Proof.
  intros Hn. unfold fsm_state_row, find_state_index, read_state.
  destruct (states f) as [rows|]; [|reflexivity].
  pose proof (find_state_from_row (take (Z.to_nat (num_states f)) rows) 0 id
                ltac:(lia)) as Hrow.
  assert (Hlen : 0 + Z.of_nat (length (take (Z.to_nat (num_states f)) rows)) <= 255).
  { rewrite length_take. lia. }
  specialize (Hrow Hlen).
  destruct (fsm_find_row _ id) as [s|]; [|exact Hrow].
  destruct Hrow as (k & Hk & Hs). rewrite Hk.
  pose proof (lookup_lt_Some _ _ _ Hs) as Hlt.
  split; [lia|].
  replace (Z.to_nat (0 + Z.of_nat k)) with k by lia.
  apply lookup_take_Some in Hs. exact (proj1 Hs).
Qed.

Section FsmCallbacks.
Context {SA TA W : Type}.
Variable run_state_action : SA -> W -> W.
Variable fsm_of : W -> FSM SA TA.

Lemma call_exit_action_row (id : Z) (w : W) :
  num_states (fsm_of w) <= 255 ->
  call_exit_action run_state_action fsm_of id w
  = match fsm_exit_callback (fsm_of w) id with
    | Some a => run_state_action a w
    | None => w
    end.
Proof.
  intros Hn. pose proof (find_state_index_row (fsm_of w) id Hn) as Hrow.
  unfold call_exit_action, fsm_exit_callback.
  destruct (fsm_state_row (fsm_of w) id) as [s|].
  - destruct Hrow as [Hne ->]. apply Z.eqb_neq in Hne. rewrite Hne.
    destruct (on_exit s); reflexivity.
  - rewrite Hrow. reflexivity.
Qed.

Lemma call_entry_action_row (id : Z) (w : W) :
  num_states (fsm_of w) <= 255 ->
  call_entry_action run_state_action fsm_of id w
  = match fsm_entry_callback (fsm_of w) id with
    | Some a => run_state_action a w
    | None => w
    end.
Proof.
  intros Hn. pose proof (find_state_index_row (fsm_of w) id Hn) as Hrow.
  unfold call_entry_action, fsm_entry_callback.
  destruct (fsm_state_row (fsm_of w) id) as [s|].
  - destruct Hrow as [Hne ->]. apply Z.eqb_neq in Hne. rewrite Hne.
    destruct (on_enter s); reflexivity.
  - rewrite Hrow. reflexivity.
Qed.

Variable put_fsm : FSM SA TA -> W -> W.
Hypothesis fsm_of_put : forall f w, fsm_of (put_fsm f w) = f.
Hypothesis run_state_action_frame : forall a w, fsm_of (run_state_action a w) = fsm_of w.

(** On an active FSM [fsm_set_state] runs the exit callback the table
    declares for the current state, stores the id, and runs the entry
    callback the table declares for the id. *)
Lemma fsm_set_state_callbacks (id : Z) (w : W) :
  num_states (fsm_of w) <= 255 ->
  active (fsm_of w) = true ->
  fsm_set_state run_state_action fsm_of put_fsm id w
  = let w1 := match fsm_exit_callback (fsm_of w) (fsm_current_state (fsm_of w)) with
              | Some a => run_state_action a w
              | None => w
              end in
    let w2 := put_fsm (fsm_with_state (fsm_of w) id) w1 in
    match fsm_entry_callback (fsm_of w) id with
    | Some a => run_state_action a w2
    | None => w2
    end.
Proof.
  intros Hn Hact. unfold fsm_set_state. rewrite Hact.
  rewrite (call_exit_action_row _ w Hn).
  set (w1 := match fsm_exit_callback _ _ with Some a => _ | None => w end).
  assert (H1 : fsm_of w1 = fsm_of w).
  { unfold w1. destruct (fsm_exit_callback _ _); [apply run_state_action_frame | reflexivity]. }
  cbv zeta. rewrite H1, fsm_of_put. cbn [fsm_with_state active]. rewrite Hact.
  rewrite call_entry_action_row by (rewrite fsm_of_put; exact Hn).
  rewrite fsm_of_put.
  unfold fsm_entry_callback, fsm_state_row. reflexivity.
Qed.
End FsmCallbacks.

(** ** Coordinator *)

Section CoordinatorProperties.
Context `{ModeHandlers}.

Lemma call_entry_no_callback (fsm_of : World -> CoordFSM) (id : Z) (w : World) :
  call_entry_action run_no_callback fsm_of id w = w.
Proof.
  unfold call_entry_action. destruct (_ =? 255); [reflexivity|].
  destruct (read_state _ _) as [s|]; [|reflexivity].
  destruct (on_enter s) as [[]|]; reflexivity.
Qed.

Lemma call_exit_no_callback (fsm_of : World -> CoordFSM) (id : Z) (w : World) :
  call_exit_action run_no_callback fsm_of id w = w.
Proof.
  unfold call_exit_action. destruct (_ =? 255); [reflexivity|].
  destruct (read_state _ _) as [s|]; [|reflexivity].
  destruct (on_exit s) as [[]|]; reflexivity.
Qed.

(** In the coordinator [fsm_set_state] is a plain store. *)
Lemma fsm_set_state_coord (fsm_of : World -> CoordFSM)
    (put_fsm : CoordFSM -> World -> World) (id : Z) (w : World) :
  fsm_set_state run_no_callback fsm_of put_fsm id w
  = put_fsm (fsm_with_state (fsm_of w) id) w.
Proof.
  unfold fsm_set_state. rewrite call_exit_no_callback.
  replace (if active (fsm_of w) then w else w) with w
    by (destruct (active (fsm_of w)); reflexivity).
  destruct (active (fsm_of (put_fsm _ w))); [apply call_entry_no_callback | reflexivity].
Qed.

Lemma mode_process_event_mode_next (w : World) :
  fsm_wired (mode_fsm (coord w)) mode_states mode_transitions ->
  mode_process_event (Event_code EVT_MODE_NEXT) w = (action_next_mode w, false).
Proof.
  intros (_ & _ & Ht & Hn & Ha).
  unfold mode_process_event, fsm_process_event, mode_of. rewrite Ha, Ht, Hn.
  cbn [negb]. change (take _ mode_transitions) with mode_transitions.
  unfold mode_transitions.
  cbn [fsm_process_rows from_state trans_event to_state action].
  change (FSM_ANY_STATE =? FSM_ANY_STATE) with true. rewrite orb_true_r.
  reflexivity.
Qed.

Lemma menu_process_event_a_tap (w : World) :
  fsm_wired (menu_fsm (coord w)) menu_states menu_transitions ->
  menu_process_event (Event_code EVT_A_TAP) w = (action_next_page w, false).
Proof.
  intros (_ & _ & Ht & Hn & Ha).
  unfold menu_process_event, fsm_process_event, menu_of. rewrite Ha, Ht, Hn.
  cbn [negb]. change (take _ menu_transitions) with menu_transitions.
  unfold menu_transitions.
  cbn [fsm_process_rows from_state trans_event to_state action].
  change (FSM_ANY_STATE =? FSM_ANY_STATE) with true. rewrite orb_true_r.
  reflexivity.
Qed.

(** C10: [fsm_set_state] stores the requested id, declared or not, and
    neither reads nor changes the transition table.  On an inactive FSM
    the store is all it does.  On an active FSM (callbacks leaving the
    FSM record alone, row count a byte) it runs the exit callback that
    the state table declares for the old state, then stores, then runs
    the entry callback that the table declares for the new id; an id
    without a row, or a row without the callback, runs nothing for that
    step.  In the coordinator no state has a callback, so the store is
    all that happens; the rows of the mode and menu tables never name a
    target state, and next-mode, next-page and the menu-entry page jump
    move the FSMs by that store while [fsm_process_event] reports "no
    state change". *)
Theorem fsm_set_state_bypasses_tables :
  (forall (SA TA W : Type) (run : SA -> W -> W) (fsm_of : W -> FSM SA TA)
          (put_fsm : FSM SA TA -> W -> W) (id : Z) (w : W),
      (forall f w, fsm_of (put_fsm f w) = f) ->
      (active (fsm_of w) = false ->
       fsm_set_state run fsm_of put_fsm id w = put_fsm (fsm_with_state (fsm_of w) id) w) /\
      ((forall a w, fsm_of (run a w) = fsm_of w) ->
       active (fsm_of w) = true ->
       fsm_current_state (fsm_of (fsm_set_state run fsm_of put_fsm id w)) = id /\
       transitions (fsm_of (fsm_set_state run fsm_of put_fsm id w))
       = transitions (fsm_of w) /\
       (num_states (fsm_of w) <= 255 ->
        fsm_set_state run fsm_of put_fsm id w
        = let w1 := match fsm_exit_callback (fsm_of w) (fsm_current_state (fsm_of w)) with
                    | Some a => run a w
                    | None => w
                    end in
          let w2 := put_fsm (fsm_with_state (fsm_of w) id) w1 in
          match fsm_entry_callback (fsm_of w) id with
          | Some a => run a w2
          | None => w2
          end)))
  /\ (forall (id : Z) (w : World),
         fsm_set_state run_no_callback mode_of put_mode id w
         = put_mode (fsm_with_state (mode_of w) id) w /\
         fsm_set_state run_no_callback menu_of put_menu id w
         = put_menu (fsm_with_state (menu_of w) id) w)
  /\ Forall (fun t => to_state t = FSM_NO_TRANSITION) (mode_transitions ++ menu_transitions)
  /\ (forall w : World,
         g_coord w = true ->
         fsm_wired (mode_fsm (coord w)) mode_states mode_transitions ->
         snd (mode_process_event (Event_code EVT_MODE_NEXT) w) = false /\
         coordinator_get_mode (coord (fst (mode_process_event (Event_code EVT_MODE_NEXT) w)))
         = u8 ((coordinator_get_mode (coord w) + 1) mod MODE_COUNT))
  /\ (forall w : World,
         g_coord w = true ->
         fsm_wired (menu_fsm (coord w)) menu_states menu_transitions ->
         snd (menu_process_event (Event_code EVT_A_TAP) w) = false /\
         coordinator_get_page (coord (fst (menu_process_event (Event_code EVT_A_TAP) w)))
         = u8 ((coordinator_get_page (coord w) + 1) mod PAGE_COUNT))
  /\ (forall w : World,
         g_coord w = true ->
         coordinator_get_page (coord (action_enter_menu w))
         = mode_to_start_page (coordinator_get_mode (coord w))).
Proof.
  split; [|split; [|split; [|split; [|split]]]].
  - intros SA TA W run fsm_of put_fsm id w Hlens. split.
    + apply fsm_set_state_inactive. exact Hlens.
    + intros Hframe Hact.
      destruct (fsm_set_state_active run fsm_of put_fsm Hlens id w Hframe Hact) as [_ Hfsm].
      rewrite Hfsm. split; [reflexivity|]. split; [reflexivity|].
      intros Hn. exact (fsm_set_state_callbacks run fsm_of put_fsm Hlens Hframe id w Hn Hact).
  - intros id w. split; apply fsm_set_state_coord.
  - repeat constructor.
  - intros w Hg Hw. rewrite (mode_process_event_mode_next w Hw). cbn [fst snd].
    split; [reflexivity|]. unfold action_next_mode. rewrite Hg. cbn [negb].
    rewrite fsm_set_state_coord. reflexivity.
  - intros w Hg Hw. rewrite (menu_process_event_a_tap w Hw). cbn [fst snd].
    split; [reflexivity|]. unfold action_next_page. rewrite Hg. cbn [negb].
    rewrite fsm_set_state_coord. reflexivity.
  - intros w Hg. unfold action_enter_menu. rewrite Hg. cbn [negb].
    rewrite fsm_set_state_coord. reflexivity.
Qed.
End CoordinatorProperties.

(** The coordinator after next-mode and after a store of an undeclared
    id; and the logging client: on an active FSM in state 0 a jump to
    state 1 runs exit callback 11, then entry callback 20, a jump to the
    undeclared id 200 runs exit callback 11 only, and on an inactive
    FSM nothing runs. *)
Lemma fsm_set_state_bypasses_tables_witness :
  let w := with_g_coord (boot_world app_init_get_defaults) true in
  (coordinator_get_mode (coord (fst (mode_process_event (Event_code EVT_MODE_NEXT) w)))
   = MODE_TRIGGER
   /\ coordinator_get_mode
        (coord (fsm_set_state run_no_callback mode_of put_mode 200 w)) = 200)
  /\ fsm_set_state log_callback log_fsm_of log_put_fsm 1 (log_world true)
     = (fsm_with_state (log_fsm_of (log_world true)) 1, [11; 20])
  /\ fsm_set_state log_callback log_fsm_of log_put_fsm 200 (log_world true)
     = (fsm_with_state (log_fsm_of (log_world true)) 200, [11])
  /\ fsm_set_state log_callback log_fsm_of log_put_fsm 1 (log_world false)
     = (fsm_with_state (log_fsm_of (log_world false)) 1, []).
Proof.
  intros w.
  assert (Hlens : forall f (w0 : LogWorld), log_fsm_of (log_put_fsm f w0) = f)
    by reflexivity.
  assert (Hframe : forall a (w0 : LogWorld), log_fsm_of (log_callback a w0) = log_fsm_of w0)
    by reflexivity.
  assert (Hn : num_states (log_fsm_of (log_world true)) <= 255) by (cbn; lia).
  split; [split|split; [|split]].
  - refine (proj2 (proj1 (proj2 (proj2 (proj2 fsm_set_state_bypasses_tables))) w _ _)).
    + reflexivity.
    + repeat split.
  - rewrite (proj1 (proj1 (proj2 fsm_set_state_bypasses_tables) 200 w)). reflexivity.
  - rewrite (proj2 (proj2 (proj2 (proj1 fsm_set_state_bypasses_tables Z unit LogWorld
               log_callback log_fsm_of log_put_fsm 1 (log_world true) Hlens)
               Hframe eq_refl)) Hn).
    reflexivity.
  - rewrite (proj2 (proj2 (proj2 (proj1 fsm_set_state_bypasses_tables Z unit LogWorld
               log_callback log_fsm_of log_put_fsm 200 (log_world true) Hlens)
               Hframe eq_refl)) Hn).
    reflexivity.
  - rewrite (proj1 (proj1 fsm_set_state_bypasses_tables Z unit LogWorld
               log_callback log_fsm_of log_put_fsm 1 (log_world false) Hlens) eq_refl).
    reflexivity.
Defined.


(** ** Event processor: the pressed bits follow the inputs *)

Lemma ep_button_a_bits (ep : EventProcessor) (now i : Z) :
  0 <= i -> i <> 2 ->
  Z.testbit (ep_status (fst (ep_button_a ep now))) i = Z.testbit (ep_status ep) i.
Proof.
  intros Hi Hne. unfold ep_button_a, EP_A_HOLD.
  repeat match goal with |- context [if ?c then _ else _] => destruct c end;
    cbn [fst ep_status]; status_bits;
    destruct (Z.eqb_spec i 2); try lia; status_bits; reflexivity.
Qed.

Lemma ep_button_b_bits (ep : EventProcessor) (now i : Z) (e : Event) :
  0 <= i -> i <> 5 ->
  Z.testbit (ep_status (fst (ep_button_b ep now e))) i = Z.testbit (ep_status ep) i.
Proof.
  intros Hi Hne. unfold ep_button_b, EP_B_HOLD.
  repeat match goal with |- context [if ?c then _ else _] => destruct c end;
    cbn [fst ep_status]; status_bits;
    destruct (Z.eqb_spec i 5); try lia; status_bits; reflexivity.
Qed.

Lemma ep_compound_status (ep : EventProcessor) (a b : bool) (e : Event) :
  ep_status (fst (ep_compound ep a b e)) = ep_status ep.
Proof.
  unfold ep_compound.
  repeat match goal with |- context [if ?c then _ else _] => destruct c end; reflexivity.
Qed.

Lemma event_processor_update_pressed (ep : EventProcessor) (input : EventInput) :
  event_processor_a_pressed (fst (event_processor_update ep input)) = button_a input /\
  event_processor_b_pressed (fst (event_processor_update ep input)) = button_b input /\
  STATUS_ANY (ep_status (fst (event_processor_update ep input))) EP_CV_STATE = cv_in input.
Proof.
  unfold event_processor_update, event_processor_a_pressed, event_processor_b_pressed.
  set (ep1 := ep_put_inputs ep input).
  assert (H1 : Z.testbit (ep_status ep1) 0 = button_a input /\
               Z.testbit (ep_status ep1) 3 = button_b input /\
               Z.testbit (ep_status ep1) 6 = cv_in input).
  { subst ep1. unfold ep_put_inputs, EP_A_PRESSED, EP_B_PRESSED, EP_CV_STATE.
    cbn [ep_status].
    destruct (button_a input), (button_b input), (cv_in input); status_bits;
      repeat split; reflexivity. }
  destruct H1 as (Ha & Hb & Hc).
  pose proof (ep_button_a_bits ep1 (current_time input)) as HA.
  destruct (ep_button_a ep1 (current_time input)) as [ep2 e2]. cbn [fst] in HA.
  pose proof (fun i => ep_button_b_bits ep2 (current_time input) i e2) as HB.
  destruct (ep_button_b ep2 (current_time input) e2) as [ep3 e3]. cbn [fst] in HB.
  pose proof (ep_compound_status ep3 (STATUS_ANY (ep_status ep1) EP_A_PRESSED)
                (STATUS_ANY (ep_status ep2) EP_B_PRESSED) e3) as HC.
  destruct (ep_compound ep3 _ _ e3) as [ep4 e4]. cbn [fst] in HC.
  assert (H0 : Z.testbit (ep_status ep4) 0 = button_a input)
    by (rewrite HC, HB, HA by lia; exact Ha).
  assert (H3 : Z.testbit (ep_status ep4) 3 = button_b input)
    by (rewrite HC, HB, HA by lia; exact Hb).
  assert (H6 : Z.testbit (ep_status ep4) 6 = cv_in input)
    by (rewrite HC, HB, HA by lia; exact Hc).
  cbn [fst]. unfold ep_store_last, EP_A_PRESSED, EP_B_PRESSED, EP_CV_STATE,
    EP_A_LAST, EP_B_LAST, EP_CV_LAST. cbn [ep_status].
  repeat split; status_bits;
    repeat match goal with |- context [if ?c then _ else _] => destruct c end;
    status_bits; assumption.
Qed.

Section CoordinatorRouting.
Context `{ModeHandlers}.

Lemma run_coord_action_inputs (a : CoordAction) (w : World) :
  inputs_of (run_coord_action a w) = inputs_of w.
Proof.
  destruct a; cbn [run_coord_action];
    unfold action_enter_menu, action_exit_menu, action_next_mode, action_next_page,
      action_cycle_value;
    rewrite ?fsm_set_state_coord;
    repeat match goal with
           | |- context [if ?c then _ else _] => destruct c
           | |- context [match settings ?c with _ => _ end] => destruct (settings c)
           end;
    reflexivity.
Qed.

Lemma fsm_process_rows_inputs (fsm_of : World -> CoordFSM)
    (put_fsm : CoordFSM -> World -> World) (rows : list (Transition CoordAction))
    (e : Z) (w : World) :
  (forall f w, inputs_of (put_fsm f w) = inputs_of w) ->
  inputs_of (fst (fsm_process_rows run_no_callback run_coord_action fsm_of put_fsm rows e w))
  = inputs_of w.
Proof.
  intros Hput. induction rows as [|t rows IH]; cbn [fsm_process_rows]; [reflexivity|].
  destruct (_ && _); [|exact IH].
  destruct (to_state t =? FSM_NO_TRANSITION); cbn [fst].
  - destruct (action t); cbn [run_opt]; [apply run_coord_action_inputs | reflexivity].
  - rewrite call_entry_no_callback, Hput, call_exit_no_callback.
    destruct (action t); cbn [run_opt]; [apply run_coord_action_inputs | reflexivity].
Qed.

Lemma fsm_process_event_inputs (fsm_of : World -> CoordFSM)
    (put_fsm : CoordFSM -> World -> World) (e : Z) (w : World) :
  (forall f w, inputs_of (put_fsm f w) = inputs_of w) ->
  inputs_of (fst (fsm_process_event run_no_callback run_coord_action fsm_of put_fsm e w))
  = inputs_of w.
Proof.
  intros Hput. unfold fsm_process_event.
  destruct (negb _); [reflexivity|].
  destruct (transitions _); [|reflexivity].
  apply fsm_process_rows_inputs. exact Hput.
Qed.

Lemma coordinator_route_event_inputs (e : Event) (w : World) :
  inputs_of (coordinator_route_event e w) = inputs_of w.
Proof.
  unfold coordinator_route_event, top_process_event, mode_process_event, menu_process_event.
  destruct (is_event e); [|reflexivity].
  set (w1 := if _ =? TOP_MENU then _ else w).
  assert (H1 : inputs_of w1 = inputs_of w) by (subst w1; destruct (_ =? _); reflexivity).
  pose proof (fsm_process_event_inputs top_of put_top (Event_code e) w1
                (fun _ _ => eq_refl)) as Ht.
  destruct (fsm_process_event _ _ top_of put_top _ w1) as [w2 handled]. cbn [fst] in Ht.
  destruct handled; cbn [negb]; [congruence|].
  destruct (_ =? TOP_PERFORM).
  - rewrite (fsm_process_event_inputs mode_of put_mode _ w2 (fun _ _ => eq_refl)). congruence.
  - rewrite (fsm_process_event_inputs menu_of put_menu _ w2 (fun _ _ => eq_refl)). congruence.
Qed.

Lemma coordinator_check_timeout_inputs (w : World) :
  inputs_of (coordinator_check_timeout w) = inputs_of w.
Proof.
  unfold coordinator_check_timeout, top_process_event.
  destruct (_ =? TOP_MENU); [|reflexivity].
  destruct (_ <=? _); [|reflexivity].
  apply (fsm_process_event_inputs top_of put_top _ w (fun _ _ => eq_refl)).
Qed.

(** What [coordinator_update] leaves in the event processor and in
    the CV hysteresis. *)
Lemma coordinator_update_inputs (w : World) :
  inputs_of (coordinator_update w)
  = (fst (event_processor_update (events (coord w))
            (snd (coordinator_read_inputs w))),
     fst (coordinator_read_inputs w)).
Proof.
  unfold coordinator_update.
  change (coordinator_read_inputs (with_g_coord w true)) with (coordinator_read_inputs w).
  destruct (coordinator_read_inputs w) as [cv input]. cbn [fst snd].
  change (events (coord (with_g_coord w true))) with (events (coord w)).
  destruct (event_processor_update (events (coord w)) input) as [ep event].
  set (w1 := with_coord _ (set_inputs _ ep cv)).
  pose proof (coordinator_route_event_inputs event w1) as Hr.
  set (w2 := coordinator_route_event event w1) in *.
  pose proof (coordinator_check_timeout_inputs w2) as Ht.
  set (w3 := coordinator_check_timeout w2) in *.
  destruct (mode_handler_process _ _ _ _ _) as [ctx out].
  cbn [fst snd]. transitivity (inputs_of w3); [reflexivity|].
  rewrite Ht, Hr. reflexivity.
Qed.

Lemma top_process_event_a_hold (w : World) :
  fsm_wired (top_fsm (coord w)) top_states top_transitions ->
  top_process_event (Event_code EVT_A_HOLD) w = (w, false).
Proof.
  intros (_ & _ & Ht & Hn & Ha).
  unfold top_process_event, fsm_process_event, top_of. rewrite Ha, Ht, Hn.
  cbn [negb]. change (take _ top_transitions) with top_transitions.
  unfold top_transitions.
  cbn [fsm_process_rows from_state trans_event to_state action].
  change (Event_code EVT_MENU_TOGGLE =? Event_code EVT_A_HOLD) with false.
  change (Event_code EVT_TIMEOUT =? Event_code EVT_A_HOLD) with false.
  rewrite !andb_false_r. reflexivity.
Qed.

Lemma menu_process_event_a_hold (w : World) :
  fsm_wired (menu_fsm (coord w)) menu_states menu_transitions ->
  menu_process_event (Event_code EVT_A_HOLD) w = (w, false).
Proof.
  intros (_ & _ & Ht & Hn & Ha).
  unfold menu_process_event, fsm_process_event, menu_of. rewrite Ha, Ht, Hn.
  cbn [negb]. change (take _ menu_transitions) with menu_transitions.
  unfold menu_transitions.
  cbn [fsm_process_rows from_state trans_event to_state action].
  change (Event_code EVT_A_TAP =? Event_code EVT_A_HOLD) with false.
  change (Event_code EVT_B_TAP =? Event_code EVT_A_HOLD) with false.
  rewrite !andb_false_r. reflexivity.
Qed.

Lemma coordinator_route_a_hold_in_menu (w : World) :
  coordinator_wired (coord w) ->
  coordinator_get_top_state (coord w) = TOP_MENU ->
  coordinator_route_event EVT_A_HOLD w
  = with_coord w (set_last_activity (coord w) (sim_millis (hal w))).
Proof.
  intros (Htop & _ & Hmenu) Hst. unfold coordinator_route_event.
  change (is_event EVT_A_HOLD) with true. cbv iota.
  unfold coordinator_get_top_state in Hst. unfold top_of. rewrite Hst.
  change (TOP_MENU =? TOP_MENU) with true. change (TOP_MENU =? TOP_PERFORM) with false.
  cbv iota.
  rewrite top_process_event_a_hold by exact Htop. cbn [negb].
  rewrite menu_process_event_a_hold by exact Hmenu. reflexivity.
Qed.
End CoordinatorRouting.

(** C1 (what the code does): no row of the top table names A-hold; with
    the coordinator in MENU the top FSM does not consume a solo A-hold
    and the routing only refreshes the activity stamp, so the state stays
    MENU and nothing is saved; the run of the unit test "menu exits on A
    hold" ends in MENU, with the mode unchanged and the EEPROM still
    erased, where the test expects PERFORM. *)
Theorem top_fsm_keeps_menu_on_a_hold :
  Forall (fun t => trans_event t <> Event_code EVT_A_HOLD) top_transitions
  /\ (forall (M : ModeHandlers) (w : World),
         coordinator_wired (coord w) ->
         coordinator_get_top_state (coord w) = TOP_MENU ->
         top_process_event (Event_code EVT_A_HOLD) w = (w, false) /\
         coordinator_route_event EVT_A_HOLD w
         = with_coord w (set_last_activity (coord w) (sim_millis (hal w))))
  /\ coordinator_get_top_state (coord test_menu_exits_on_a_hold) = TOP_MENU
  /\ coordinator_get_mode (coord test_menu_exits_on_a_hold) = MODE_GATE
  /\ sim_eeprom (hal test_menu_exits_on_a_hold) = replicate 512 255.
Proof.
  split; [|split; [|split; [|split]]].
  - repeat constructor; discriminate.
  - intros M w Hw Hst. split.
    + apply top_process_event_a_hold. apply Hw.
    + apply coordinator_route_a_hold_in_menu; assumption.
  - vm_compute. reflexivity.
  - vm_compute. reflexivity.
  - vm_compute. reflexivity.
Qed.

Lemma top_fsm_keeps_menu_on_a_hold_witness :
  let w := with_g_coord
             (run_for_ms 100
                (release_button_b
                   (release_button_a
                      (do_menu_toggle_gesture (boot_world app_init_get_defaults))))) true in
  fst (top_process_event (Event_code EVT_A_HOLD) w) = w.
Proof.
  intros w.
  assert (Hw : coordinator_wired (coord w)) by (vm_compute; repeat split).
  assert (Hs : coordinator_get_top_state (coord w) = TOP_MENU) by (vm_compute; reflexivity).
  exact (f_equal fst (proj1 (proj1 (proj2 top_fsm_keeps_menu_on_a_hold) _ w Hw Hs))).
Defined.

(** C3 (as the code has it): after every [coordinator_update] the
    buttons seen by the event processor are the HAL pin samples of that
    tick, inverted for active-low and otherwise untouched; only the CV
    level is conditioned, by the hysteresis. *)
Theorem coordinator_feeds_raw_buttons (M : ModeHandlers) (w : World) :
  let w' := coordinator_update w in
  event_processor_a_pressed (events (coord w'))
  = negb (truthy (sim_read_pin button_a_pin (hal w))) /\
  event_processor_b_pressed (events (coord w'))
  = negb (truthy (sim_read_pin button_b_pin (hal w))) /\
  cv_input (coord w')
  = fst (cv_input_update (cv_input (coord w)) (sim_adc_read CV_ADC_CHANNEL (hal w))) /\
  STATUS_ANY (ep_status (events (coord w'))) EP_CV_STATE
  = snd (cv_input_update (cv_input (coord w)) (sim_adc_read CV_ADC_CHANNEL (hal w))).
Proof.
  intros w'. pose proof (coordinator_update_inputs w) as Hin.
  unfold inputs_of in Hin. fold w' in Hin.
  apply pair_equal_spec in Hin as [Hev Hcv]. rewrite Hev, Hcv.
  destruct (event_processor_update_pressed (events (coord w))
              (snd (coordinator_read_inputs w))) as (Ha & Hb & Hc).
  rewrite Ha, Hb, Hc. unfold coordinator_read_inputs.
  destruct (cv_input_update _ _) as [cv lvl]. repeat split.
Qed.

(** A press sampled 3 ms after the previous rising edge: the debouncer
    does not report it, the coordinator's event processor does. *)
Lemma coordinator_feeds_raw_buttons_counterexample :
  let h := sim_set_button_a true (with_time sim_hal_init 3) in
  let b := mkButton PIN_BUTTON_A 0 0 0 0 0 in
  let w := with_hal (boot_world app_init_get_defaults) h in
  STATUS_ANY (btn_status (button_update b h)) BTN_PRESSED = false /\
  event_processor_a_pressed (events (coord (coordinator_update w))) = true /\
  a_press_time (events (coord (coordinator_update w))) = 3.
Proof. vm_compute. repeat split. Qed.

(** ** Event processor: which event comes out *)

Lemma ep_put_inputs_bits (ep : EventProcessor) (input : EventInput) :
  Z.testbit (ep_status (ep_put_inputs ep input)) 0 = button_a input /\
  Z.testbit (ep_status (ep_put_inputs ep input)) 3 = button_b input /\
  Z.testbit (ep_status (ep_put_inputs ep input)) 6 = cv_in input /\
  (forall i, 0 <= i -> i <> 0 -> i <> 3 -> i <> 6 ->
     Z.testbit (ep_status (ep_put_inputs ep input)) i = Z.testbit (ep_status ep) i).
Proof.
  unfold ep_put_inputs, EP_A_PRESSED, EP_B_PRESSED, EP_CV_STATE. cbn [ep_status].
  destruct (button_a input), (button_b input), (cv_in input); status_bits;
    (repeat split; [..| intros i Hi H0 H3 H6; status_bits;
       destruct (Z.eqb_spec i 0), (Z.eqb_spec i 3), (Z.eqb_spec i 6); try lia;
       status_bits; reflexivity ]); reflexivity.
Qed.

(** The A block, read bit by bit. *)
Lemma ep_button_a_snd (ep : EventProcessor) (now : Z) :
  snd (ep_button_a ep now) =
  if Z.testbit (ep_status ep) 0 && negb (Z.testbit (ep_status ep) 1) then EVT_A_PRESS
  else if negb (Z.testbit (ep_status ep) 0) && Z.testbit (ep_status ep) 1 then
    if negb (Z.testbit (ep_status ep) 2) then EVT_A_TAP
    else if negb (Z.testbit (ext_status ep) 1) && negb (Z.testbit (ext_status ep) 0)
         then EVT_MODE_NEXT else EVT_A_RELEASE
  else if Z.testbit (ep_status ep) 0 && negb (Z.testbit (ep_status ep) 2) then
    if EP_HOLD_THRESHOLD_MS <=? u32_sub now (a_press_time ep) then
      if negb (Z.testbit (ep_status ep) 3) then EVT_A_HOLD else EVT_NONE
    else EVT_NONE
  else EVT_NONE.
Proof.
  unfold ep_button_a, EP_A_PRESSED, EP_A_LAST, EP_A_HOLD, EP_B_PRESSED,
    EP_B_TOUCHED_DURING_A, EP_COMPOUND_FIRED.
  status_bits.
  repeat match goal with |- context [if ?c then _ else _] => destruct c end; reflexivity.
Qed.

Lemma ep_button_a_frame (ep : EventProcessor) (now : Z) :
  Z.testbit (ext_status (fst (ep_button_a ep now))) 0 = Z.testbit (ext_status ep) 0 /\
  b_press_time (fst (ep_button_a ep now)) = b_press_time ep /\
  a_press_time (fst (ep_button_a ep now))
  = (if Z.testbit (ep_status ep) 0 && negb (Z.testbit (ep_status ep) 1)
     then now else a_press_time ep).
Proof.
  unfold ep_button_a, EP_A_PRESSED, EP_A_LAST, EP_A_HOLD, EP_B_TOUCHED_DURING_A.
  status_bits.
  repeat match goal with |- context [if ?c then _ else _] => destruct c end;
    cbn [fst ext_status a_press_time b_press_time]; status_bits; repeat split; reflexivity.
Qed.

(** The B block, read bit by bit. *)
Lemma ep_button_b_snd (ep : EventProcessor) (now : Z) (e : Event) :
  snd (ep_button_b ep now e) =
  if Z.testbit (ep_status ep) 3 && negb (Z.testbit (ep_status ep) 4) then
    if Event_eqb e EVT_NONE then EVT_B_PRESS else e
  else if negb (Z.testbit (ep_status ep) 3) && Z.testbit (ep_status ep) 4 then
    if Event_eqb e EVT_NONE then
      if negb (Z.testbit (ep_status ep) 5) then EVT_B_TAP else EVT_B_RELEASE
    else e
  else if Z.testbit (ep_status ep) 3 && negb (Z.testbit (ep_status ep) 5) then
    if EP_HOLD_THRESHOLD_MS <=? u32_sub now (b_press_time ep) then
      if Event_eqb e EVT_NONE then EVT_B_HOLD else e
    else e
  else e.
Proof.
  unfold ep_button_b, EP_B_PRESSED, EP_B_LAST, EP_B_HOLD, EP_A_HOLD.
  status_bits.
  repeat match goal with |- context [if ?c then _ else _] => destruct c end; reflexivity.
Qed.

Lemma ep_button_b_times (ep : EventProcessor) (now : Z) (e : Event) :
  a_press_time (fst (ep_button_b ep now e)) = a_press_time ep /\
  b_press_time (fst (ep_button_b ep now e))
  = (if Z.testbit (ep_status ep) 3 && negb (Z.testbit (ep_status ep) 4)
     then now else b_press_time ep).
Proof.
  unfold ep_button_b, EP_B_PRESSED, EP_B_LAST, EP_B_HOLD, EP_A_HOLD.
  status_bits.
  repeat match goal with |- context [if ?c then _ else _] => destruct c end;
    cbn [fst a_press_time b_press_time]; split; reflexivity.
Qed.

Lemma ep_compound_snd (ep : EventProcessor) (a b : bool) (e : Event) :
  snd (ep_compound ep a b e) =
  if negb (Z.testbit (ext_status ep) 0) && Event_eqb e EVT_B_HOLD
     && Z.testbit (ep_status ep) 0 && (a_press_time ep <? b_press_time ep)
  then EVT_MENU_TOGGLE else e.
Proof.
  unfold ep_compound, EP_COMPOUND_FIRED, EP_A_PRESSED. status_bits.
  destruct (Z.testbit (ext_status ep) 0), (Event_eqb e EVT_B_HOLD),
    (Z.testbit (ep_status ep) 0), (a_press_time ep <? b_press_time ep);
    reflexivity.
Qed.

(** The event returned by [event_processor_update], in terms of the
    inputs, the stored bits and the two time tests. *)
Lemma event_processor_update_snd (ep : EventProcessor) (input : EventInput) :
  let a := button_a input in
  let b := button_b input in
  let al := Z.testbit (ep_status ep) 1 in
  let ah := Z.testbit (ep_status ep) 2 in
  let bl := Z.testbit (ep_status ep) 4 in
  let bh := Z.testbit (ep_status ep) 5 in
  let now := current_time input in
  let ea :=
    if a && negb al then EVT_A_PRESS
    else if negb a && al then
      if negb ah then EVT_A_TAP
      else if negb (Z.testbit (ext_status ep) 1) && negb (Z.testbit (ext_status ep) 0)
           then EVT_MODE_NEXT else EVT_A_RELEASE
    else if a && negb ah then
      if EP_HOLD_THRESHOLD_MS <=? u32_sub now (a_press_time ep) then
        if negb b then EVT_A_HOLD else EVT_NONE
      else EVT_NONE
    else EVT_NONE in
  let eb :=
    if b && negb bl then if Event_eqb ea EVT_NONE then EVT_B_PRESS else ea
    else if negb b && bl then
      if Event_eqb ea EVT_NONE then if negb bh then EVT_B_TAP else EVT_B_RELEASE else ea
    else if b && negb bh then
      if EP_HOLD_THRESHOLD_MS <=? u32_sub now (b_press_time ep) then
        if Event_eqb ea EVT_NONE then EVT_B_HOLD else ea
      else ea
    else ea in
  let ec :=
    if negb (Z.testbit (ext_status ep) 0) && Event_eqb eb EVT_B_HOLD && a
       && ((if a && negb al then now else a_press_time ep)
           <? (if b && negb bl then now else b_press_time ep))
    then EVT_MENU_TOGGLE else eb in
  snd (event_processor_update ep input)
  = ep_cv_edge (cv_in input) (Z.testbit (ep_status ep) 7) ec.
Proof.
  intros a b al ah bl bh now ea eb ec.
  unfold event_processor_update. fold now.
  destruct (ep_put_inputs_bits ep input) as (H0 & H3 & H6 & Hrest).
  set (ep1 := ep_put_inputs ep input) in *.
  assert (Hx1 : ext_status ep1 = ext_status ep) by reflexivity.
  assert (Ht1 : a_press_time ep1 = a_press_time ep /\ b_press_time ep1 = b_press_time ep)
    by (split; reflexivity).
  destruct Ht1 as [Hta1 Htb1].
  pose proof (ep_button_a_snd ep1 now) as HAe.
  pose proof (ep_button_a_bits ep1 now) as HAb.
  destruct (ep_button_a_frame ep1 now) as (HAx & HAtb & HAta).
  rewrite H0, H3, !Hrest, Hx1, Hta1 in HAe by lia.
  rewrite H0, !Hrest, Hx1 in * by lia. rewrite Hta1 in HAta. rewrite Htb1 in HAtb.
  destruct (ep_button_a ep1 now) as [ep2 e2]. cbn [fst snd] in *.
  fold a b al ah in HAe. fold ea in HAe. subst e2.
  pose proof (ep_button_b_snd ep2 now ea) as HBe.
  pose proof (fun i => ep_button_b_bits ep2 now i ea) as HBb.
  destruct (ep_button_b_times ep2 now ea) as (HBta & HBtb).
  pose proof (proj1 (ep_button_b_frame ep2 now ea)) as HBx.
  rewrite !HAb, H3, !Hrest, HAtb in HBe by lia.
  rewrite !HAb, H3, !Hrest, HAtb in HBtb by lia.
  destruct (ep_button_b ep2 now ea) as [ep3 e3]. cbn [fst snd] in *.
  fold b bl bh in HBe. fold eb in HBe. subst e3.
  set (ap := STATUS_ANY (ep_status ep1) EP_A_PRESSED).
  set (bp := STATUS_ANY (ep_status ep2) EP_B_PRESSED).
  pose proof (ep_compound_snd ep3 ap bp eb) as HCe.
  pose proof (ep_compound_status ep3 ap bp eb) as HCs.
  rewrite HBx, HAx, HBb, HAb, H0, HBta, HAta, HBtb in HCe by lia.
  fold a b al bl in HCe. fold ec in HCe.
  destruct (ep_compound ep3 ap bp eb) as [ep4 e4]. cbn [fst snd] in *. subst e4.
  unfold EP_CV_STATE, EP_CV_LAST. rewrite !STATUS_ANY_bit by lia.
  rewrite HCs, !HBb, !HAb, H6, Hrest by lia. reflexivity.
Qed.

Ltac ep_event_cases :=
  repeat match goal with
    | |- context [EP_HOLD_THRESHOLD_MS <=? ?x] =>
        destruct (Z.leb_spec EP_HOLD_THRESHOLD_MS x)
    | |- context [?x <? ?y] => destruct (Z.ltb_spec x y)
    | |- context [if ?c then _ else _] => destruct c eqn:?
    end.

(** X1: every event returned by [event_processor_update] is backed by
    the inputs and the stored state of this call: a press or release
    event by the matching edge of its button, a hold event by a button
    that stayed pressed for at least the hold threshold (and, for the
    A hold, with B up), the menu toggle by both buttons down with the
    stored press time of A strictly below the stored press time of B
    and the compound flag clear, a CV event by a CV edge with no button
    edge in the same call.  The two press times are compared as plain
    32-bit numbers, so across the wrap of the clock the smaller stamp
    need not be the earlier press.  The timeout event is never
    returned. *)
Theorem event_processor_update_event_sound (ep : EventProcessor) (input : EventInput) :
  let a := button_a input in
  let b := button_b input in
  let al := Z.testbit (ep_status ep) 1 in
  let ah := Z.testbit (ep_status ep) 2 in
  let bl := Z.testbit (ep_status ep) 4 in
  let bh := Z.testbit (ep_status ep) 5 in
  let fired := Z.testbit (ext_status ep) 0 in
  let touched := Z.testbit (ext_status ep) 1 in
  let held_a := EP_HOLD_THRESHOLD_MS <= u32_sub (current_time input) (a_press_time ep) in
  let held_b := EP_HOLD_THRESHOLD_MS <= u32_sub (current_time input) (b_press_time ep) in
  match snd (event_processor_update ep input) with
  | EVT_NONE => True
  | EVT_A_PRESS => a = true /\ al = false
  | EVT_A_TAP => a = false /\ al = true /\ ah = false
  | EVT_MODE_NEXT => a = false /\ al = true /\ ah = true /\ touched = false /\ fired = false
  | EVT_A_RELEASE => a = false /\ al = true /\ ah = true /\ touched || fired = true
  | EVT_A_HOLD => a = true /\ al = true /\ ah = false /\ b = false /\ held_a
  | EVT_B_PRESS => b = true /\ bl = false /\ a = al
  | EVT_B_TAP => b = false /\ bl = true /\ bh = false /\ a = al
  | EVT_B_RELEASE => b = false /\ bl = true /\ bh = true /\ a = al
  | EVT_B_HOLD => b = true /\ bl = true /\ bh = false /\ a = al /\ held_b
  | EVT_MENU_TOGGLE =>
      a = true /\ al = true /\ b = true /\ bl = true /\ bh = false /\ fired = false /\
      held_b /\ a_press_time ep < b_press_time ep
  | EVT_CV_RISE =>
      cv_in input = true /\ Z.testbit (ep_status ep) 7 = false /\ a = al /\ b = bl
  | EVT_CV_FALL =>
      cv_in input = false /\ Z.testbit (ep_status ep) 7 = true /\ a = al /\ b = bl
  | EVT_TIMEOUT => False
  end.
Proof.
  pose proof (event_processor_update_snd ep input) as H. cbv zeta in *. rewrite H. clear H.
  unfold ep_cv_edge.
  destruct (button_a input), (button_b input), (Z.testbit (ep_status ep) 1),
    (Z.testbit (ep_status ep) 2), (Z.testbit (ep_status ep) 4),
    (Z.testbit (ep_status ep) 5), (Z.testbit (ep_status ep) 7), (cv_in input),
    (Z.testbit (ext_status ep) 0), (Z.testbit (ext_status ep) 1);
    cbn [andb negb orb];
    ep_event_cases; cbn [Event_eqb Event_code Z.eqb Pos.eqb andb negb orb] in *;
    try discriminate; repeat split; try reflexivity; try assumption; try lia.
Qed.

Lemma ep_button_a_hold_bit (ep : EventProcessor) (now : Z) :
  Z.testbit (ep_status (fst (ep_button_a ep now))) 2 =
  if Z.testbit (ep_status ep) 0 && negb (Z.testbit (ep_status ep) 1) then false
  else if negb (Z.testbit (ep_status ep) 0) && Z.testbit (ep_status ep) 1 then false
  else if Z.testbit (ep_status ep) 0 && negb (Z.testbit (ep_status ep) 2)
       then EP_HOLD_THRESHOLD_MS <=? u32_sub now (a_press_time ep)
       else Z.testbit (ep_status ep) 2.
Proof.
  unfold ep_button_a, EP_A_PRESSED, EP_A_LAST, EP_A_HOLD, EP_B_PRESSED.
  status_bits.
  destruct (Z.testbit (ep_status ep) 0), (Z.testbit (ep_status ep) 1),
    (Z.testbit (ep_status ep) 2) eqn:E2,
    (EP_HOLD_THRESHOLD_MS <=? u32_sub now (a_press_time ep));
    cbn [andb negb fst ep_status]; status_bits; rewrite ?E2; reflexivity.
Qed.

Lemma ep_button_b_hold_bit (ep : EventProcessor) (now : Z) (e : Event) :
  Z.testbit (ep_status (fst (ep_button_b ep now e))) 5 =
  if Z.testbit (ep_status ep) 3 && negb (Z.testbit (ep_status ep) 4) then false
  else if negb (Z.testbit (ep_status ep) 3) && Z.testbit (ep_status ep) 4 then false
  else if Z.testbit (ep_status ep) 3 && negb (Z.testbit (ep_status ep) 5)
       then EP_HOLD_THRESHOLD_MS <=? u32_sub now (b_press_time ep)
       else Z.testbit (ep_status ep) 5.
Proof.
  unfold ep_button_b, EP_B_PRESSED, EP_B_LAST, EP_B_HOLD, EP_A_HOLD.
  status_bits.
  destruct (Z.testbit (ep_status ep) 3), (Z.testbit (ep_status ep) 4),
    (Z.testbit (ep_status ep) 5) eqn:E5,
    (EP_HOLD_THRESHOLD_MS <=? u32_sub now (b_press_time ep));
    cbn [andb negb fst ep_status]; status_bits; rewrite ?E5; reflexivity.
Qed.

Lemma ep_compound_fst (ep : EventProcessor) (a b : bool) (e : Event) :
  a_press_time (fst (ep_compound ep a b e)) = a_press_time ep /\
  b_press_time (fst (ep_compound ep a b e)) = b_press_time ep /\
  Z.testbit (ext_status (fst (ep_compound ep a b e))) 0 =
    (if negb a && negb b then false
     else Z.testbit (ext_status ep) 0
          || Event_eqb e EVT_B_HOLD && Z.testbit (ep_status ep) 0
             && (a_press_time ep <? b_press_time ep)).
Proof.
  unfold ep_compound, EP_COMPOUND_FIRED, EP_A_PRESSED. status_bits.
  destruct (Z.testbit (ext_status ep) 0) eqn:E0, (Event_eqb e EVT_B_HOLD),
    (Z.testbit (ep_status ep) 0), (a_press_time ep <? b_press_time ep), a, b;
    cbn [andb negb orb fst ext_status a_press_time b_press_time]; status_bits;
    rewrite ?E0; repeat split; reflexivity.
Qed.

Lemma ep_store_last_bits (ep : EventProcessor) (a b cv : bool) :
  Z.testbit (ep_status (ep_store_last ep a b cv)) 1 = a /\
  Z.testbit (ep_status (ep_store_last ep a b cv)) 4 = b /\
  Z.testbit (ep_status (ep_store_last ep a b cv)) 7 = cv /\
  (forall i, 0 <= i -> i <> 1 -> i <> 4 -> i <> 7 ->
     Z.testbit (ep_status (ep_store_last ep a b cv)) i = Z.testbit (ep_status ep) i).
Proof.
  unfold ep_store_last, EP_A_LAST, EP_B_LAST, EP_CV_LAST. cbn [ep_status].
  destruct a, b, cv; status_bits;
    (repeat split; [..| intros i Hi H1 H4 H7; status_bits;
       destruct (Z.eqb_spec i 1), (Z.eqb_spec i 4), (Z.eqb_spec i 7); try lia;
       status_bits; reflexivity ]); reflexivity.
Qed.

(** The state left by [event_processor_update]: the bits that matter
    to the next call, the press timestamps and the compound flag. *)
Lemma event_processor_update_fst (ep : EventProcessor) (input : EventInput) :
  let a := button_a input in
  let b := button_b input in
  let al := Z.testbit (ep_status ep) 1 in
  let ah := Z.testbit (ep_status ep) 2 in
  let bl := Z.testbit (ep_status ep) 4 in
  let bh := Z.testbit (ep_status ep) 5 in
  let now := current_time input in
  let ep' := fst (event_processor_update ep input) in
  Z.testbit (ep_status ep') 0 = a /\ Z.testbit (ep_status ep') 1 = a /\
  Z.testbit (ep_status ep') 3 = b /\ Z.testbit (ep_status ep') 4 = b /\
  Z.testbit (ep_status ep') 6 = cv_in input /\ Z.testbit (ep_status ep') 7 = cv_in input /\
  Z.testbit (ep_status ep') 2 =
    (if a && negb al then false else if negb a && al then false
     else if a && negb ah then EP_HOLD_THRESHOLD_MS <=? u32_sub now (a_press_time ep)
     else ah) /\
  Z.testbit (ep_status ep') 5 =
    (if b && negb bl then false else if negb b && bl then false
     else if b && negb bh then EP_HOLD_THRESHOLD_MS <=? u32_sub now (b_press_time ep)
     else bh) /\
  a_press_time ep' = (if a && negb al then now else a_press_time ep) /\
  b_press_time ep' = (if b && negb bl then now else b_press_time ep) /\
  Z.testbit (ext_status ep') 0 =
    (if negb a && negb b then false
     else Z.testbit (ext_status ep) 0
          || Event_eqb (snd (event_processor_update ep input)) EVT_MENU_TOGGLE).
Proof.
  intros a b al ah bl bh now ep'.
  pose proof (event_processor_update_snd ep input) as Hsnd. cbv zeta in Hsnd.
  fold a b al ah bl bh now in Hsnd.
  subst ep'. revert Hsnd.
  unfold event_processor_update. fold now.
  destruct (ep_put_inputs_bits ep input) as (H0 & H3 & H6 & Hrest).
  set (ep1 := ep_put_inputs ep input) in *.
  assert (Hx1 : ext_status ep1 = ext_status ep) by reflexivity.
  assert (Hta1 : a_press_time ep1 = a_press_time ep) by reflexivity.
  assert (Htb1 : b_press_time ep1 = b_press_time ep) by reflexivity.
  pose proof (ep_button_a_snd ep1 now) as HAe.
  pose proof (ep_button_a_bits ep1 now) as HAb.
  pose proof (ep_button_a_hold_bit ep1 now) as HAh.
  destruct (ep_button_a_frame ep1 now) as (HAx & HAtb & HAta).
  rewrite H0, H3, !Hrest, Hx1, Hta1 in HAe by lia.
  rewrite H0, !Hrest, Hta1 in HAh by lia.
  rewrite H0, !Hrest, Hx1 in * by lia. rewrite Hta1 in HAta. rewrite Htb1 in HAtb.
  destruct (ep_button_a ep1 now) as [ep2 e2]. cbn [fst snd] in *.
  fold a b al ah in HAe, HAh, HAta.
  pose proof (ep_button_b_snd ep2 now e2) as HBe.
  pose proof (fun i => ep_button_b_bits ep2 now i e2) as HBb.
  pose proof (ep_button_b_hold_bit ep2 now e2) as HBh.
  destruct (ep_button_b_times ep2 now e2) as (HBta & HBtb).
  pose proof (proj1 (ep_button_b_frame ep2 now e2)) as HBx.
  rewrite !HAb, H3, !Hrest, HAtb in HBe by lia.
  rewrite !HAb, H3, !Hrest, HAtb in HBh by lia.
  rewrite !HAb, H3, !Hrest, HAtb in HBtb by lia.
  destruct (ep_button_b ep2 now e2) as [ep3 e3]. cbn [fst snd] in *.
  fold b bl bh in HBe, HBh, HBtb.
  set (ap := STATUS_ANY (ep_status ep1) EP_A_PRESSED).
  set (bp := STATUS_ANY (ep_status ep2) EP_B_PRESSED).
  assert (Hap : ap = a) by (subst ap; unfold EP_A_PRESSED; status_bits; exact H0).
  assert (Hbp : bp = b)
    by (subst bp; unfold EP_B_PRESSED; status_bits; rewrite HAb by lia; exact H3).
  pose proof (ep_compound_snd ep3 ap bp e3) as HCe.
  pose proof (ep_compound_status ep3 ap bp e3) as HCs.
  destruct (ep_compound_fst ep3 ap bp e3) as (HCta & HCtb & HCx).
  rewrite HBx, HAx, HBb, HAb, H0, HBta, HAta, HBtb in HCe by lia.
  rewrite HBx, HAx, HBb, HAb, H0, HBta, HAta, HBtb in HCx by lia.
  rewrite HBta, HAta in HCta. rewrite HBtb in HCtb.
  destruct (ep_compound ep3 ap bp e3) as [ep4 e4]. cbn [fst snd] in *.
  rewrite Hap, Hbp in HCx.
  set (cvh := STATUS_ANY (ep_status ep4) EP_CV_STATE).
  destruct (ep_store_last_bits ep4 ap bp cvh) as (S1 & S4 & S7 & Srest).
  assert (Hcv : cvh = cv_in input)
    by (subst cvh; unfold EP_CV_STATE; status_bits;
        rewrite HCs, HBb, HAb by lia; exact H6).
  intros _.
  rewrite S1, S4, S7, !Srest, HCs, !HBb, !HAb, HBh, HAh, Hap, Hbp, Hcv by lia.
  unfold ep_store_last. cbn [a_press_time b_press_time ext_status].
  rewrite HCta, HCtb, HCx.
  repeat split; try assumption.
  (* the compound flag *)
  unfold ep_cv_edge. subst e4 e3 e2. subst a b al ah bl bh.
  destruct (button_a input), (button_b input), (Z.testbit (ep_status ep) 1),
    (Z.testbit (ep_status ep) 2), (Z.testbit (ep_status ep) 4),
    (Z.testbit (ep_status ep) 5), (Z.testbit (ext_status ep) 0),
    (Z.testbit (ext_status ep) 1), (cv_in input), (Z.testbit (ep_status ep4) 7);
    cbn [andb negb orb];
    ep_event_cases; cbn [Event_eqb Event_code Z.eqb Pos.eqb andb negb orb] in *;
    try reflexivity; try discriminate; try lia.
Qed.

(** X2: an edge of button A decides the event of the call, whatever
    button B and the CV input do in the same call: a press gives
    [EVT_A_PRESS]; a release gives [EVT_A_TAP] when the hold had not
    been latched, else [EVT_MODE_NEXT] when neither the compound flag
    nor the B-touched flag is set, else [EVT_A_RELEASE]. *)
Theorem a_edge_event_has_priority (ep : EventProcessor) (input : EventInput) :
  button_a input = negb (Z.testbit (ep_status ep) 1) ->
  snd (event_processor_update ep input) =
  if button_a input then EVT_A_PRESS
  else if negb (Z.testbit (ep_status ep) 2) then EVT_A_TAP
  else if negb (Z.testbit (ext_status ep) 1) && negb (Z.testbit (ext_status ep) 0)
       then EVT_MODE_NEXT
       else EVT_A_RELEASE.
Proof.
  intros Ha.
  pose proof (event_processor_update_snd ep input) as H. cbv zeta in H. rewrite H. clear H.
  rewrite Ha. unfold ep_cv_edge.
  destruct (Z.testbit (ep_status ep) 1), (Z.testbit (ep_status ep) 2),
    (Z.testbit (ext_status ep) 1), (Z.testbit (ext_status ep) 0),
    (button_b input), (Z.testbit (ep_status ep) 4), (Z.testbit (ep_status ep) 5);
    cbn [andb negb orb Event_eqb Event_code Z.eqb Pos.eqb];
    ep_event_cases; cbn [Event_eqb Event_code Z.eqb Pos.eqb andb negb orb] in *;
    try reflexivity; try discriminate.
Qed.

Lemma a_edge_event_has_priority_witness :
  snd (event_processor_update (mkEP 6 0 100 0) (mkEventInput false true true 900))
  = EVT_MODE_NEXT.
Proof.
  exact (a_edge_event_has_priority (mkEP 6 0 100 0) (mkEventInput false true true 900)
           eq_refl).
Defined.

(** X3: with A held down from an earlier call and B down since an
    earlier call without its hold latched, the call at which B reaches
    the hold threshold returns [EVT_MENU_TOGGLE] when the stored press
    time of A is strictly below the stored press time of B and the
    compound flag is clear, and [EVT_B_HOLD] otherwise; it latches the
    B hold, and a toggle sets the compound flag.  The two press times
    are compared as plain 32-bit numbers, so across the wrap of the
    clock the smaller stamp need not be the earlier press. *)
Theorem menu_toggle_on_b_hold (ep : EventProcessor) (input : EventInput) :
  button_a input = true -> Z.testbit (ep_status ep) 1 = true ->
  button_b input = true -> Z.testbit (ep_status ep) 4 = true ->
  Z.testbit (ep_status ep) 5 = false ->
  EP_HOLD_THRESHOLD_MS <= u32_sub (current_time input) (b_press_time ep) ->
  let toggle := negb (Z.testbit (ext_status ep) 0)
                && (a_press_time ep <? b_press_time ep) in
  snd (event_processor_update ep input)
    = (if toggle then EVT_MENU_TOGGLE else EVT_B_HOLD) /\
  event_processor_b_holding (fst (event_processor_update ep input)) = true /\
  Z.testbit (ext_status (fst (event_processor_update ep input))) 0
    = Z.testbit (ext_status ep) 0 || toggle.
Proof.
  intros Ha Hal Hb Hbl Hbh Hheld toggle.
  assert (Hsnd : snd (event_processor_update ep input)
                 = if toggle then EVT_MENU_TOGGLE else EVT_B_HOLD).
  { pose proof (event_processor_update_snd ep input) as H. cbv zeta in H. rewrite H.
    clear H. rewrite Ha, Hal, Hb, Hbl, Hbh. subst toggle.
    apply Z.leb_le in Hheld. rewrite Hheld. cbn [andb negb]. unfold ep_cv_edge.
    destruct (Z.testbit (ep_status ep) 2), (Z.testbit (ext_status ep) 0),
      (a_press_time ep <? b_press_time ep);
      cbn [andb negb orb Event_eqb Event_code Z.eqb Pos.eqb];
      ep_event_cases; cbn [Event_eqb Event_code Z.eqb Pos.eqb andb negb orb] in *;
      try reflexivity; try discriminate; try lia. }
  destruct (event_processor_update_fst ep input)
    as (_ & _ & _ & _ & _ & _ & _ & H5 & _ & _ & Hx).
  cbv zeta in H5, Hx. rewrite Hsnd in Hx.
  rewrite Hb, Hbl, Hbh in H5. apply Z.leb_le in Hheld. rewrite Hheld in H5.
  rewrite Ha in Hx. cbn [andb negb] in H5, Hx.
  split; [exact Hsnd|]. split.
  - unfold event_processor_b_holding, EP_B_HOLD. status_bits. exact H5.
  - rewrite Hx. destruct toggle; reflexivity.
Qed.

Lemma menu_toggle_on_b_hold_witness :
  snd (event_processor_update (mkEP 27 0 100 200) (mkEventInput true true false 700))
    = EVT_MENU_TOGGLE /\
  event_processor_b_holding
    (fst (event_processor_update (mkEP 27 0 100 200) (mkEventInput true true false 700)))
    = true /\
  Z.testbit
    (ext_status
       (fst (event_processor_update (mkEP 27 0 100 200)
               (mkEventInput true true false 700)))) 0
    = true.
Proof.
  exact (menu_toggle_on_b_hold (mkEP 27 0 100 200) (mkEventInput true true false 700)
           eq_refl eq_refl eq_refl eq_refl eq_refl ltac:(vm_compute; discriminate)).
Defined.

(** X4: an event is reported once.  Calling [event_processor_update]
    again with the same inputs at the same time returns [EVT_NONE],
    whatever the first call returned. *)
Theorem event_reported_once (ep : EventProcessor) (input : EventInput) :
  snd (event_processor_update (fst (event_processor_update ep input)) input) = EVT_NONE.
Proof.
  destruct (event_processor_update_fst ep input)
    as (_ & H1 & _ & H4 & _ & H7 & H2 & H5 & Hta & Htb & _).
  cbv zeta in *.
  set (ep' := fst (event_processor_update ep input)) in *.
  pose proof (event_processor_update_snd ep' input) as H. cbv zeta in H. rewrite H. clear H.
  rewrite H1, H4, H7, H2, H5, Hta, Htb. unfold ep_cv_edge.
  destruct (button_a input), (button_b input), (cv_in input),
    (Z.testbit (ep_status ep) 1), (Z.testbit (ep_status ep) 2),
    (Z.testbit (ep_status ep) 4), (Z.testbit (ep_status ep) 5);
    cbn [andb negb orb]; rewrite ?u32_sub_self;
    change (EP_HOLD_THRESHOLD_MS <=? 0) with false;
    cbn [Event_eqb Event_code Z.eqb Pos.eqb andb negb orb];
    repeat match goal with
      | |- context [EP_HOLD_THRESHOLD_MS <=? ?x] =>
          destruct (EP_HOLD_THRESHOLD_MS <=? x);
          cbn [Event_eqb Event_code Z.eqb Pos.eqb andb negb orb]
      end;
    rewrite ?andb_false_r; try reflexivity.
Qed.

(** X5: with both buttons up, now and at the previous call, the event
    is the CV edge: [EVT_CV_RISE] when the CV level went from low to
    high, [EVT_CV_FALL] when it went from high to low, [EVT_NONE] when
    it kept its level. *)
Theorem idle_buttons_report_cv_edge (ep : EventProcessor) (input : EventInput) :
  button_a input = false -> Z.testbit (ep_status ep) 1 = false ->
  button_b input = false -> Z.testbit (ep_status ep) 4 = false ->
  snd (event_processor_update ep input) =
  if cv_in input && negb (Z.testbit (ep_status ep) 7) then EVT_CV_RISE
  else if negb (cv_in input) && Z.testbit (ep_status ep) 7 then EVT_CV_FALL
  else EVT_NONE.
Proof.
  intros Ha Hal Hb Hbl.
  pose proof (event_processor_update_snd ep input) as H. cbv zeta in H. rewrite H. clear H.
  rewrite Ha, Hal, Hb, Hbl. cbn [andb negb]. rewrite !andb_false_r.
  reflexivity.
Qed.

Lemma idle_buttons_report_cv_edge_witness :
  snd (event_processor_update (mkEP 128 0 0 0) (mkEventInput false false false 40))
  = EVT_CV_FALL.
Proof.
  exact (idle_buttons_report_cv_edge (mkEP 128 0 0 0) (mkEventInput false false false 40)
           eq_refl eq_refl eq_refl eq_refl).
Defined.

(** ** Debounced button: the state after an update *)

Lemma button_has_falling_edge_snd (b : Button) (h : SimHal) :
  snd (button_has_falling_edge b h) =
  negb (Z.testbit (btn_status b) 0) && Z.testbit (btn_status b) 2
  && (EDGE_DEBOUNCE_MS <? u32_sub (sim_millis h) (last_fall_time b)).
Proof.
  unfold button_has_falling_edge, BTN_RAW, BTN_LAST. status_bits.
  destruct (Z.testbit (btn_status b) 0), (Z.testbit (btn_status b) 2);
    cbn [andb negb snd]; try reflexivity.
  destruct (EDGE_DEBOUNCE_MS <? _); reflexivity.
Qed.

Lemma button_has_rising_edge_fall_time (b : Button) (h : SimHal) :
  last_fall_time (fst (button_has_rising_edge b h)) = last_fall_time b.
Proof.
  unfold button_has_rising_edge.
  repeat match goal with |- context [if ?c then _ else _] => destruct c end; reflexivity.
Qed.

(** The legacy detector reports the action only for a pressed button. *)
Lemma button_detect_config_action_pressed (b : Button) (h : SimHal) :
  snd (button_detect_config_action b h) = true -> Z.testbit (btn_status b) 1 = true.
Proof.
  destruct (Z.testbit (btn_status b) 1) eqn:E1; [reflexivity|].
  unfold button_detect_config_action.
  set (b1 := if STATUS_ANY (btn_status b) BTN_RISE then _ else b).
  assert (H1 : STATUS_ANY (btn_status b1) BTN_PRESSED = false).
  { subst b1. unfold BTN_PRESSED, BTN_COUNTING.
    repeat match goal with |- context [if ?c then _ else _] => destruct c end;
      cbn [btn_status]; status_bits; exact E1. }
  rewrite H1, andb_false_r. cbn [snd]. discriminate.
Qed.

(** The status bits left by [button_update], in terms of the raw
    sample, the previous status and the two debounce tests. *)
Lemma button_update_bits (b : Button) (h : SimHal) :
  let raw := negb (truthy (sim_read_pin (btn_pin b) h)) in
  let last := Z.testbit (btn_status b) 2 in
  let rise := raw && negb last
              && (EDGE_DEBOUNCE_MS <? u32_sub (sim_millis h) (last_rise_time b)) in
  let fall := negb raw && last
              && (EDGE_DEBOUNCE_MS <? u32_sub (sim_millis h) (last_fall_time b)) in
  let pressed := if rise then true else if fall then false
                 else Z.testbit (btn_status b) 1 in
  let s' := btn_status (button_update b h) in
  Z.testbit s' 0 = raw /\ Z.testbit s' 1 = pressed /\ Z.testbit s' 2 = pressed /\
  Z.testbit s' 3 = rise /\ Z.testbit s' 4 = fall /\
  (Z.testbit s' 5 = true -> Z.testbit (btn_status b) 5 = false -> pressed = true) /\
  (Z.testbit (btn_status b) 5 = true -> Z.testbit s' 5 = true).
Proof.
  intros raw last rise fall pressed s'. subst s'. unfold button_update. fold raw.
  set (b2 := btn_with_status _ (STATUS_CLR _ _)).
  assert (Hb2 : Z.testbit (btn_status b2) 0 = raw /\
                Z.testbit (btn_status b2) 1 = Z.testbit (btn_status b) 1 /\
                Z.testbit (btn_status b2) 2 = last /\
                Z.testbit (btn_status b2) 3 = false /\
                Z.testbit (btn_status b2) 4 = false /\
                Z.testbit (btn_status b2) 5 = Z.testbit (btn_status b) 5).
  { subst b2. cbn [btn_with_status btn_status].
    unfold BTN_RISE, BTN_FALL, BTN_RAW. destruct raw; status_bits;
      repeat split; reflexivity. }
  destruct Hb2 as (B0 & B1 & B2 & B3 & B4 & B5).
  pose proof (button_has_rising_edge_snd b2 h) as Hr.
  pose proof (button_has_rising_edge_status b2 h) as Hs.
  pose proof (button_has_rising_edge_fall_time b2 h) as Hft.
  destruct (button_has_rising_edge b2 h) as [b3 r]. cbn [fst snd] in Hr, Hs, Hft.
  rewrite B0, B2 in Hr.
  change (last_rise_time b2) with (last_rise_time b) in Hr.
  change (last_fall_time b2) with (last_fall_time b) in Hft.
  fold rise in Hr. subst r.
  set (b4 := if rise then _ else b3).
  assert (Hb4ft : last_fall_time b4 = last_fall_time b)
    by (subst b4; destruct rise; exact Hft).
  pose proof (button_has_falling_edge_snd b4 h) as Hf.
  pose proof (button_has_falling_edge_status b4 h) as Hfs.
  destruct (button_has_falling_edge b4 h) as [b5 f]. cbn [fst snd] in Hf, Hfs.
  assert (Hb4 : Z.testbit (btn_status b4) 0 = raw /\
                Z.testbit (btn_status b4) 1 = (rise || Z.testbit (btn_status b) 1) /\
                Z.testbit (btn_status b4) 2 = last /\
                Z.testbit (btn_status b4) 3 = rise /\
                Z.testbit (btn_status b4) 4 = false /\
                Z.testbit (btn_status b4) 5 = Z.testbit (btn_status b) 5).
  { subst b4. destruct rise; cbn [btn_with_status btn_status]; rewrite Hs;
      unfold BTN_RISE, BTN_PRESSED; status_bits;
      rewrite ?B0, ?B1, ?B2, ?B3, ?B4, ?B5; status_bits; repeat split; reflexivity. }
  destruct Hb4 as (C0 & C1 & C2 & C3 & C4 & C5).
  rewrite C0, C2, Hb4ft in Hf. fold fall in Hf. subst f.
  set (b6 := if fall then _ else b5).
  assert (Hb6 : Z.testbit (btn_status b6) 0 = raw /\
                Z.testbit (btn_status b6) 1 = pressed /\
                Z.testbit (btn_status b6) 2 = last /\
                Z.testbit (btn_status b6) 3 = rise /\
                Z.testbit (btn_status b6) 4 = fall /\
                Z.testbit (btn_status b6) 5 = Z.testbit (btn_status b) 5).
  { subst b6 pressed. destruct fall eqn:Efall; cbn [btn_with_status btn_status];
      rewrite Hfs; unfold BTN_FALL, BTN_PRESSED; status_bits;
      rewrite ?C0, ?C1, ?C2, ?C3, ?C4, ?C5; status_bits.
    - assert (rise = false) as ->
        by (subst rise fall; destruct raw, last; cbn in *; congruence).
      repeat split; reflexivity.
    - destruct rise; repeat split; reflexivity. }
  destruct Hb6 as (D0 & D1 & D2 & D3 & D4 & D5).
  pose proof (button_detect_config_action_bits b6 h) as Hc.
  pose proof (button_detect_config_action_pressed b6 h) as Hcp.
  destruct (button_detect_config_action b6 h) as [b7 cfg]. cbn [fst snd] in Hc, Hcp.
  rewrite D1 in Hcp.
  assert (E : forall i, 0 <= i -> i <> 6 -> i <> 5 -> i <> 2 ->
              Z.testbit
                (btn_status
                   (btn_with_status
                      (if cfg then btn_with_status b7 (STATUS_SET (btn_status b7) BTN_CONFIG)
                       else b7)
                      (STATUS_PUT
                         (btn_status
                            (if cfg
                             then btn_with_status b7 (STATUS_SET (btn_status b7) BTN_CONFIG)
                             else b7)) BTN_LAST
                         (STATUS_ANY
                            (btn_status
                               (if cfg
                                then btn_with_status b7
                                       (STATUS_SET (btn_status b7) BTN_CONFIG)
                                else b7)) BTN_PRESSED)))) i
              = Z.testbit (btn_status b6) i).
  { intros i Hi H6 H5 H2. rewrite <- Hc by lia.
    destruct cfg; cbn [btn_with_status btn_status];
      unfold BTN_CONFIG, BTN_LAST, BTN_PRESSED; status_bits;
      destruct (Z.testbit (btn_status b7) 1); status_bits;
      destruct (Z.eqb_spec i 5), (Z.eqb_spec i 2); try lia; status_bits; reflexivity. }
  rewrite (E 0), (E 1), (E 3), (E 4), D0, D1, D3, D4 by lia.
  repeat split.
  - rewrite <- D1, <- Hc by lia.
    destruct cfg; cbn [btn_with_status btn_status];
      unfold BTN_CONFIG, BTN_LAST, BTN_PRESSED; status_bits;
      destruct (Z.testbit (btn_status b7) 1); status_bits; reflexivity.
  - rewrite <- D5, <- Hc by lia.
    destruct cfg; [intros _ _; apply Hcp; reflexivity|].
    cbn [btn_with_status btn_status]. unfold BTN_LAST, BTN_PRESSED. status_bits.
    destruct (Z.testbit (btn_status b7) 1); status_bits; congruence.
  - rewrite <- D5, <- Hc by lia.
    destruct cfg; cbn [btn_with_status btn_status];
      unfold BTN_CONFIG, BTN_LAST, BTN_PRESSED; status_bits;
      destruct (Z.testbit (btn_status b7) 1); status_bits; auto.
Qed.


(** X7: the legacy config flag.  [button_update] never clears
    [BTN_CONFIG]; when it sets the flag, the button is in the pressed
    state after the update; [button_consume_config_action] clears the
    flag and no other bit. *)
Theorem button_config_flag_latched (b : Button) (h : SimHal) :
  (STATUS_ANY (btn_status b) BTN_CONFIG = true ->
   STATUS_ANY (btn_status (button_update b h)) BTN_CONFIG = true) /\
  (STATUS_ANY (btn_status b) BTN_CONFIG = false ->
   STATUS_ANY (btn_status (button_update b h)) BTN_CONFIG = true ->
   STATUS_ANY (btn_status (button_update b h)) BTN_PRESSED = true) /\
  STATUS_ANY (btn_status (button_consume_config_action (button_update b h))) BTN_CONFIG
    = false /\
  (forall i, 0 <= i -> i <> 5 ->
     Z.testbit (btn_status (button_consume_config_action (button_update b h))) i
     = Z.testbit (btn_status (button_update b h)) i).
Proof.
  destruct (button_update_bits b h) as (_ & H1 & _ & _ & _ & H5 & H5'). cbv zeta in *.
  unfold button_consume_config_action, BTN_CONFIG, BTN_PRESSED.
  cbn [btn_with_status btn_status]. status_bits.
  repeat split.
  - exact H5'.
  - intros Hold Hnew. rewrite H1. exact (H5 Hnew Hold).
  - intros i Hi Hne. status_bits.
    destruct (Z.eqb_spec i 5); try lia. status_bits. reflexivity.
Qed.

Lemma button_config_flag_latched_witness :
  STATUS_ANY
    (btn_status
       (button_update (mkButton PIN_BUTTON_A 70 5 100 0 100)
          (sim_set_button_a true (with_time sim_hal_init 1100))))
    BTN_PRESSED = true.
Proof.
  exact (proj1 (proj2 (button_config_flag_latched
                         (mkButton PIN_BUTTON_A 70 5 100 0 100)
                         (sim_set_button_a true (with_time sim_hal_init 1100))))
           eq_refl eq_refl).
Defined.

(** ** Simulated pins *)

Lemma sim_read_set_pin (p q : Z) (h : SimHal) :
  0 <= p -> 0 <= q -> pins_ok h ->
  sim_read_pin q (sim_set_pin p h)
  = if (q =? p) && (p <? SIM_NUM_PINS) then 1 else sim_read_pin q h.
Proof.
  unfold pins_ok, sim_read_pin, sim_set_pin, SIM_NUM_PINS. intros Hp Hq Hlen.
  destruct (Z.leb_spec 8 p), (Z.leb_spec 8 q), (Z.eqb_spec q p), (Z.ltb_spec p 8);
    try lia; cbn [andb]; try reflexivity; cbn [with_pins pin_states].
  - subst q. rewrite list_lookup_insert_eq by lia. reflexivity.
  - rewrite list_lookup_insert_ne by lia. reflexivity.
Qed.

Lemma sim_read_clear_pin (p q : Z) (h : SimHal) :
  0 <= p -> 0 <= q -> pins_ok h ->
  sim_read_pin q (sim_clear_pin p h)
  = if (q =? p) && (p <? SIM_NUM_PINS) then 0 else sim_read_pin q h.
Proof.
  unfold pins_ok, sim_read_pin, sim_clear_pin, SIM_NUM_PINS. intros Hp Hq Hlen.
  destruct (Z.leb_spec 8 p), (Z.leb_spec 8 q), (Z.eqb_spec q p), (Z.ltb_spec p 8);
    try lia; cbn [andb]; try reflexivity; cbn [with_pins pin_states].
  - subst q. rewrite list_lookup_insert_eq by lia. reflexivity.
  - rewrite list_lookup_insert_ne by lia. reflexivity.
Qed.

Lemma pins_ok_set_pin (p : Z) (h : SimHal) : pins_ok h -> pins_ok (sim_set_pin p h).
Proof.
  unfold pins_ok, sim_set_pin. destruct (SIM_NUM_PINS <=? p); [auto|].
  cbn [with_pins pin_states]. rewrite length_insert. auto.
Qed.

Lemma pins_ok_clear_pin (p : Z) (h : SimHal) : pins_ok h -> pins_ok (sim_clear_pin p h).
Proof.
  unfold pins_ok, sim_clear_pin. destruct (SIM_NUM_PINS <=? p); [auto|].
  cbn [with_pins pin_states]. rewrite length_insert. auto.
Qed.

Lemma sim_millis_clear_pin (p : Z) (h : SimHal) :
  sim_millis (sim_clear_pin p h) = sim_millis h.
Proof. unfold sim_clear_pin. destruct (SIM_NUM_PINS <=? p); reflexivity. Qed.

(** ** CV output: the pin and the state flag *)

Lemma cv_output_set_mirrors (o : CVOutput) (h : SimHal) :
  0 <= cvout_pin o < SIM_NUM_PINS -> pins_ok h ->
  cv_output_pin_mirrors (fst (cv_output_set o h)) (snd (cv_output_set o h)) /\
  STATUS_ANY (cvout_status (fst (cv_output_set o h))) CVOUT_STATE = true /\
  cvout_pin (fst (cv_output_set o h)) = cvout_pin o /\
  pins_ok (snd (cv_output_set o h)).
Proof.
  intros Hp Hh. unfold cv_output_pin_mirrors, cv_output_set, CVOUT_STATE.
  cbn [fst snd cvout_pin cvout_status]. rewrite sim_read_set_pin by (auto; lia).
  rewrite Z.eqb_refl. destruct (Z.ltb_spec (cvout_pin o) SIM_NUM_PINS); try lia.
  status_bits. auto using pins_ok_set_pin.
Qed.

Lemma cv_output_clear_mirrors (o : CVOutput) (h : SimHal) :
  0 <= cvout_pin o < SIM_NUM_PINS -> pins_ok h ->
  cv_output_pin_mirrors (fst (cv_output_clear o h)) (snd (cv_output_clear o h)) /\
  STATUS_ANY (cvout_status (fst (cv_output_clear o h))) CVOUT_STATE = false /\
  cvout_pin (fst (cv_output_clear o h)) = cvout_pin o /\
  pins_ok (snd (cv_output_clear o h)).
Proof.
  intros Hp Hh. unfold cv_output_pin_mirrors, cv_output_clear, CVOUT_STATE.
  cbn [fst snd cvout_pin cvout_status]. rewrite sim_read_clear_pin by (auto; lia).
  rewrite Z.eqb_refl. destruct (Z.ltb_spec (cvout_pin o) SIM_NUM_PINS); try lia.
  status_bits. auto using pins_ok_clear_pin.
Qed.

Lemma cv_output_pin_mirrors_status (o : CVOutput) (h : SimHal) (s t : Z) :
  Z.testbit s 0 = Z.testbit (cvout_status o) 0 ->
  cv_output_pin_mirrors o h ->
  cv_output_pin_mirrors (mkCVOutput (cvout_pin o) s t) h.
Proof.
  unfold cv_output_pin_mirrors, CVOUT_STATE. cbn [cvout_pin cvout_status].
  status_bits. intros -> H. exact H.
Qed.

(** X8: on a valid pin the output pin always shows the state flag.
    [cv_output_update_gate] establishes this and returns its input;
    [cv_output_update_pulse], [cv_output_update_toggle] keep it, and
    what they return is the state flag they leave. *)
Theorem cv_output_pin_follows_state (o : CVOutput) (h : SimHal) (input_state : bool) :
  0 <= cvout_pin o < SIM_NUM_PINS -> pins_ok h ->
  (let '(o', h', out) := cv_output_update_gate o input_state h in
   out = input_state /\ cv_output_pin_mirrors o' h') /\
  (cv_output_pin_mirrors o h ->
   (let '(o', h', out) := cv_output_update_pulse o input_state h in
    out = STATUS_ANY (cvout_status o') CVOUT_STATE /\ cv_output_pin_mirrors o' h') /\
   (let '(o', h', out) := cv_output_update_toggle o input_state h in
    out = STATUS_ANY (cvout_status o') CVOUT_STATE /\ cv_output_pin_mirrors o' h')).
Proof.
  intros Hp Hh. split; [|intros Hm; split].
  - unfold cv_output_update_gate. destruct input_state.
    + destruct (cv_output_set_mirrors o h Hp Hh) as (M & S & _).
      destruct (cv_output_set o h) as [o' h']. cbn [fst snd] in *. auto.
    + destruct (cv_output_clear_mirrors o h Hp Hh) as (M & S & _).
      destruct (cv_output_clear o h) as [o' h']. cbn [fst snd] in *. auto.
  - unfold cv_output_update_pulse.
    set (o1 := mkCVOutput (cvout_pin o) (STATUS_SET (cvout_status o) CVOUT_PULSE)
                 (sim_millis h)).
    assert (H1 : exists o2 h2,
               (if input_state && negb (STATUS_ANY (cvout_status o) CVOUT_LAST_IN)
                then cv_output_set o1 h else (o, h)) = (o2, h2) /\
               cv_output_pin_mirrors o2 h2 /\ cvout_pin o2 = cvout_pin o /\ pins_ok h2).
    { destruct (input_state && negb _).
      - destruct (cv_output_set_mirrors o1 h Hp Hh) as (M & _ & P & K).
        destruct (cv_output_set o1 h) as [o2 h2]. cbn [fst snd] in *. eauto 6.
      - eauto 6. }
    destruct H1 as (o2 & h2 & -> & M2 & P2 & K2).
    set (o3 := mkCVOutput (cvout_pin o2) (STATUS_CLR (cvout_status o2) CVOUT_PULSE)
                 (pulse_start o2)).
    assert (H2 : exists o4 h4,
               (if STATUS_ANY (cvout_status o2) CVOUT_PULSE
                then if PULSE_DURATION_MS <=? u32_sub (sim_millis h2) (pulse_start o2)
                     then cv_output_clear o3 h2 else (o2, h2)
                else (o2, h2)) = (o4, h4) /\
               cv_output_pin_mirrors o4 h4).
    { destruct (STATUS_ANY (cvout_status o2) CVOUT_PULSE); [|eauto].
      destruct (PULSE_DURATION_MS <=? _); [|eauto].
      assert (Hp3 : 0 <= cvout_pin o3 < SIM_NUM_PINS) by (subst o3; cbn; lia).
      destruct (cv_output_clear_mirrors o3 h2 Hp3 K2) as (M & _).
      destruct (cv_output_clear o3 h2) as [o4 h4]. cbn [fst snd] in *. eauto. }
    destruct H2 as (o4 & h4 & -> & M4).
    split; [reflexivity|].
    apply cv_output_pin_mirrors_status; [|exact M4].
    unfold CVOUT_LAST_IN. destruct input_state; status_bits; reflexivity.
  - unfold cv_output_update_toggle.
    assert (H1 : exists o2 h2,
               (if input_state && negb (STATUS_ANY (cvout_status o) CVOUT_LAST_IN)
                then if STATUS_ANY (cvout_status o) CVOUT_STATE
                     then cv_output_clear o h else cv_output_set o h
                else (o, h)) = (o2, h2) /\
               cv_output_pin_mirrors o2 h2).
    { destruct (input_state && negb _); [|eauto].
      destruct (STATUS_ANY (cvout_status o) CVOUT_STATE).
      - destruct (cv_output_clear_mirrors o h Hp Hh) as (M & _).
        destruct (cv_output_clear o h) as [o2 h2]. cbn [fst snd] in *. eauto.
      - destruct (cv_output_set_mirrors o h Hp Hh) as (M & _).
        destruct (cv_output_set o h) as [o2 h2]. cbn [fst snd] in *. eauto. }
    destruct H1 as (o2 & h2 & -> & M2).
    split; [reflexivity|].
    apply cv_output_pin_mirrors_status; [|exact M2].
    unfold CVOUT_LAST_IN. destruct input_state; status_bits; reflexivity.
Qed.

Lemma cv_output_pin_follows_state_witness :
  let '(o', h', out) :=
    cv_output_update_toggle (cv_output_init PIN_SIG_OUT) true sim_hal_init in
  out = STATUS_ANY (cvout_status o') CVOUT_STATE /\ cv_output_pin_mirrors o' h'.
Proof.
  exact (proj2 (proj2 (cv_output_pin_follows_state (cv_output_init PIN_SIG_OUT)
                         sim_hal_init true
                         ltac:(vm_compute; split; [discriminate | reflexivity]) eq_refl)
                  eq_refl)).
Defined.

(** X9: [cv_output_update_toggle] flips the output exactly on a rising
    edge of its input (input high, remembered input low) and keeps it
    otherwise; it remembers the input, so an input that stays high
    toggles once. *)
Theorem cv_output_toggle_on_rising_edge (o : CVOutput) (h : SimHal) (input_state : bool) :
  let '(o', h', out) := cv_output_update_toggle o input_state h in
  out = xorb (STATUS_ANY (cvout_status o) CVOUT_STATE)
             (input_state && negb (STATUS_ANY (cvout_status o) CVOUT_LAST_IN)) /\
  STATUS_ANY (cvout_status o') CVOUT_LAST_IN = input_state /\
  snd (cv_output_update_toggle o' input_state h') = out.
Proof.
  unfold cv_output_update_toggle, cv_output_set, cv_output_clear,
    CVOUT_STATE, CVOUT_LAST_IN.
  status_bits.
  destruct input_state, (Z.testbit (cvout_status o) 2) eqn:E2,
    (Z.testbit (cvout_status o) 0) eqn:E0;
    cbn [andb negb xorb fst snd cvout_status cvout_pin]; status_bits;
    rewrite ?E0, ?E2; cbn [andb negb xorb fst snd cvout_status cvout_pin];
    status_bits; rewrite ?E0, ?E2; repeat split; reflexivity.
Qed.

(** ** CV input: the hysteresis band *)

(** X10: noise inside the hysteresis band is ignored.  Whatever the
    thresholds, a run of samples that all lie between the low and the
    high threshold (bounds included) reports the level held before the
    run at every sample; and when the low threshold is at most one above
    the high threshold, repeating a sample never changes the answer. *)
Theorem cv_input_band_is_stable (cv : CVInput) :
  (forall samples,
      Forall (fun adc => low_threshold cv <= adc <= high_threshold cv) samples ->
      cv_input_run cv samples = replicate (length samples) (current_state cv)) /\
  (low_threshold cv <= high_threshold cv + 1 ->
   forall adc,
     snd (cv_input_update (fst (cv_input_update cv adc)) adc)
     = snd (cv_input_update cv adc)).
Proof.
  split.
  - intros samples. revert cv. induction samples as [|adc rest IH]; intros cv Hall.
    + reflexivity.
    + inversion Hall as [|? ? Hadc Hrest]; subst.
      cbn [cv_input_run length replicate].
      unfold cv_input_update at 1.
      assert (Hst : (if current_state cv
                     then if adc <? low_threshold cv then false else true
                     else if high_threshold cv <? adc then true else false)
                    = current_state cv).
      { destruct (current_state cv).
        - destruct (Z.ltb_spec adc (low_threshold cv)); [lia|reflexivity].
        - destruct (Z.ltb_spec (high_threshold cv) adc); [lia|reflexivity]. }
      cbv zeta. rewrite Hst. f_equal.
      exact (IH (mkCVInput (high_threshold cv) (low_threshold cv) adc (current_state cv))
                Hrest).
  - intros Hth adc. unfold cv_input_update.
    cbn [fst snd high_threshold low_threshold current_state].
    destruct (current_state cv);
      destruct (Z.ltb_spec adc (low_threshold cv));
      destruct (Z.ltb_spec (high_threshold cv) adc); try reflexivity; lia.
Qed.

Lemma cv_input_band_is_stable_witness :
  cv_input_run cv_input_init [100; 77; 128; 90]
  = replicate 4 (current_state cv_input_init).
Proof.
  apply (proj1 (cv_input_band_is_stable cv_input_init) [100; 77; 128; 90]).
  repeat constructor; vm_compute; discriminate.
Defined.

(** X11: [cv_adc_to_millivolts] on an 8-bit sample is the exact
    quotient [adc * 5000 / 255]: neither the 32-bit product nor the
    16-bit result wraps.  It maps 0 to 0 and 255 to 5000, stays within
    0..5000 and is monotone. *)
Theorem cv_adc_to_millivolts_range (adc : Z) :
  0 <= adc <= 255 ->
  cv_adc_to_millivolts adc = adc * 5000 / 255 /\
  0 <= cv_adc_to_millivolts adc <= 5000 /\
  (forall adc', 0 <= adc' <= adc ->
     cv_adc_to_millivolts adc' <= cv_adc_to_millivolts adc) /\
  cv_adc_to_millivolts 0 = 0 /\ cv_adc_to_millivolts 255 = 5000.
Proof.
  intros Hadc.
  assert (Hexact : forall a, 0 <= a <= 255 -> cv_adc_to_millivolts a = a * 5000 / 255).
  { intros a Ha. unfold cv_adc_to_millivolts, u16, u32.
    rewrite (Z.mod_small (a * 5000)) by lia.
    apply Z.mod_small. split.
    - apply Z.div_pos; lia.
    - apply Z.div_lt_upper_bound; lia. }
  split; [exact (Hexact adc Hadc)|]. split; [|split; [|split; reflexivity]].
  - rewrite Hexact by exact Hadc. split.
    + apply Z.div_pos; lia.
    + apply Z.div_le_upper_bound; lia.
  - intros adc' Hadc'. rewrite !Hexact by lia.
    apply Z.div_le_mono; lia.
Qed.

Lemma cv_adc_to_millivolts_range_witness : cv_adc_to_millivolts 128 = 128 * 5000 / 255.
Proof.
  exact (proj1 (cv_adc_to_millivolts_range 128 ltac:(lia))).
Defined.

(** ** State machine engine: transitions and life cycle *)

Section FsmEngineFramed.
Context {SA TA W : Type}.
Variable run_state_action : SA -> W -> W.
Variable run_action : TA -> W -> W.
Variable fsm_of : W -> FSM SA TA.
Variable put_fsm : FSM SA TA -> W -> W.
Hypothesis fsm_of_put : forall f w, fsm_of (put_fsm f w) = f.
Hypothesis state_action_frame : forall a w, fsm_of (run_state_action a w) = fsm_of w.
Hypothesis action_frame : forall a w, fsm_of (run_action a w) = fsm_of w.

Lemma call_exit_action_frame (i : Z) (w : W) :
  fsm_of (call_exit_action run_state_action fsm_of i w) = fsm_of w.
Proof.
  unfold call_exit_action. destruct (_ =? 255); [reflexivity|].
  destruct (read_state _ _) as [s|]; [|reflexivity].
  destruct (on_exit s); cbn [run_opt]; auto.
Qed.

Lemma call_entry_action_frame (i : Z) (w : W) :
  fsm_of (call_entry_action run_state_action fsm_of i w) = fsm_of w.
Proof.
  unfold call_entry_action. destruct (_ =? 255); [reflexivity|].
  destruct (read_state _ _) as [s|]; [|reflexivity].
  destruct (on_enter s); cbn [run_opt]; auto.
Qed.

Lemma run_opt_action_frame (a : option TA) (w : W) :
  fsm_of (run_opt run_action a w) = fsm_of w.
Proof. destruct a; cbn [run_opt]; auto. Qed.

Lemma fsm_with_state_same (f : FSM SA TA) : fsm_with_state f (fsm_current_state f) = f.
Proof. destruct f; reflexivity. Qed.

Lemma fsm_process_rows_first_match (rows : list (Transition TA)) (event : Z) (w : W) :
  match fsm_first_match rows (fsm_current_state (fsm_of w)) event with
  | Some t =>
      fsm_of (fst (fsm_process_rows run_state_action run_action fsm_of put_fsm rows event w))
      = fsm_with_state (fsm_of w)
          (if to_state t =? FSM_NO_TRANSITION then fsm_current_state (fsm_of w)
           else to_state t) /\
      snd (fsm_process_rows run_state_action run_action fsm_of put_fsm rows event w)
      = negb (to_state t =? FSM_NO_TRANSITION)
  | None =>
      fsm_process_rows run_state_action run_action fsm_of put_fsm rows event w = (w, false)
  end.
Proof.
  induction rows as [|t rest IH]; [reflexivity|].
  cbn [fsm_first_match fsm_process_rows].
  destruct (((from_state t =? fsm_current_state (fsm_of w))
             || (from_state t =? FSM_ANY_STATE)) && (trans_event t =? event)).
  - destruct (to_state t =? FSM_NO_TRANSITION); cbn [fst snd negb].
    + rewrite run_opt_action_frame, fsm_with_state_same. auto.
    + rewrite call_entry_action_frame, fsm_of_put, run_opt_action_frame,
        call_exit_action_frame. auto.
  - exact IH.
Qed.

(** X12: with callbacks that leave the FSM record alone, the table
    alone decides what [fsm_process_event] does on an active FSM.  The
    first row (among the first [num_transitions]) whose source is the
    current state or [FSM_ANY_STATE] and whose event matches is taken:
    the FSM moves to its target and [true] is returned, except that a
    target [FSM_NO_TRANSITION] keeps the state and returns [false].
    With no such row nothing at all happens and [false] is returned.
    Tables, initial state and the active flag are never changed. *)
Theorem fsm_process_event_first_match (rows : list (Transition TA)) (event : Z) (w : W) :
  active (fsm_of w) = true ->
  transitions (fsm_of w) = Some rows ->
  match fsm_first_match (take (Z.to_nat (num_transitions (fsm_of w))) rows)
          (fsm_current_state (fsm_of w)) event with
  | Some t =>
      fsm_of (fst (fsm_process_event run_state_action run_action fsm_of put_fsm event w))
      = fsm_with_state (fsm_of w)
          (if to_state t =? FSM_NO_TRANSITION then fsm_current_state (fsm_of w)
           else to_state t) /\
      snd (fsm_process_event run_state_action run_action fsm_of put_fsm event w)
      = negb (to_state t =? FSM_NO_TRANSITION)
  | None =>
      fsm_process_event run_state_action run_action fsm_of put_fsm event w = (w, false)
  end.
Proof.
  intros Hact Hrows. unfold fsm_process_event. rewrite Hact, Hrows. cbn [negb].
  apply fsm_process_rows_first_match.
Qed.

(** X13: life cycle of the engine, with callbacks that leave the FSM
    record alone.  [fsm_start] only raises the active flag; [fsm_stop]
    only lowers it, and a stopped FSM ignores every event and update;
    [fsm_reset] puts the FSM back in its initial state and keeps the
    active flag. *)
Theorem fsm_life_cycle (event : Z) (w : W) :
  fsm_of (fsm_start run_state_action fsm_of put_fsm w) = fsm_with_active (fsm_of w) true /\
  fsm_of (fsm_stop run_state_action fsm_of put_fsm w) = fsm_with_active (fsm_of w) false /\
  fsm_process_event run_state_action run_action fsm_of put_fsm event
    (fsm_stop run_state_action fsm_of put_fsm w)
  = (fsm_stop run_state_action fsm_of put_fsm w, false) /\
  fsm_update run_state_action fsm_of (fsm_stop run_state_action fsm_of put_fsm w)
  = fsm_stop run_state_action fsm_of put_fsm w /\
  fsm_of (fsm_reset run_state_action fsm_of put_fsm w)
  = fsm_with_state (fsm_of w) (initial_state (fsm_of w)).
Proof.
  assert (Hstop : fsm_of (fsm_stop run_state_action fsm_of put_fsm w)
                  = fsm_with_active (fsm_of w) false).
  { unfold fsm_stop. destruct (active (fsm_of w)) eqn:Ha; cbn [negb].
    - rewrite fsm_of_put, call_exit_action_frame. reflexivity.
    - destruct (fsm_of w); cbn in *; subst; reflexivity. }
  split; [|split; [exact Hstop|split; [|split]]].
  - unfold fsm_start. rewrite call_entry_action_frame, fsm_of_put. reflexivity.
  - unfold fsm_process_event. rewrite Hstop. reflexivity.
  - unfold fsm_update. rewrite Hstop. reflexivity.
  - unfold fsm_reset. destruct (active (fsm_of w)) eqn:Ha.
    + rewrite fsm_of_put, call_exit_action_frame. cbn [fsm_with_state active initial_state].
      rewrite Ha, call_entry_action_frame, fsm_of_put. reflexivity.
    + rewrite fsm_of_put. cbn [fsm_with_state active]. rewrite Ha, fsm_of_put. reflexivity.
Qed.
End FsmEngineFramed.

Lemma fsm_process_event_first_match_witness :
  let f : FSM unit unit :=
    mkFSM (Some [mkState 0 None (Some tt) None; mkState 1 (Some tt) None None])
      (Some [mkTransition 1 7 0 None; mkTransition FSM_ANY_STATE 7 1 (Some tt);
             mkTransition 0 7 0 None])
      2 3 0 0 true in
  (fst (fsm_process_event (fun _ w => w) (fun _ w => w)
                      (fun w => w) (fun f _ => f) 7 f))
  = fsm_with_state f 1 /\
  snd (fsm_process_event (fun _ w => w) (fun _ w => w) (fun w => w) (fun f _ => f) 7 f)
  = true.
Proof.
  intros f.
  exact (fsm_process_event_first_match (fun _ w => w) (fun _ w => w)
           (fun w => w) (fun f _ => f)
           (fun _ _ => eq_refl) (fun _ _ => eq_refl) (fun _ _ => eq_refl)
           [mkTransition 1 7 0 None; mkTransition FSM_ANY_STATE 7 1 (Some tt);
            mkTransition 0 7 0 None] 7 f eq_refl eq_refl).
Defined.

Lemma fsm_life_cycle_witness :
  let f : FSM unit unit :=
    mkFSM (Some [mkState 0 None None None; mkState 1 None None None])
      (Some [mkTransition 0 7 1 None]) 2 1 1 0 true in
  fsm_process_event (fun _ w => w) (fun _ w => w) (fun w => w) (fun f _ => f) 7
    (fsm_stop (fun _ w => w) (fun w => w) (fun f _ => f) f)
  = (fsm_stop (fun _ w => w) (fun w => w) (fun f _ => f) f, false).
Proof.
  intros f.
  exact (proj1 (proj2 (proj2
           (fsm_life_cycle (fun _ w => w) (fun _ w => w) (fun w => w) (fun f _ => f)
              (fun _ _ => eq_refl) (fun _ _ => eq_refl) 7 f)))).
Defined.

(** ** Coordinator: the three state machines stay in their tables *)

Lemma settings_valid_iff (b0 b1 b2 b3 b4 b5 b6 b7 : Z) :
  settings_valid (mkAppSettings b0 b1 b2 b3 b4 b5 b6 b7) <->
  0 <= b0 < 5 /\ 0 <= b1 < 4 /\ 0 <= b2 < 3 /\ 0 <= b3 < 4 /\
  0 <= b4 < 5 /\ 0 <= b5 < 2 /\ 0 <= b6 < 2 /\ 0 <= b7 < 256.
Proof.
  unfold settings_valid, fields_are_bytes, fields_below_limits, settings_bytes.
  cbn [mode trigger_pulse_idx trigger_edge divide_divisor_idx cycle_tempo_idx
       toggle_edge gate_a_mode reserved].
  rewrite !Forall_cons.
  unfold MODE_COUNT, TRIGGER_PULSE_COUNT, TRIGGER_EDGE_COUNT, DIVIDE_DIVISOR_COUNT,
    CYCLE_TEMPO_COUNT, TOGGLE_EDGE_COUNT, GATE_A_MODE_COUNT.
  split.
  - intros ((? & ? & ? & ? & ? & ? & ? & ? & _) & ?). lia.
  - intros ?. split; [repeat split; try lia; constructor | lia].
Qed.

Lemma u8_succ_mod (x n : Z) : 0 < n <= 256 -> 0 <= u8 ((x + 1) mod n) < n.
Proof.
  intros Hn. pose proof (Z.mod_pos_bound (x + 1) n ltac:(lia)).
  unfold u8. rewrite Z.mod_small by lia. lia.
Qed.

Section CoordinatorInvariant.
Context `{ModeHandlers}.

Lemma coordinator_ok_put_top (id : Z) (w : World) :
  id = TOP_PERFORM \/ id = TOP_MENU ->
  coordinator_ok (coord w) ->
  coordinator_ok (coord (put_top (fsm_with_state (top_of w) id) w)).
Proof.
  intros Hid ((Ht & Hm & Hn) & _ & Hmode & Hpage & Hs).
  refine (conj (conj _ (conj _ _)) (conj _ (conj _ (conj _ _))));
    [exact Ht | exact Hm | exact Hn | exact Hid | exact Hmode | exact Hpage | exact Hs].
Qed.

Lemma coordinator_ok_put_menu (id : Z) (w : World) :
  0 <= id < PAGE_COUNT ->
  coordinator_ok (coord w) ->
  coordinator_ok (coord (put_menu (fsm_with_state (menu_of w) id) w)).
Proof.
  intros Hid ((Ht & Hm & Hn) & Htop & Hmode & _ & Hs).
  refine (conj (conj _ (conj _ _)) (conj _ (conj _ (conj _ _))));
    [exact Ht | exact Hm | exact Hn | exact Htop | exact Hmode | exact Hid | exact Hs].
Qed.

Lemma coordinator_ok_put_mode (id : Z) (w : World) :
  0 <= id < MODE_COUNT ->
  coordinator_ok (coord w) ->
  coordinator_ok (coord (put_mode (fsm_with_state (mode_of w) id) w)).
Proof.
  intros Hid ((Ht & Hm & Hn) & Htop & _ & Hpage & Hs).
  refine (conj (conj _ (conj _ _)) (conj _ (conj _ (conj _ _))));
    [exact Ht | exact Hm | exact Hn | exact Htop | exact Hid | exact Hpage | exact Hs].
Qed.

Lemma mode_to_start_page_range (m : Z) : 0 <= mode_to_start_page m < PAGE_COUNT.
Proof.
  unfold mode_to_start_page.
  repeat match goal with |- context [if ?c then _ else _] => destruct c end;
    vm_compute; split; congruence.
Qed.

Lemma action_enter_menu_ok (w : World) :
  coordinator_ok (coord w) -> coordinator_ok (coord (action_enter_menu w)).
Proof.
  intros Hok. unfold action_enter_menu. destruct (negb (g_coord w)); [exact Hok|].
  rewrite fsm_set_state_coord. apply coordinator_ok_put_menu.
  - apply mode_to_start_page_range.
  - exact Hok.
Qed.

Lemma action_exit_menu_ok (w : World) :
  coordinator_ok (coord w) -> coordinator_ok (coord (action_exit_menu w)).
Proof.
  intros Hok. unfold action_exit_menu. destruct (negb (g_coord w)); [exact Hok|].
  destruct (settings (coord w)) as [s|] eqn:Hs; [|exact Hok].
  destruct Hok as (Hw & Htop & Hmode & Hpage & Hset).
  refine (conj Hw (conj Htop (conj Hmode (conj Hpage _)))).
  intros s' [= <-]. specialize (Hset s Hs). destruct s as [b0 b1 b2 b3 b4 b5 b6 b7].
  apply settings_valid_iff in Hset. apply settings_valid_iff.
  cbn [trigger_pulse_idx trigger_edge divide_divisor_idx cycle_tempo_idx
       toggle_edge gate_a_mode reserved].
  unfold coordinator_get_mode, MODE_COUNT, mode_of, fsm_get_state in *. lia.
Qed.

Lemma action_next_mode_ok (w : World) :
  coordinator_ok (coord w) -> coordinator_ok (coord (action_next_mode w)).
Proof.
  intros Hok. unfold action_next_mode. destruct (negb (g_coord w)); [exact Hok|].
  rewrite fsm_set_state_coord.
  pose proof (coordinator_ok_put_mode
                (u8 ((fsm_get_state (mode_of w) + 1) mod MODE_COUNT)) w
                (u8_succ_mod _ MODE_COUNT ltac:(unfold MODE_COUNT; lia)) Hok) as Hok'.
  exact Hok'.
Qed.

Lemma action_next_page_ok (w : World) :
  coordinator_ok (coord w) -> coordinator_ok (coord (action_next_page w)).
Proof.
  intros Hok. unfold action_next_page. destruct (negb (g_coord w)); [exact Hok|].
  rewrite fsm_set_state_coord.
  pose proof (coordinator_ok_put_menu
                (u8 ((fsm_get_state (menu_of w) + 1) mod PAGE_COUNT)) w
                (u8_succ_mod _ PAGE_COUNT ltac:(unfold PAGE_COUNT; lia)) Hok) as Hok'.
  exact Hok'.
Qed.

Lemma action_cycle_value_ok (w : World) :
  coordinator_ok (coord w) -> coordinator_ok (coord (action_cycle_value w)).
Proof.
  intros Hok. unfold action_cycle_value. destruct (negb (g_coord w)); [exact Hok|].
  destruct (settings (coord w)) as [s|] eqn:Hs; [|exact Hok].
  destruct Hok as (Hw & Htop & Hmode & Hpage & Hset).
  specialize (Hset s Hs). destruct s as [b0 b1 b2 b3 b4 b5 b6 b7].
  apply settings_valid_iff in Hset.
  cbn [mode trigger_pulse_idx trigger_edge divide_divisor_idx cycle_tempo_idx
       toggle_edge gate_a_mode reserved].
  pose proof (u8_succ_mod b6 GATE_A_MODE_COUNT ltac:(unfold GATE_A_MODE_COUNT; lia)).
  pose proof (u8_succ_mod b2 TRIGGER_EDGE_COUNT ltac:(unfold TRIGGER_EDGE_COUNT; lia)).
  pose proof (u8_succ_mod b1 TRIGGER_PULSE_COUNT ltac:(unfold TRIGGER_PULSE_COUNT; lia)).
  pose proof (u8_succ_mod b5 TOGGLE_EDGE_COUNT ltac:(unfold TOGGLE_EDGE_COUNT; lia)).
  pose proof (u8_succ_mod b3 DIVIDE_DIVISOR_COUNT ltac:(unfold DIVIDE_DIVISOR_COUNT; lia)).
  pose proof (u8_succ_mod b4 CYCLE_TEMPO_COUNT ltac:(unfold CYCLE_TEMPO_COUNT; lia)).
  unfold GATE_A_MODE_COUNT, TRIGGER_EDGE_COUNT, TRIGGER_PULSE_COUNT, TOGGLE_EDGE_COUNT,
    DIVIDE_DIVISOR_COUNT, CYCLE_TEMPO_COUNT in *.
  repeat match goal with
         | |- context [if ?c then _ else _] => destruct c
         end;
    (refine (conj Hw (conj Htop (conj Hmode (conj Hpage _))));
     intros s' [= <-]; apply settings_valid_iff; lia).
Qed.

Lemma run_coord_action_ok (a : CoordAction) (w : World) :
  coordinator_ok (coord w) -> coordinator_ok (coord (run_coord_action a w)).
Proof.
  destruct a; cbn [run_coord_action];
    auto using action_enter_menu_ok, action_exit_menu_ok, action_next_mode_ok,
      action_next_page_ok, action_cycle_value_ok.
Qed.

Lemma fsm_process_rows_ok (fsm_of : World -> CoordFSM)
    (put_fsm : CoordFSM -> World -> World) (rows : list (Transition CoordAction))
    (e : Z) (w : World) :
  Forall (fun t => to_state t <> FSM_NO_TRANSITION ->
                   forall w, coordinator_ok (coord w) ->
                             coordinator_ok
                               (coord (put_fsm (fsm_with_state (fsm_of w) (to_state t)) w)))
         rows ->
  coordinator_ok (coord w) ->
  coordinator_ok
    (coord (fst (fsm_process_rows run_no_callback run_coord_action fsm_of put_fsm rows e w))).
Proof.
  intros Hrows Hok. induction Hrows as [|t rows Ht Hrows IH]; cbn [fsm_process_rows];
    [exact Hok|].
  destruct (_ && _); [|exact IH].
  destruct (Z.eqb_spec (to_state t) FSM_NO_TRANSITION) as [|Hne]; cbn [fst].
  - destruct (action t); cbn [run_opt]; [apply run_coord_action_ok|]; exact Hok.
  - rewrite call_entry_no_callback, call_exit_no_callback.
    apply (Ht Hne).
    destruct (action t); cbn [run_opt]; [apply run_coord_action_ok|]; exact Hok.
Qed.

Lemma top_process_event_ok (e : Z) (w : World) :
  coordinator_ok (coord w) -> coordinator_ok (coord (fst (top_process_event e w))).
Proof.
  intros Hok. unfold top_process_event, fsm_process_event.
  destruct (negb _); [exact Hok|].
  destruct Hok as (Hw & Hrest). pose proof Hw as ((_ & _ & Ht & _) & _).
  unfold top_of at 1. rewrite Ht.
  apply fsm_process_rows_ok; [|exact (conj Hw Hrest)].
  apply Forall_take. unfold top_transitions.
  repeat apply List.Forall_cons; try apply List.Forall_nil;
    cbn [to_state]; intros _ w0 Hw0; apply coordinator_ok_put_top; auto.
Qed.

Lemma mode_process_event_ok (e : Z) (w : World) :
  coordinator_ok (coord w) -> coordinator_ok (coord (fst (mode_process_event e w))).
Proof.
  intros Hok. unfold mode_process_event, fsm_process_event.
  destruct (negb _); [exact Hok|].
  destruct Hok as (Hw & Hrest). pose proof Hw as (_ & (_ & _ & Ht & _) & _).
  unfold mode_of at 1. rewrite Ht.
  apply fsm_process_rows_ok; [|exact (conj Hw Hrest)].
  apply Forall_take. unfold mode_transitions.
  repeat apply List.Forall_cons; try apply List.Forall_nil;
    cbn [to_state]; intros Hne; contradiction Hne; reflexivity.
Qed.

Lemma menu_process_event_ok (e : Z) (w : World) :
  coordinator_ok (coord w) -> coordinator_ok (coord (fst (menu_process_event e w))).
Proof.
  intros Hok. unfold menu_process_event, fsm_process_event.
  destruct (negb _); [exact Hok|].
  destruct Hok as (Hw & Hrest). pose proof Hw as (_ & _ & (_ & _ & Ht & _)).
  unfold menu_of at 1. rewrite Ht.
  apply fsm_process_rows_ok; [|exact (conj Hw Hrest)].
  apply Forall_take. unfold menu_transitions.
  repeat apply List.Forall_cons; try apply List.Forall_nil;
    cbn [to_state]; intros Hne; contradiction Hne; reflexivity.
Qed.

Lemma coordinator_route_event_ok (e : Event) (w : World) :
  coordinator_ok (coord w) -> coordinator_ok (coord (coordinator_route_event e w)).
Proof.
  intros Hok. unfold coordinator_route_event.
  destruct (is_event e); [|exact Hok].
  set (w1 := if _ =? TOP_MENU then _ else w).
  assert (H1 : coordinator_ok (coord w1)) by (subst w1; destruct (_ =? _); exact Hok).
  pose proof (top_process_event_ok (Event_code e) w1 H1) as Ht.
  destruct (top_process_event (Event_code e) w1) as [w2 handled]. cbn [fst] in Ht.
  destruct handled; cbn [negb]; [exact Ht|].
  destruct (_ =? TOP_PERFORM).
  - apply mode_process_event_ok. exact Ht.
  - apply menu_process_event_ok. exact Ht.
Qed.

Lemma coordinator_check_timeout_ok (w : World) :
  coordinator_ok (coord w) -> coordinator_ok (coord (coordinator_check_timeout w)).
Proof.
  intros Hok. unfold coordinator_check_timeout.
  destruct (_ =? TOP_MENU); [|exact Hok].
  destruct (_ <=? _); [|exact Hok].
  apply top_process_event_ok. exact Hok.
Qed.

Lemma coordinator_update_ok (w : World) :
  coordinator_ok (coord w) -> coordinator_ok (coord (coordinator_update w)).
Proof.
  intros Hok. unfold coordinator_update.
  destruct (coordinator_read_inputs (with_g_coord w true)) as [cv input].
  destruct (event_processor_update _ input) as [ep event].
  set (w1 := with_coord _ (set_inputs _ ep cv)).
  assert (H1 : coordinator_ok (coord w1)) by exact Hok.
  pose proof (coordinator_route_event_ok event w1 H1) as H2.
  set (w2 := coordinator_route_event event w1) in *.
  pose proof (coordinator_check_timeout_ok w2 H2) as H3.
  set (w3 := coordinator_check_timeout w2) in *.
  destruct (mode_handler_process _ _ _ _ _) as [ctx out].
  exact H3.
Qed.

Lemma run_for_ms_ok (n : nat) (w : World) :
  coordinator_ok (coord w) -> coordinator_ok (coord (run_for_ms n w)).
Proof.
  revert w. induction n as [|n IH]; intros w Hok; cbn [run_for_ms]; [exact Hok|].
  apply IH. exact (coordinator_update_ok w Hok).
Qed.

Lemma coordinator_init_start_ok (c0 : Coordinator) (s : option AppSettings)
    (g : bool) (h : SimHal) :
  (forall s', s = Some s' -> settings_valid s') ->
  coordinator_ok (coord (coordinator_start (mkWorld (coordinator_init c0 s) g h))).
Proof.
  intros Hs. unfold coordinator_start, fsm_start.
  rewrite !call_entry_no_callback.
  refine (conj (conj _ (conj _ _)) (conj _ (conj _ (conj _ _))));
    [repeat split | repeat split | repeat split | left; reflexivity
    | vm_compute; split; congruence | vm_compute; split; congruence | exact Hs].
Qed.
End CoordinatorInvariant.

(** X14: the coordinator never leaves its tables.  After
    [coordinator_init] and [coordinator_start] (with no settings or
    valid ones) the three FSMs are active on their tables, the top
    state is PERFORM or MENU, the mode is below [MODE_COUNT], the page
    below [PAGE_COUNT] and the settings are valid; every
    [coordinator_update] keeps all of this, whatever the inputs, the
    clock and the mode handlers do, and so does any run of the main
    loop. *)
Theorem coordinator_states_stay_declared (M : ModeHandlers) :
  (forall c0 s g h,
      (forall s', s = Some s' -> settings_valid s') ->
      coordinator_ok (coord (coordinator_start (mkWorld (coordinator_init c0 s) g h)))) /\
  (forall w, coordinator_ok (coord w) -> coordinator_ok (coord (coordinator_update w))) /\
  (forall n w, coordinator_ok (coord w) -> coordinator_ok (coord (run_for_ms n w))).
Proof.
  split; [|split].
  - intros c0 s g h. apply coordinator_init_start_ok.
  - apply coordinator_update_ok.
  - apply run_for_ms_ok.
Qed.

Lemma coordinator_states_stay_declared_witness :
  coordinator_ok (coord (run_for_ms 10 (press_button_a (boot_world app_init_get_defaults)))).
Proof.
  apply (proj2 (proj2 (coordinator_states_stay_declared gate_handlers))).
  apply (proj1 (coordinator_states_stay_declared gate_handlers)).
  intros s' [= <-]. apply settings_valid_iff. unfold MODE_GATE. lia.
Defined.

(** ** Coordinator: one tick, event by event *)

(** The event processor has no branch that produces the timeout event. *)
Lemma event_processor_update_not_timeout (ep : EventProcessor) (input : EventInput) :
  snd (event_processor_update ep input) <> EVT_TIMEOUT.
Proof.
  assert (HA : forall ep now, snd (ep_button_a ep now) <> EVT_TIMEOUT).
  { intros ep0 now. rewrite ep_button_a_snd.
    repeat match goal with |- context [if ?c then _ else _] => destruct c end;
      discriminate. }
  assert (HB : forall ep now e, e <> EVT_TIMEOUT -> snd (ep_button_b ep now e) <> EVT_TIMEOUT).
  { intros ep0 now e He. rewrite ep_button_b_snd.
    repeat match goal with |- context [if ?c then _ else _] => destruct c end;
      (exact He || discriminate). }
  assert (HC : forall ep a b e, e <> EVT_TIMEOUT -> snd (ep_compound ep a b e) <> EVT_TIMEOUT).
  { intros ep0 a b e He. rewrite ep_compound_snd.
    destruct (_ && _); (exact He || discriminate). }
  unfold event_processor_update.
  set (ep1 := ep_put_inputs ep input).
  pose proof (HA ep1 (current_time input)) as H1.
  destruct (ep_button_a ep1 (current_time input)) as [ep2 e2]. cbn [snd] in H1.
  pose proof (HB ep2 (current_time input) e2 H1) as H2.
  destruct (ep_button_b ep2 (current_time input) e2) as [ep3 e3]. cbn [snd] in H2.
  pose proof (HC ep3 (STATUS_ANY (ep_status ep1) EP_A_PRESSED)
                (STATUS_ANY (ep_status ep2) EP_B_PRESSED) e3 H2) as H3.
  destruct (ep_compound ep3 _ _ e3) as [ep4 e4]. cbn [snd] in *.
  unfold ep_cv_edge.
  repeat match goal with |- context [if ?c then _ else _] => destruct c end;
    (exact H3 || discriminate).
Qed.

Section CoordinatorTick.
Context `{ModeHandlers}.

(** The world in which the event of the tick is routed. *)
Lemma coordinator_update_tick (w : World) :
  let input := coordinator_read_inputs w in
  let ep := fst (event_processor_update (events (coord w)) (snd input)) in
  let w1 := with_coord (with_g_coord w true) (set_inputs (coord w) ep (fst input)) in
  let w3 := coordinator_check_timeout (coordinator_route_event (coordinator_event w) w1) in
  top_fsm (coord (coordinator_update w)) = top_fsm (coord w3) /\
  mode_fsm (coord (coordinator_update w)) = mode_fsm (coord w3) /\
  menu_fsm (coord (coordinator_update w)) = menu_fsm (coord w3) /\
  settings (coord (coordinator_update w)) = settings (coord w3) /\
  last_activity (coord (coordinator_update w)) = last_activity (coord w3) /\
  menu_entry_mode (coord (coordinator_update w)) = menu_entry_mode (coord w3) /\
  hal (coordinator_update w) = hal w3.
Proof.
  unfold coordinator_update, coordinator_event.
  change (coordinator_read_inputs (with_g_coord w true)) with (coordinator_read_inputs w).
  destruct (coordinator_read_inputs w) as [cv input]. cbn [fst snd].
  change (events (coord (with_g_coord w true))) with (events (coord w)).
  destruct (event_processor_update (events (coord w)) input) as [ep event].
  cbn [fst snd].
  destruct (mode_handler_process _ _ _ _ _) as [ctx out].
  repeat split.
Qed.

Lemma top_process_event_enter (w : World) :
  fsm_wired (top_fsm (coord w)) top_states top_transitions ->
  fsm_current_state (top_fsm (coord w)) = TOP_PERFORM ->
  top_process_event (Event_code EVT_MENU_TOGGLE) w
  = (put_top (fsm_with_state (top_of (action_enter_menu w)) TOP_MENU)
       (action_enter_menu w), true).
Proof.
  intros (_ & _ & Ht & Hn & Ha) Hst.
  unfold top_process_event, fsm_process_event, top_of. rewrite Ha, Ht, Hn.
  cbn [negb]. change (take _ top_transitions) with top_transitions.
  unfold top_transitions.
  cbn [fsm_process_rows from_state trans_event to_state action]. unfold top_of.
  rewrite Hst. change (TOP_PERFORM =? TOP_PERFORM) with true.
  change (Event_code EVT_MENU_TOGGLE =? Event_code EVT_MENU_TOGGLE) with true.
  change (TOP_MENU =? FSM_NO_TRANSITION) with false. cbn [orb andb run_opt].
  rewrite call_entry_no_callback, call_exit_no_callback. reflexivity.
Qed.

Lemma top_process_event_exit (e : Event) (w : World) :
  fsm_wired (top_fsm (coord w)) top_states top_transitions ->
  fsm_current_state (top_fsm (coord w)) = TOP_MENU ->
  e = EVT_MENU_TOGGLE \/ e = EVT_TIMEOUT ->
  top_process_event (Event_code e) w
  = (put_top (fsm_with_state (top_of (action_exit_menu w)) TOP_PERFORM)
       (action_exit_menu w), true).
Proof.
  intros (_ & _ & Ht & Hn & Ha) Hst He.
  unfold top_process_event, fsm_process_event, top_of. rewrite Ha, Ht, Hn.
  cbn [negb]. change (take _ top_transitions) with top_transitions.
  unfold top_transitions.
  cbn [fsm_process_rows from_state trans_event to_state action]. unfold top_of.
  rewrite Hst. change (TOP_PERFORM =? TOP_MENU) with false.
  change (TOP_PERFORM =? FSM_ANY_STATE) with false.
  change (TOP_MENU =? TOP_MENU) with true.
  change (TOP_PERFORM =? FSM_NO_TRANSITION) with false.
  destruct He as [-> | ->]; cbn [orb andb run_opt Event_code Z.eqb Pos.eqb];
    rewrite call_entry_no_callback, call_exit_no_callback; reflexivity.
Qed.

(** Events without a row in the top table, for the top state at hand. *)
Lemma top_process_event_unhandled (e : Event) (w : World) :
  fsm_wired (top_fsm (coord w)) top_states top_transitions ->
  e <> EVT_MENU_TOGGLE ->
  e <> EVT_TIMEOUT \/ fsm_current_state (top_fsm (coord w)) = TOP_PERFORM ->
  top_process_event (Event_code e) w = (w, false).
Proof.
  intros (_ & _ & Ht & Hn & Ha) Hne Hto.
  unfold top_process_event, fsm_process_event, top_of. rewrite Ha, Ht, Hn.
  cbn [negb]. change (take _ top_transitions) with top_transitions.
  unfold top_transitions.
  cbn [fsm_process_rows from_state trans_event to_state action]. unfold top_of.
  change (TOP_PERFORM =? FSM_ANY_STATE) with false.
  change (TOP_MENU =? FSM_ANY_STATE) with false.
  destruct Hto as [Hto | Hst].
  - destruct e; try contradiction; cbn [Event_code Z.eqb Pos.eqb];
      rewrite ?andb_false_r; reflexivity.
  - rewrite Hst. change (TOP_MENU =? TOP_PERFORM) with false.
    destruct e; try contradiction; cbn [Event_code Z.eqb Pos.eqb orb andb];
      rewrite ?andb_false_r; reflexivity.
Qed.

Lemma mode_process_event_other (e : Event) (w : World) :
  fsm_wired (mode_fsm (coord w)) mode_states mode_transitions ->
  e <> EVT_MODE_NEXT ->
  mode_process_event (Event_code e) w = (w, false).
Proof.
  intros (_ & _ & Ht & Hn & Ha) Hne.
  unfold mode_process_event, fsm_process_event, mode_of. rewrite Ha, Ht, Hn.
  cbn [negb]. change (take _ mode_transitions) with mode_transitions.
  unfold mode_transitions.
  cbn [fsm_process_rows from_state trans_event to_state action].
  destruct e; try contradiction; cbn [Event_code Z.eqb Pos.eqb];
    rewrite ?andb_false_r; reflexivity.
Qed.

Lemma menu_process_event_b_tap (w : World) :
  fsm_wired (menu_fsm (coord w)) menu_states menu_transitions ->
  menu_process_event (Event_code EVT_B_TAP) w = (action_cycle_value w, false).
Proof.
  intros (_ & _ & Ht & Hn & Ha).
  unfold menu_process_event, fsm_process_event, menu_of. rewrite Ha, Ht, Hn.
  cbn [negb]. change (take _ menu_transitions) with menu_transitions.
  unfold menu_transitions.
  cbn [fsm_process_rows from_state trans_event to_state action].
  change (Event_code EVT_A_TAP =? Event_code EVT_B_TAP) with false.
  change (Event_code EVT_B_TAP =? Event_code EVT_B_TAP) with true.
  change (FSM_ANY_STATE =? FSM_ANY_STATE) with true.
  rewrite andb_false_r, orb_true_r. reflexivity.
Qed.

Lemma menu_process_event_other (e : Event) (w : World) :
  fsm_wired (menu_fsm (coord w)) menu_states menu_transitions ->
  e <> EVT_A_TAP -> e <> EVT_B_TAP ->
  menu_process_event (Event_code e) w = (w, false).
Proof.
  intros (_ & _ & Ht & Hn & Ha) Hna Hnb.
  unfold menu_process_event, fsm_process_event, menu_of. rewrite Ha, Ht, Hn.
  cbn [negb]. change (take _ menu_transitions) with menu_transitions.
  unfold menu_transitions.
  cbn [fsm_process_rows from_state trans_event to_state action].
  destruct e; try contradiction; cbn [Event_code Z.eqb Pos.eqb];
    rewrite ?andb_false_r; reflexivity.
Qed.

Ltac coord_proj :=
  cbn [coord hal g_coord with_coord with_hal with_g_coord
       set_inputs set_menu_entry set_last_activity set_settings set_mode_ctx
       set_mode_output set_top_fsm set_mode_fsm set_menu_fsm
       top_fsm mode_fsm menu_fsm settings last_activity menu_entry_mode
       menu_enter_time events cv_input mode_ctx output_state
       put_top put_mode put_menu top_of mode_of menu_of
       fsm_with_state fsm_current_state fsm_get_state
       coordinator_get_top_state coordinator_get_mode coordinator_get_page
       states transitions num_states num_transitions active initial_state
       negb fst snd] in *.

(** X15: entering the menu.  In PERFORM, the tick whose event is the
    menu toggle leaves the coordinator in MENU on the start page of the
    current mode, with the mode unchanged and remembered as the entry
    mode and the activity stamp at the current time; the HAL (pins,
    EEPROM, clock) and the settings are untouched. *)
Theorem menu_toggle_enters_menu (w : World) :
  coordinator_ok (coord w) ->
  coordinator_get_top_state (coord w) = TOP_PERFORM ->
  coordinator_event w = EVT_MENU_TOGGLE ->
  coordinator_get_top_state (coord (coordinator_update w)) = TOP_MENU /\
  coordinator_get_page (coord (coordinator_update w))
  = mode_to_start_page (coordinator_get_mode (coord w)) /\
  coordinator_get_mode (coord (coordinator_update w)) = coordinator_get_mode (coord w) /\
  menu_entry_mode (coord (coordinator_update w)) = coordinator_get_mode (coord w) /\
  last_activity (coord (coordinator_update w)) = sim_millis (hal w) /\
  settings (coord (coordinator_update w)) = settings (coord w) /\
  hal (coordinator_update w) = hal w.
Proof.
  intros ((Hwt & Hwm & Hwn) & _) Hst Hev.
  destruct (coordinator_update_tick w) as (Ht & Hm & Hn & Hs & Hl & He & Hh).
  cbv zeta in *. rewrite Hev in *.
  set (w1 := with_coord (with_g_coord w true) _) in *.
  assert (Hr : coordinator_route_event EVT_MENU_TOGGLE w1
               = put_top (fsm_with_state (top_of (action_enter_menu w1)) TOP_MENU)
                   (action_enter_menu w1)).
  { unfold coordinator_route_event. change (is_event EVT_MENU_TOGGLE) with true. cbv iota.
    change (fsm_get_state (top_of w1)) with (coordinator_get_top_state (coord w)).
    rewrite Hst. change (TOP_PERFORM =? TOP_MENU) with false. cbv iota.
    rewrite top_process_event_enter by assumption. reflexivity. }
  rewrite Hr in *. clear Hr.
  assert (Ha : action_enter_menu w1
               = put_menu (fsm_with_state (menu_of w1)
                             (mode_to_start_page (coordinator_get_mode (coord w))))
                   (with_coord w1 (set_menu_entry (coord w1)
                                     (coordinator_get_mode (coord w))
                                     (sim_millis (hal w))))).
  { unfold action_enter_menu. change (g_coord w1) with true. cbn [negb].
    rewrite fsm_set_state_coord. reflexivity. }
  rewrite Ha in *. clear Ha.
  unfold coordinator_check_timeout in *.
  set (w2 := put_top _ _) in *.
  change (fsm_get_state (top_of w2)) with TOP_MENU in *.
  change (TOP_MENU =? TOP_MENU) with true in *. cbv iota in *.
  change (last_activity (coord w2)) with (sim_millis (hal w)) in *.
  change (hal w2) with (hal w) in *.
  rewrite u32_sub_self in *.
  change (MENU_TIMEOUT_MS <=? 0) with false in *. cbv iota in *.
  unfold coordinator_get_top_state, coordinator_get_page, coordinator_get_mode.
  rewrite Ht, Hm, Hn, Hs, Hl, He, Hh. repeat split.
Qed.

Lemma action_exit_menu_some (w : World) (s : AppSettings) :
  g_coord w = true -> settings (coord w) = Some s ->
  action_exit_menu w
  = with_hal
      (with_coord w
         (set_settings (coord w)
            (Some (settings_with_mode s (coordinator_get_mode (coord w))))))
      (app_init_save_settings (settings_with_mode s (coordinator_get_mode (coord w)))
         (hal w)).
Proof.
  intros Hg Hs. unfold action_exit_menu. rewrite Hg, Hs. reflexivity.
Qed.

Lemma settings_with_mode_valid (s : AppSettings) (m : Z) :
  settings_valid s -> 0 <= m < MODE_COUNT -> settings_valid (settings_with_mode s m).
Proof.
  destruct s as [b0 b1 b2 b3 b4 b5 b6 b7]. intros Hs Hm.
  apply settings_valid_iff in Hs. apply settings_valid_iff.
  cbn [trigger_pulse_idx trigger_edge divide_divisor_idx cycle_tempo_idx
       toggle_edge gate_a_mode reserved].
  unfold MODE_COUNT in Hm. lia.
Qed.

(** X16: leaving the menu saves the settings.  In MENU, a tick whose
    event is the menu toggle, or a tick without event once 60000 ms
    have passed since the last activity, returns to PERFORM, copies
    the current mode into the settings, and writes them to a sound
    EEPROM so that [load_settings] gets exactly them back. *)
Theorem leaving_menu_saves_settings (w : World) (s : AppSettings) :
  coordinator_ok (coord w) ->
  coordinator_get_top_state (coord w) = TOP_MENU ->
  settings (coord w) = Some s ->
  eeprom_ok (hal w) ->
  coordinator_event w = EVT_MENU_TOGGLE \/
  (coordinator_event w = EVT_NONE /\
   MENU_TIMEOUT_MS <= u32_sub (sim_millis (hal w)) (last_activity (coord w))) ->
  let s' := settings_with_mode s (coordinator_get_mode (coord w)) in
  coordinator_get_top_state (coord (coordinator_update w)) = TOP_PERFORM /\
  coordinator_get_mode (coord (coordinator_update w)) = coordinator_get_mode (coord w) /\
  settings (coord (coordinator_update w)) = Some s' /\
  hal (coordinator_update w) = app_init_save_settings s' (hal w) /\
  (forall s0, load_settings s0 (hal (coordinator_update w)) = (s', true)).
Proof.
  intros ((Hwt & Hwm & Hwn) & _ & Hmode & _ & Hvalid) Hst Hs Hok Hev s'.
  destruct (coordinator_update_tick w) as (Ht & Hm & Hn & Hset & _ & _ & Hh).
  cbv zeta in *.
  set (w1 := with_coord (with_g_coord w true) _) in *.
  assert (Hexit : forall e w2,
             e = EVT_MENU_TOGGLE \/ e = EVT_TIMEOUT ->
             coord w2 = coord w1 \/
             coord w2 = set_last_activity (coord w1) (sim_millis (hal w1)) ->
             g_coord w2 = true -> hal w2 = hal w ->
             let w3 := fst (top_process_event (Event_code e) w2) in
             fsm_current_state (top_fsm (coord w3)) = TOP_PERFORM /\
             mode_fsm (coord w3) = mode_fsm (coord w) /\
             settings (coord w3) = Some s' /\
             hal w3 = app_init_save_settings s' (hal w)).
  { intros e w2 He Hc Hg Hhal.
    assert (Hc' : top_fsm (coord w2) = top_fsm (coord w) /\
                  mode_fsm (coord w2) = mode_fsm (coord w) /\
                  settings (coord w2) = settings (coord w))
      by (destruct Hc as [-> | ->]; repeat split).
    destruct Hc' as (Hc1 & Hc2 & Hc3).
    rewrite (top_process_event_exit e) by (rewrite ?Hc1; assumption).
    rewrite (action_exit_menu_some w2 s) by (rewrite ?Hc3; assumption).
    cbv zeta. coord_proj. unfold coordinator_get_mode. rewrite Hc2, Hhal.
    repeat split. }
  assert (Hw3 : fsm_current_state
                  (top_fsm
                     (coord (coordinator_check_timeout
                               (coordinator_route_event (coordinator_event w) w1))))
                = TOP_PERFORM /\
                mode_fsm
                  (coord (coordinator_check_timeout
                            (coordinator_route_event (coordinator_event w) w1)))
                = mode_fsm (coord w) /\
                settings
                  (coord (coordinator_check_timeout
                            (coordinator_route_event (coordinator_event w) w1)))
                = Some s' /\
                hal (coordinator_check_timeout
                       (coordinator_route_event (coordinator_event w) w1))
                = app_init_save_settings s' (hal w)).
  { destruct Hev as [Hev | [Hev Hto]]; rewrite Hev.
    - unfold coordinator_route_event.
      change (is_event EVT_MENU_TOGGLE) with true. cbv iota.
      change (fsm_get_state (top_of w1)) with (coordinator_get_top_state (coord w)).
      rewrite Hst. change (TOP_MENU =? TOP_MENU) with true. cbv iota.
      set (w2 := with_coord w1 _).
      destruct (Hexit EVT_MENU_TOGGLE w2 (or_introl eq_refl) (or_intror eq_refl)
                  eq_refl eq_refl) as (E1 & E2 & E3 & E4).
      assert (Hhandled : snd (top_process_event (Event_code EVT_MENU_TOGGLE) w2) = true)
        by (rewrite (top_process_event_exit EVT_MENU_TOGGLE) by (assumption || auto);
            reflexivity).
      destruct (top_process_event (Event_code EVT_MENU_TOGGLE) w2) as [w3 handled].
      cbn [fst snd] in *. subst handled. cbn [negb].
      unfold coordinator_check_timeout, fsm_get_state, top_of. rewrite E1.
      change (TOP_PERFORM =? TOP_MENU) with false. cbv iota. auto.
    - unfold coordinator_route_event. change (is_event EVT_NONE) with false. cbv iota.
      unfold coordinator_check_timeout.
      change (fsm_get_state (top_of w1)) with (coordinator_get_top_state (coord w)).
      rewrite Hst. change (TOP_MENU =? TOP_MENU) with true. cbv iota.
      change (hal w1) with (hal w). change (last_activity (coord w1))
        with (last_activity (coord w)).
      apply Z.leb_le in Hto. rewrite Hto.
      exact (Hexit EVT_TIMEOUT w1 (or_intror eq_refl) (or_introl eq_refl)
               eq_refl eq_refl). }
  destruct Hw3 as (E1 & E2 & E3 & E4).
  unfold coordinator_get_top_state, coordinator_get_mode, fsm_get_state in *.
  rewrite Ht, Hm, Hset, Hh, E1, E2, E3, E4.
  repeat split.
  intros s0. destruct (settings_with_mode_valid s _ (Hvalid s Hs) Hmode) as [Hb Hl].
  apply load_after_save; assumption.
Qed.

Lemma action_next_page_some (w : World) :
  g_coord w = true ->
  action_next_page w
  = with_coord (put_menu (fsm_with_state (menu_of w)
                            (u8 ((coordinator_get_page (coord w) + 1) mod PAGE_COUNT))) w)
      (set_last_activity
         (coord (put_menu (fsm_with_state (menu_of w)
                             (u8 ((coordinator_get_page (coord w) + 1) mod PAGE_COUNT))) w))
         (sim_millis (hal w))).
Proof.
  intros Hg. unfold action_next_page. rewrite Hg. cbn [negb].
  rewrite fsm_set_state_coord. reflexivity.
Qed.

Lemma action_next_mode_some (w : World) :
  g_coord w = true ->
  mode_fsm (coord (action_next_mode w))
  = fsm_with_state (mode_fsm (coord w))
      (u8 ((coordinator_get_mode (coord w) + 1) mod MODE_COUNT)) /\
  top_fsm (coord (action_next_mode w)) = top_fsm (coord w) /\
  menu_fsm (coord (action_next_mode w)) = menu_fsm (coord w) /\
  settings (coord (action_next_mode w)) = settings (coord w) /\
  hal (action_next_mode w) = hal w.
Proof.
  intros Hg. unfold action_next_mode. rewrite Hg. cbn [negb].
  rewrite fsm_set_state_coord. repeat split.
Qed.

(** What [action_cycle_value] leaves outside the settings. *)
Lemma action_cycle_value_frame (w : World) :
  top_fsm (coord (action_cycle_value w)) = top_fsm (coord w) /\
  mode_fsm (coord (action_cycle_value w)) = mode_fsm (coord w) /\
  menu_fsm (coord (action_cycle_value w)) = menu_fsm (coord w) /\
  hal (action_cycle_value w) = hal w /\
  g_coord (action_cycle_value w) = g_coord w /\
  (last_activity (coord w) = sim_millis (hal w) ->
   last_activity (coord (action_cycle_value w)) = sim_millis (hal w)).
Proof.
  unfold action_cycle_value.
  destruct (g_coord w) eqn:Hg; cbn [negb]; [|repeat split; auto].
  destruct (settings (coord w)) as [s|]; [|repeat split; auto].
  repeat match goal with |- context [if ?c then _ else _] => destruct c end;
    repeat split; auto.
Qed.

Lemma u8_mod_small (x n : Z) : 0 < n <= 256 -> u8 (x mod n) = x mod n.
Proof.
  intros Hn. pose proof (Z.mod_pos_bound x n ltac:(lia)).
  unfold u8. apply Z.mod_small. lia.
Qed.

(** The routing of an event that is not the menu toggle, in MENU. *)
Lemma coordinator_route_event_in_menu (e : Event) (w : World) :
  coordinator_wired (coord w) ->
  coordinator_get_top_state (coord w) = TOP_MENU ->
  is_event e = true -> e <> EVT_MENU_TOGGLE -> e <> EVT_TIMEOUT ->
  coordinator_route_event e w
  = fst (menu_process_event (Event_code e)
           (with_coord w (set_last_activity (coord w) (sim_millis (hal w))))).
Proof.
  intros (Hwt & _ & _) Hst He Hne Hnt. unfold coordinator_route_event. rewrite He.
  unfold coordinator_get_top_state, fsm_get_state in Hst.
  unfold fsm_get_state, top_of. rewrite Hst.
  change (TOP_MENU =? TOP_MENU) with true. change (TOP_MENU =? TOP_PERFORM) with false.
  cbv iota. rewrite top_process_event_unhandled by (assumption || auto).
  reflexivity.
Qed.

(** X17: the menu is left by the toggle or by the timeout only.  In
    MENU, a tick whose event is not the menu toggle and that either
    carries an event or comes less than 60000 ms after the last
    activity stays in MENU, keeps the mode and leaves the HAL alone;
    when it carries an event the activity stamp is the current time. *)
Theorem menu_stays_until_toggle_or_timeout (w : World) :
  coordinator_ok (coord w) ->
  coordinator_get_top_state (coord w) = TOP_MENU ->
  coordinator_event w <> EVT_MENU_TOGGLE ->
  coordinator_event w <> EVT_NONE \/
  u32_sub (sim_millis (hal w)) (last_activity (coord w)) < MENU_TIMEOUT_MS ->
  coordinator_get_top_state (coord (coordinator_update w)) = TOP_MENU /\
  coordinator_get_mode (coord (coordinator_update w)) = coordinator_get_mode (coord w) /\
  hal (coordinator_update w) = hal w /\
  (coordinator_event w <> EVT_NONE ->
   last_activity (coord (coordinator_update w)) = sim_millis (hal w)).
Proof.
  intros (Hw & _) Hst Hnt Hcase.
  destruct (coordinator_update_tick w) as (Ht & Hm & _ & _ & Hl & _ & Hh).
  cbv zeta in *.
  set (w1 := with_coord (with_g_coord w true) _) in *.
  pose proof (event_processor_update_not_timeout (events (coord w))
                (snd (coordinator_read_inputs w))) as Hnto.
  fold (coordinator_event w) in Hnto.
  unfold coordinator_get_top_state, coordinator_get_mode, fsm_get_state in *.
  rewrite Ht, Hm, Hl, Hh. clear Ht Hm Hl Hh.
  destruct (is_event (coordinator_event w)) eqn:Hev.
  - (* an event: the stamp is refreshed, the timeout cannot strike *)
    rewrite coordinator_route_event_in_menu by assumption.
    set (w2 := with_coord w1 _).
    assert (H2 : top_fsm (coord (fst (menu_process_event
                                         (Event_code (coordinator_event w)) w2)))
                 = top_fsm (coord w) /\
                 mode_fsm (coord (fst (menu_process_event
                                         (Event_code (coordinator_event w)) w2)))
                 = mode_fsm (coord w) /\
                 hal (fst (menu_process_event (Event_code (coordinator_event w)) w2))
                 = hal w /\
                 last_activity
                   (coord (fst (menu_process_event
                                  (Event_code (coordinator_event w)) w2)))
                 = sim_millis (hal w)).
    { assert (Hwn : fsm_wired (menu_fsm (coord w2)) menu_states menu_transitions)
        by apply Hw.
      destruct (coordinator_event w) eqn:E;
        try (rewrite menu_process_event_other by (assumption || discriminate);
             repeat split).
      - rewrite menu_process_event_a_tap by assumption. cbn [fst].
        rewrite action_next_page_some by reflexivity. repeat split.
      - rewrite menu_process_event_b_tap by assumption. cbn [fst].
        destruct (action_cycle_value_frame w2) as (F1 & F2 & _ & F4 & _ & F6).
        rewrite F1, F2, F4, F6 by reflexivity. repeat split. }
    destruct H2 as (G1 & G2 & G3 & G4).
    unfold coordinator_check_timeout, fsm_get_state, top_of.
    rewrite G1, Hst, G3, G4, u32_sub_self.
    change (TOP_MENU =? TOP_MENU) with true. change (MENU_TIMEOUT_MS <=? 0) with false.
    cbv iota. rewrite G1, G2, G3, G4. auto.
  - (* no event: too early for the timeout *)
    assert (Hnone : coordinator_event w = EVT_NONE)
      by (destruct (coordinator_event w); try discriminate; reflexivity).
    destruct Hcase as [Hc | Hc]; [contradiction|].
    unfold coordinator_route_event. rewrite Hev.
    unfold coordinator_check_timeout, fsm_get_state, top_of.
    change (top_fsm (coord w1)) with (top_fsm (coord w)). rewrite Hst.
    change (TOP_MENU =? TOP_MENU) with true. cbv iota.
    change (hal w1) with (hal w).
    change (last_activity (coord w1)) with (last_activity (coord w)).
    destruct (Z.leb_spec MENU_TIMEOUT_MS
                (u32_sub (sim_millis (hal w)) (last_activity (coord w)))); [lia|].
    repeat split; [exact Hst | intros Hne; contradiction].
Qed.

(** X18: in PERFORM only two events move the state machines.  A tick
    whose event is not the menu toggle stays in PERFORM, keeps the
    menu page, the settings and the HAL, and changes the mode only on
    [EVT_MODE_NEXT], to the next mode modulo [MODE_COUNT]. *)
Theorem perform_changes_mode_on_mode_next_only (w : World) :
  coordinator_ok (coord w) ->
  coordinator_get_top_state (coord w) = TOP_PERFORM ->
  coordinator_event w <> EVT_MENU_TOGGLE ->
  coordinator_get_top_state (coord (coordinator_update w)) = TOP_PERFORM /\
  coordinator_get_page (coord (coordinator_update w)) = coordinator_get_page (coord w) /\
  settings (coord (coordinator_update w)) = settings (coord w) /\
  hal (coordinator_update w) = hal w /\
  coordinator_get_mode (coord (coordinator_update w))
  = (if Event_eqb (coordinator_event w) EVT_MODE_NEXT
     then (coordinator_get_mode (coord w) + 1) mod MODE_COUNT
     else coordinator_get_mode (coord w)).
Proof.
  intros ((Hwt & Hwm & Hwn) & _ & Hmode & _) Hst Hnt.
  destruct (coordinator_update_tick w) as (Ht & Hm & Hn & Hs & _ & _ & Hh).
  cbv zeta in *.
  set (w1 := with_coord (with_g_coord w true) _) in *.
  unfold coordinator_get_top_state, coordinator_get_mode, coordinator_get_page,
    fsm_get_state in *.
  rewrite Ht, Hm, Hn, Hs, Hh. clear Ht Hm Hn Hs Hh.
  assert (Hroute : coordinator_route_event (coordinator_event w) w1
                   = if Event_eqb (coordinator_event w) EVT_MODE_NEXT
                     then action_next_mode w1 else w1).
  { unfold coordinator_route_event.
    destruct (is_event (coordinator_event w)) eqn:Hev.
    - unfold fsm_get_state, top_of.
      change (top_fsm (coord w1)) with (top_fsm (coord w)). rewrite Hst.
      change (TOP_PERFORM =? TOP_MENU) with false.
      change (TOP_PERFORM =? TOP_PERFORM) with true. cbv iota.
      rewrite top_process_event_unhandled by (assumption || auto). cbn [negb].
      destruct (coordinator_event w) eqn:E; try discriminate; try congruence;
        try (rewrite mode_process_event_other by (assumption || discriminate);
             reflexivity).
      rewrite mode_process_event_mode_next by assumption. reflexivity.
    - destruct (coordinator_event w); try discriminate; reflexivity. }
  assert (Hr : exists w2,
             coordinator_route_event (coordinator_event w) w1 = w2 /\
             top_fsm (coord w2) = top_fsm (coord w) /\
             menu_fsm (coord w2) = menu_fsm (coord w) /\
             settings (coord w2) = settings (coord w) /\
             hal w2 = hal w /\
             fsm_current_state (mode_fsm (coord w2))
             = (if Event_eqb (coordinator_event w) EVT_MODE_NEXT
                then (fsm_current_state (mode_fsm (coord w)) + 1) mod MODE_COUNT
                else fsm_current_state (mode_fsm (coord w)))).
  { eexists. split; [reflexivity|]. rewrite Hroute.
    destruct (Event_eqb (coordinator_event w) EVT_MODE_NEXT); [|repeat split].
    destruct (action_next_mode_some w1 eq_refl) as (A1 & A2 & A3 & A4 & A5).
    rewrite A1, A2, A3, A4, A5. repeat split.
    cbn [fsm_with_state fsm_current_state]. unfold coordinator_get_mode, fsm_get_state.
    apply u8_mod_small. unfold MODE_COUNT. lia. }
  destruct Hr as (w2 & -> & R1 & R2 & R3 & R4 & R5).
  unfold coordinator_check_timeout, fsm_get_state, top_of. rewrite R1, Hst.
  change (TOP_PERFORM =? TOP_MENU) with false. cbv iota.
  rewrite R1, R2, R3, R4, R5. auto.
Qed.

Lemma action_cycle_value_settings (w : World) (s : AppSettings) :
  g_coord w = true -> settings (coord w) = Some s ->
  0 <= coordinator_get_page (coord w) < PAGE_COUNT ->
  settings (coord (action_cycle_value w))
  = Some (match page_setting_index (coordinator_get_page (coord w)) with
          | Some i => settings_store s i ((settings_byte s i + 1) mod settings_limit i)
          | None => s
          end).
Proof.
  intros Hg Hs Hpage. unfold action_cycle_value. rewrite Hg, Hs. cbn [negb].
  unfold coordinator_get_page, PAGE_COUNT in *. fold (menu_of w).
  destruct s as [b0 b1 b2 b3 b4 b5 b6 b7].
  cbn [mode trigger_pulse_idx trigger_edge divide_divisor_idx cycle_tempo_idx
       toggle_edge gate_a_mode reserved].
  rewrite !u8_mod_small by (vm_compute; split; congruence).
  assert (Hp : fsm_get_state (menu_of w) = 0 \/ fsm_get_state (menu_of w) = 1 \/
               fsm_get_state (menu_of w) = 2 \/ fsm_get_state (menu_of w) = 3 \/
               fsm_get_state (menu_of w) = 4 \/ fsm_get_state (menu_of w) = 5 \/
               fsm_get_state (menu_of w) = 6 \/ fsm_get_state (menu_of w) = 7)
    by (unfold menu_of in *; lia).
  destruct Hp as [-> | [-> | [-> | [-> | [-> | [-> | [-> | ->]]]]]]];
    cbn [Z.eqb Pos.eqb PAGE_GATE_CV PAGE_TRIGGER_BEHAVIOR PAGE_TRIGGER_PULSE_LEN
         PAGE_TOGGLE_BEHAVIOR PAGE_DIVIDE_DIVISOR PAGE_CYCLE_PATTERN page_setting_index];
    match goal with |- context [if ?c then _ else _] => destruct c | _ => idtac end;
    reflexivity.
Qed.

(** X19: the two taps of the menu.  In MENU an A tap moves to the next
    page modulo [PAGE_COUNT] and leaves the settings alone; a B tap
    keeps the page and advances the one settings field that belongs to
    the page by one, modulo the very limit the settings loader checks
    that field against; the last two pages have no field and a B tap
    there changes nothing. *)
Theorem menu_taps_edit_page_and_value (w : World) :
  coordinator_ok (coord w) ->
  coordinator_get_top_state (coord w) = TOP_MENU ->
  (coordinator_event w = EVT_A_TAP ->
   coordinator_get_page (coord (coordinator_update w))
   = (coordinator_get_page (coord w) + 1) mod PAGE_COUNT /\
   settings (coord (coordinator_update w)) = settings (coord w)) /\
  (coordinator_event w = EVT_B_TAP ->
   coordinator_get_page (coord (coordinator_update w)) = coordinator_get_page (coord w) /\
   settings (coord (coordinator_update w))
   = (fun s =>
        match page_setting_index (coordinator_get_page (coord w)) with
        | Some i => settings_store s i ((settings_byte s i + 1) mod settings_limit i)
        | None => s
        end) <$> settings (coord w)).
Proof.
  intros (Hw & _ & _ & Hpage & _) Hst.
  destruct (coordinator_update_tick w) as (_ & _ & Hn & Hs & _ & _ & _).
  cbv zeta in *.
  set (w1 := with_coord (with_g_coord w true) _) in *.
  assert (Hw1 : coordinator_wired (coord w1)) by exact Hw.
  assert (Hto : forall w2,
             top_fsm (coord w2) = top_fsm (coord w) ->
             last_activity (coord w2) = sim_millis (hal w2) ->
             coordinator_check_timeout w2 = w2).
  { intros w2 Ht Hl. unfold coordinator_check_timeout, fsm_get_state, top_of.
    rewrite Ht. unfold coordinator_get_top_state, fsm_get_state in Hst. rewrite Hst.
    change (TOP_MENU =? TOP_MENU) with true. cbv iota.
    rewrite Hl, u32_sub_self. reflexivity. }
  change (coordinator_get_page (coord (coordinator_update w)))
    with (fsm_current_state (menu_fsm (coord (coordinator_update w)))).
  rewrite Hn, Hs. clear Hn Hs.
  split; intros Hev; rewrite Hev.
  - rewrite coordinator_route_event_in_menu by (assumption || discriminate || reflexivity).
    rewrite menu_process_event_a_tap by apply Hw. cbn [fst].
    rewrite action_next_page_some by reflexivity.
    rewrite Hto by reflexivity.
    split; [|reflexivity].
    cbn [coord with_coord set_last_activity menu_fsm put_menu set_menu_fsm
         fsm_with_state fsm_current_state].
    apply u8_mod_small. unfold PAGE_COUNT. lia.
  - rewrite coordinator_route_event_in_menu by (assumption || discriminate || reflexivity).
    rewrite menu_process_event_b_tap by apply Hw. cbn [fst].
    set (w2 := with_coord w1 _).
    destruct (action_cycle_value_frame w2) as (F1 & _ & F3 & F4 & _ & F6).
    rewrite Hto by (rewrite ?F1, ?F4, ?F6; reflexivity).
    rewrite F3. split; [reflexivity|].
    destruct (settings (coord w)) as [s|] eqn:Hs.
    + rewrite (action_cycle_value_settings w2 s) by (reflexivity || assumption).
      reflexivity.
    + unfold action_cycle_value. change (g_coord w2) with true.
      change (settings (coord w2)) with (settings (coord w)). rewrite Hs. exact Hs.
Qed.
End CoordinatorTick.

(** ** The gestures of the unit tests, as inputs of the tick theorems *)

Lemma booted_ok : coordinator_ok (coord booted).
Proof.
  unfold booted, boot_world.
  apply (@coordinator_init_start_ok gate_handlers). intros s' [= <-].
  apply settings_valid_iff. unfold MODE_GATE. lia.
Qed.

Lemma coord_with_hal `{ModeHandlers} (w : World) (h : SimHal) :
  coord (with_hal w h) = coord w.
Proof. reflexivity. Qed.

Lemma about_to_toggle_ok (w : World) :
  coordinator_ok (coord w) -> coordinator_ok (coord (about_to_toggle w)).
Proof.
  intros Hok. unfold about_to_toggle, press_button_a, press_button_b.
  apply (@run_for_ms_ok gate_handlers). rewrite coord_with_hal.
  apply (@run_for_ms_ok gate_handlers). rewrite coord_with_hal. exact Hok.
Qed.

Lemma menu_world_ok : coordinator_ok (coord menu_world).
Proof.
  unfold menu_world, do_menu_toggle_gesture, press_button_a, press_button_b,
    release_button_a, release_button_b.
  apply (@run_for_ms_ok gate_handlers). rewrite !coord_with_hal.
  apply (@run_for_ms_ok gate_handlers). rewrite coord_with_hal.
  apply (@run_for_ms_ok gate_handlers). rewrite coord_with_hal. exact booted_ok.
Qed.

Lemma tapped_ok (w : World) :
  coordinator_ok (coord w) ->
  coordinator_ok (coord (a_tapped w)) /\ coordinator_ok (coord (b_tapped w)) /\
  coordinator_ok (coord (a_hold_released w)).
Proof.
  intros Hok.
  unfold a_tapped, b_tapped, a_hold_released, press_button_a, press_button_b,
    release_button_a, release_button_b.
  rewrite !coord_with_hal.
  split; [|split]; apply (@run_for_ms_ok gate_handlers); rewrite coord_with_hal;
    exact Hok.
Qed.

Lemma menu_toggle_enters_menu_witness :
  coordinator_get_top_state (coord (coordinator_update (about_to_toggle booted)))
  = TOP_MENU.
Proof.
  assert (H1 : coordinator_get_top_state (coord (about_to_toggle booted)) = TOP_PERFORM)
    by (vm_compute; reflexivity).
  assert (H2 : coordinator_event (about_to_toggle booted) = EVT_MENU_TOGGLE)
    by (vm_compute; reflexivity).
  exact (proj1 (menu_toggle_enters_menu (about_to_toggle booted)
                  (about_to_toggle_ok booted booted_ok) H1 H2)).
Defined.

Lemma leaving_menu_saves_settings_witness :
  load_settings app_init_get_defaults
    (hal (coordinator_update (about_to_toggle menu_world)))
  = (settings_with_mode app_init_get_defaults
       (coordinator_get_mode (coord (about_to_toggle menu_world))), true).
Proof.
  assert (H1 : coordinator_get_top_state (coord (about_to_toggle menu_world)) = TOP_MENU)
    by (vm_compute; reflexivity).
  assert (H2 : settings (coord (about_to_toggle menu_world)) = Some app_init_get_defaults)
    by (vm_compute; reflexivity).
  assert (H3 : eeprom_ok (hal (about_to_toggle menu_world)))
    by (split; vm_compute; reflexivity).
  assert (H4 : coordinator_event (about_to_toggle menu_world) = EVT_MENU_TOGGLE)
    by (vm_compute; reflexivity).
  exact (proj2 (proj2 (proj2 (proj2
           (leaving_menu_saves_settings (about_to_toggle menu_world) app_init_get_defaults
              (about_to_toggle_ok menu_world menu_world_ok) H1 H2 H3 (or_introl H4)))))
           app_init_get_defaults).
Defined.

Lemma menu_stays_until_toggle_or_timeout_witness :
  coordinator_get_top_state (coord (coordinator_update menu_world)) = TOP_MENU.
Proof.
  assert (H1 : coordinator_get_top_state (coord menu_world) = TOP_MENU)
    by (vm_compute; reflexivity).
  assert (H2 : coordinator_event menu_world <> EVT_MENU_TOGGLE)
    by (vm_compute; discriminate).
  assert (H3 : u32_sub (sim_millis (hal menu_world)) (last_activity (coord menu_world))
               < MENU_TIMEOUT_MS)
    by (vm_compute; reflexivity).
  exact (proj1 (menu_stays_until_toggle_or_timeout menu_world menu_world_ok H1 H2
                  (or_intror H3))).
Defined.

Lemma perform_changes_mode_on_mode_next_only_witness :
  coordinator_get_top_state (coord (coordinator_update (a_hold_released booted)))
  = TOP_PERFORM.
Proof.
  assert (H1 : coordinator_get_top_state (coord (a_hold_released booted)) = TOP_PERFORM)
    by (vm_compute; reflexivity).
  assert (H2 : coordinator_event (a_hold_released booted) <> EVT_MENU_TOGGLE)
    by (vm_compute; discriminate).
  exact (proj1 (perform_changes_mode_on_mode_next_only (a_hold_released booted)
                  (proj2 (proj2 (tapped_ok booted booted_ok))) H1 H2)).
Defined.

Lemma menu_taps_edit_page_and_value_witness :
  coordinator_get_page (coord (coordinator_update (a_tapped menu_world)))
  = (coordinator_get_page (coord (a_tapped menu_world)) + 1) mod PAGE_COUNT.
Proof.
  assert (H1 : coordinator_get_top_state (coord (a_tapped menu_world)) = TOP_MENU)
    by (vm_compute; reflexivity).
  assert (H2 : coordinator_event (a_tapped menu_world) = EVT_A_TAP)
    by (vm_compute; reflexivity).
  exact (proj1 (proj1 (menu_taps_edit_page_and_value (a_tapped menu_world)
                         (proj1 (tapped_ok menu_world menu_world_ok)) H1) H2)).
Defined.

(** ** Startup: factory reset, corruption, footprint *)

Lemma eeprom_ok_frame (h h' : SimHal) :
  sim_eeprom h' = sim_eeprom h -> eeprom_fault_mode h' = eeprom_fault_mode h ->
  eeprom_ok h -> eeprom_ok h'.
Proof. unfold eeprom_ok. intros -> ->. auto. Qed.

Section FactoryReset.
Context `{UtilDelay}.

(** X20: a factory reset leaves a bootable EEPROM.  Whenever the
    startup detects the reset gesture on a sound EEPROM, both buttons
    were down at entry, [app_init_run] returns the defaults with
    "factory reset", and the EEPROM it leaves loads as exactly the
    defaults.  This holds for any delay routine that leaves pins and
    EEPROM alone. *)
Theorem factory_reset_writes_defaults (s : AppSettings) (h : SimHal) :
  eeprom_ok h ->
  snd (app_init_check_factory_reset h) = true ->
  sim_read_pin button_a_pin h = 0 /\ sim_read_pin button_b_pin h = 0 /\
  snd (app_init_run s h) = APP_INIT_OK_FACTORY_RESET /\
  fst (fst (app_init_run s h)) = app_init_get_defaults /\
  (forall s0, load_settings s0 (snd (fst (app_init_run s h)))
              = (app_init_get_defaults, true)).
Proof.
  intros Hok Hreset.
  assert (Hpins : sim_read_pin button_a_pin h = 0 /\ sim_read_pin button_b_pin h = 0).
  { revert Hreset. unfold app_init_check_factory_reset.
    destruct (_ <=? _); [discriminate|].
    rewrite !sim_read_pin_delay. unfold truthy.
    destruct (Z.eqb_spec (sim_read_pin button_a_pin h) 0),
      (Z.eqb_spec (sim_read_pin button_b_pin h) 0); cbn [negb orb];
      try discriminate. auto. }
  destruct Hpins as [Ha Hb]. split; [exact Ha|]. split; [exact Hb|].
  unfold app_init_run.
  destruct (app_init_check_factory_reset_eeprom h) as [E1 E2].
  destruct (app_init_check_factory_reset h) as [h1 reset]. cbn [fst snd] in *.
  subst reset.
  assert (Hok1 : eeprom_ok (app_init_clear_eeprom h1)).
  { unfold app_init_clear_eeprom, sim_eeprom_write_word.
    repeat apply eeprom_ok_write. exact (eeprom_ok_frame h h1 E1 E2 Hok). }
  assert (Hbytes : fields_are_bytes app_init_get_defaults)
    by (apply (settings_valid_iff 0 0 0 0 0 0 0 0); lia).
  pose proof (fun s0 => load_after_save app_init_get_defaults s0 _ Hok1 Hbytes
                          fields_below_limits_defaults) as Hload.
  assert (Hmagic : sim_eeprom_read_word EEPROM_MAGIC_ADDR
                     (app_init_save_settings app_init_get_defaults
                        (app_init_clear_eeprom h1)) = EEPROM_MAGIC_VALUE).
  { apply (load_settings_true_iff app_init_get_defaults).
    rewrite (Hload app_init_get_defaults). reflexivity. }
  rewrite Hmagic, Z.eqb_refl. cbn [negb fst snd].
  repeat split. exact Hload.
Qed.
End FactoryReset.

Lemma factory_reset_writes_defaults_witness :
  load_settings (mkAppSettings 4 3 2 3 4 1 1 0)
    (snd (fst (app_init_run (mkAppSettings 4 3 2 3 4 1 1 0)
                 (sim_set_button_b true (sim_set_button_a true sim_hal_init)))))
  = (app_init_get_defaults, true).
Proof.
  refine (proj2 (proj2 (proj2 (proj2
            (factory_reset_writes_defaults (mkAppSettings 4 3 2 3 4 1 1 0)
               (sim_set_button_b true (sim_set_button_a true sim_hal_init)) _ _))))
            (mkAppSettings 4 3 2 3 4 1 1 0)).
  - split; vm_compute; reflexivity.
  - vm_compute. reflexivity.
Defined.

Lemma lxor_inj_r (x y a : Z) : Z.lxor x a = Z.lxor y a -> x = y.
Proof.
  intros E.
  assert (Hx : forall z, Z.lxor (Z.lxor z a) a = z)
    by (intros z; rewrite Z.lxor_assoc, Z.lxor_nilpotent, Z.lxor_0_r; reflexivity).
  rewrite <- (Hx x), <- (Hx y), E. reflexivity.
Qed.

Lemma lxor_inj_l (x y a : Z) : Z.lxor a x = Z.lxor a y -> x = y.
Proof. rewrite !(Z.lxor_comm a). apply lxor_inj_r. Qed.

(** Two records that differ in exactly one byte have different
    checksums. *)
Lemma calculate_checksum_store (s : AppSettings) (i v : Z) :
  0 <= i < APP_SETTINGS_SIZE -> v <> settings_byte s i ->
  calculate_checksum (settings_store s i v) <> calculate_checksum s.
Proof.
  intros Hi Hv. destruct s as [b0 b1 b2 b3 b4 b5 b6 b7].
  unfold APP_SETTINGS_SIZE in Hi.
  assert (Hc : i = 0 \/ i = 1 \/ i = 2 \/ i = 3 \/ i = 4 \/ i = 5 \/ i = 6 \/ i = 7) by lia.
  intros E. apply Hv. clear Hv.
  destruct Hc as [-> | [-> | [-> | [-> | [-> | [-> | [-> | ->]]]]]]];
    cbv [calculate_checksum settings_store settings_byte settings_bytes
         mode trigger_pulse_idx trigger_edge divide_divisor_idx cycle_tempo_idx
         toggle_edge gate_a_mode reserved APP_SETTINGS_SIZE seqZ fold_left
         Z.to_nat Pos.to_nat Pos.iter_op Nat.add list_insert insert default
         lookup list_lookup fmap list_fmap seq Z.of_nat Pos.of_succ_nat Pos.succ
         Z.add Pos.add from_option id] in E |- *;
    repeat (apply lxor_inj_r in E); try (apply lxor_inj_l in E); exact E.
Qed.

Lemma eeprom_ok_save (s : AppSettings) (h : SimHal) :
  eeprom_ok h -> eeprom_ok (app_init_save_settings s h).
Proof.
  intros Hok. rewrite app_init_save_settings_writes. repeat apply eeprom_ok_write.
  exact Hok.
Qed.

(** What a successful load says about the EEPROM it read. *)
Lemma load_settings_true_record (s0 s : AppSettings) (h : SimHal) :
  load_settings s0 h = (s, true) ->
  eeprom_record h = s /\ sim_eeprom_read_byte 16 h = calculate_checksum s.
Proof.
  rewrite load_settings_reads.
  destruct (negb (_ =? EEPROM_MAGIC_VALUE)); [discriminate|].
  destruct (negb (_ =? SETTINGS_SCHEMA_VERSION)); [discriminate|].
  destruct (Z.eqb_spec (sim_eeprom_read_byte 16 h) (calculate_checksum (eeprom_record h)))
    as [Hc|]; cbn [negb]; [|discriminate].
  destruct (negb (settings_in_range _)); [discriminate|].
  intros [= <-]. auto.
Qed.

(** X21: the checksum catches every single-byte corruption of the
    settings area.  After a save of valid settings on a sound EEPROM,
    overwriting any one of the eight settings bytes or the checksum
    byte with a different byte value makes [load_settings] fail. *)
Theorem single_byte_corruption_detected (s s0 : AppSettings) (h : SimHal) (a v : Z) :
  eeprom_ok h -> settings_valid s ->
  EEPROM_SETTINGS_ADDR <= a < EEPROM_SETTINGS_ADDR + APP_SETTINGS_SIZE \/
  a = EEPROM_CHECKSUM_ADDR ->
  0 <= v < 256 ->
  v <> sim_eeprom_read_byte a (app_init_save_settings s h) ->
  snd (load_settings s0 (sim_eeprom_write_byte a v (app_init_save_settings s h))) = false.
Proof.
  intros Hok [Hbytes Hlim] Ha Hv Hne.
  pose proof (eeprom_ok_save s h Hok) as Hok1.
  destruct (load_settings_true_record s0 s _ (load_after_save s s0 h Hok Hbytes Hlim))
    as [Hrec Hsum].
  set (h1 := app_init_save_settings s h) in *.
  destruct (snd (load_settings s0 (sim_eeprom_write_byte a v h1))) eqn:Hload;
    [exfalso|reflexivity].
  apply load_settings_true_iff in Hload. destruct Hload as (_ & _ & Hck & _).
  change (fold_left Z.lxor (settings_bytes ?r) 0) with (calculate_checksum r) in Hck.
  change EEPROM_CHECKSUM_ADDR with 16 in *. change EEPROM_SETTINGS_ADDR with 3 in *.
  change APP_SETTINGS_SIZE with 8 in *.
  assert (Hrd : forall b, 0 <= b < 512 ->
             sim_eeprom_read_byte b (sim_eeprom_write_byte a v h1)
             = if b =? a then v else sim_eeprom_read_byte b h1).
  { intros b Hb. destruct (Z.eqb_spec b a) as [->|Hba].
    - rewrite read_write_same by (assumption || (unfold SIM_EEPROM_SIZE; lia)).
      apply u8_small. exact Hv.
    - apply read_write_other; lia. }
  destruct Ha as [Ha | ->].
  - (* a settings byte *)
    assert (Hrec2 : eeprom_record (sim_eeprom_write_byte a v h1)
                    = settings_store s (a - 3) v).
    { unfold eeprom_record at 1. rewrite !Hrd by lia. rewrite <- Hrec.
      unfold eeprom_record.
      assert (Hc : a = 3 \/ a = 4 \/ a = 5 \/ a = 6 \/ a = 7 \/ a = 8 \/ a = 9 \/ a = 10)
        by lia.
      clear - Hc.
      generalize (sim_eeprom_read_byte 3 h1), (sim_eeprom_read_byte 4 h1),
        (sim_eeprom_read_byte 5 h1), (sim_eeprom_read_byte 6 h1),
        (sim_eeprom_read_byte 7 h1), (sim_eeprom_read_byte 8 h1),
        (sim_eeprom_read_byte 9 h1), (sim_eeprom_read_byte 10 h1).
      intros r3 r4 r5 r6 r7 r8 r9 r10.
      destruct Hc as [-> | [-> | [-> | [-> | [-> | [-> | [-> | ->]]]]]]]; reflexivity. }
    rewrite Hrec2, Hrd in Hck by lia.
    destruct (Z.eqb_spec 16 a); [lia|].
    rewrite Hsum in Hck. symmetry in Hck. revert Hck.
    apply calculate_checksum_store; [unfold APP_SETTINGS_SIZE; lia|].
    intros Ev. apply Hne. rewrite Ev, <- Hrec. unfold eeprom_record.
    assert (Hc : a = 3 \/ a = 4 \/ a = 5 \/ a = 6 \/ a = 7 \/ a = 8 \/ a = 9 \/ a = 10)
      by lia.
    clear - Hc.
    destruct Hc as [-> | [-> | [-> | [-> | [-> | [-> | [-> | ->]]]]]]];
      generalize (sim_eeprom_read_byte 3 h1), (sim_eeprom_read_byte 4 h1),
        (sim_eeprom_read_byte 5 h1), (sim_eeprom_read_byte 6 h1),
        (sim_eeprom_read_byte 7 h1), (sim_eeprom_read_byte 8 h1),
        (sim_eeprom_read_byte 9 h1), (sim_eeprom_read_byte 10 h1);
      intros r3 r4 r5 r6 r7 r8 r9 r10; reflexivity.
  - (* the checksum byte *)
    assert (Hrec2 : eeprom_record (sim_eeprom_write_byte 16 v h1) = s).
    { rewrite <- Hrec. unfold eeprom_record. rewrite !Hrd by lia.
      change (3 =? 16) with false. change (4 =? 16) with false.
      change (5 =? 16) with false. change (6 =? 16) with false.
      change (7 =? 16) with false. change (8 =? 16) with false.
      change (9 =? 16) with false. change (10 =? 16) with false.
      cbv iota. reflexivity. }
    rewrite Hrec2, Hrd in Hck by lia. change (16 =? 16) with true in Hck. cbv iota in Hck.
    apply Hne. rewrite Hsum. exact Hck.
Qed.

Lemma single_byte_corruption_detected_witness :
  snd (load_settings app_init_get_defaults
         (sim_eeprom_write_byte 5 1
            (app_init_save_settings (mkAppSettings 1 2 0 3 4 0 1 0) sim_hal_init)))
  = false.
Proof.
  refine (single_byte_corruption_detected (mkAppSettings 1 2 0 3 4 0 1 0)
            app_init_get_defaults sim_hal_init 5 1 _ _ _ _ _).
  - split; reflexivity.
  - apply settings_valid_iff. lia.
  - left. vm_compute. split; [discriminate | reflexivity].
  - lia.
  - vm_compute. discriminate.
Defined.

(** X22: what the two EEPROM writers touch.  [app_init_save_settings]
    changes no cell other than 0..10 and 16, no pin and not the clock;
    [app_init_clear_eeprom] changes no cell other than 0 and 1, and on
    a sound EEPROM it makes [load_settings] fail, whatever was stored. *)
Theorem eeprom_writers_footprint (s s0 : AppSettings) (h : SimHal) :
  (forall a, 10 < a -> a <> 16 ->
     sim_eeprom_read_byte a (app_init_save_settings s h) = sim_eeprom_read_byte a h) /\
  pin_states (app_init_save_settings s h) = pin_states h /\
  sim_millis (app_init_save_settings s h) = sim_millis h /\
  (forall a, 1 < a ->
     sim_eeprom_read_byte a (app_init_clear_eeprom h) = sim_eeprom_read_byte a h) /\
  (eeprom_ok h -> snd (load_settings s0 (app_init_clear_eeprom h)) = false).
Proof.
  assert (Hw : forall a v h0,
             pin_states (sim_eeprom_write_byte a v h0) = pin_states h0 /\
             sim_millis (sim_eeprom_write_byte a v h0) = sim_millis h0).
  { intros a v h0. unfold sim_eeprom_write_byte.
    destruct (SIM_EEPROM_SIZE <=? a); [auto|].
    destruct (eeprom_fault_mode h0); auto. }
  split; [|split; [|split; [|split]]].
  - intros a Ha Hne. rewrite app_init_save_settings_writes.
    rewrite !read_write_other by lia. reflexivity.
  - rewrite app_init_save_settings_writes.
    repeat (rewrite (proj1 (Hw _ _ _))). reflexivity.
  - rewrite app_init_save_settings_writes.
    repeat (rewrite (proj2 (Hw _ _ _))). reflexivity.
  - intros a Ha. unfold app_init_clear_eeprom, sim_eeprom_write_word.
    change EEPROM_MAGIC_ADDR with 0. change (u16 (0 + 1)) with 1.
    rewrite !read_write_other by lia. reflexivity.
  - intros Hok.
    destruct (snd (load_settings s0 (app_init_clear_eeprom h))) eqn:Hload;
      [exfalso|reflexivity].
    apply load_settings_true_iff in Hload. destruct Hload as (Hm & _).
    revert Hm. unfold app_init_clear_eeprom, sim_eeprom_write_word, sim_eeprom_read_word.
    change EEPROM_MAGIC_ADDR with 0. change (u16 (0 + 1)) with 1.
    rewrite (read_write_other 0 1) by lia.
    rewrite !read_write_same
      by (repeat apply eeprom_ok_write; assumption || (unfold SIM_EEPROM_SIZE; lia)).
    vm_compute. discriminate.
Qed.

Lemma eeprom_writers_footprint_witness :
  snd (load_settings app_init_get_defaults
         (app_init_clear_eeprom
            (app_init_save_settings (mkAppSettings 1 2 0 3 4 0 1 0) sim_hal_init)))
  = false.
Proof.
  refine (proj2 (proj2 (proj2 (proj2
            (eeprom_writers_footprint app_init_get_defaults app_init_get_defaults
               (app_init_save_settings (mkAppSettings 1 2 0 3 4 0 1 0) sim_hal_init)))))
            _).
  split; vm_compute; reflexivity.
Defined.

(** ** Simulated EEPROM: words *)

Lemma word_of_bytes (v : Z) :
  0 <= v < 65536 ->
  Z.lor (u8 (Z.land v 255)) (Z.shiftl (u8 (Z.land (Z.shiftr v 8) 255)) 8) = v.
Proof.
  intros Hv.
  assert (H8 : forall x, u8 (Z.land x 255) = Z.land x (Z.ones 8)).
  { intros x. change 255 with (Z.ones 8). unfold u8.
    rewrite Z.land_ones by lia. change (2 ^ 8) with 256.
    apply Z.mod_mod. lia. }
  rewrite !H8. apply Z.bits_inj'. intros n Hn.
  rewrite Z.lor_spec, Z.shiftl_spec, !Z.land_spec by lia.
  destruct (Z.ltb_spec n 8).
  - rewrite (Z.testbit_neg_r _ (n - 8)) by lia.
    rewrite Z.ones_spec_low by lia. rewrite andb_true_r, orb_false_r. reflexivity.
  - rewrite Z.ones_spec_high by lia. rewrite andb_false_r. cbn [orb].
    rewrite Z.shiftr_spec by lia. replace (n - 8 + 8) with n by lia.
    destruct (Z.ltb_spec (n - 8) 8).
    + rewrite Z.ones_spec_low by lia. apply andb_true_r.
    + rewrite Z.ones_spec_high by lia. rewrite andb_false_r.
      symmetry. destruct (Z.eq_dec v 0) as [->|]; [apply Z.bits_0|].
      apply Z.bits_above_log2; [lia|].
      assert (Z.log2 v < 16) by (apply Z.log2_lt_pow2; lia). lia.
Qed.

(** X23: EEPROM words are stored little-endian and read back intact.
    On a sound EEPROM a 16-bit value written at an address whose two
    cells exist is read back unchanged; the low byte sits at the
    address, the high byte in the next cell, and no other cell
    changes. *)
Theorem eeprom_word_round_trip (a v : Z) (h : SimHal) :
  eeprom_ok h -> 0 <= a -> a + 1 < SIM_EEPROM_SIZE -> 0 <= v < 65536 ->
  sim_eeprom_read_word a (sim_eeprom_write_word a v h) = v /\
  sim_eeprom_read_byte a (sim_eeprom_write_word a v h) = v mod 256 /\
  sim_eeprom_read_byte (a + 1) (sim_eeprom_write_word a v h) = v / 256 /\
  (forall b, 0 <= b -> b <> a -> b <> a + 1 ->
     sim_eeprom_read_byte b (sim_eeprom_write_word a v h) = sim_eeprom_read_byte b h).
Proof.
  intros Hok Ha Ha1 Hv. unfold SIM_EEPROM_SIZE in *.
  assert (Hu : u16 (a + 1) = a + 1) by (unfold u16; apply Z.mod_small; lia).
  assert (Hlo : sim_eeprom_read_byte a (sim_eeprom_write_word a v h)
                = u8 (Z.land v 255)).
  { unfold sim_eeprom_write_word. rewrite Hu.
    rewrite read_write_other by lia.
    apply read_write_same; [assumption | unfold SIM_EEPROM_SIZE; lia]. }
  assert (Hhi : sim_eeprom_read_byte (a + 1) (sim_eeprom_write_word a v h)
                = u8 (Z.land (Z.shiftr v 8) 255)).
  { unfold sim_eeprom_write_word. rewrite Hu.
    apply read_write_same; [apply eeprom_ok_write; assumption
                           | unfold SIM_EEPROM_SIZE; lia]. }
  assert (H8 : forall x, 0 <= x -> u8 (Z.land x 255) = x mod 256).
  { intros x Hx. change 255 with (Z.ones 8). rewrite Z.land_ones by lia.
    change (2 ^ 8) with 256. unfold u8. apply Z.mod_mod. lia. }
  split; [|split; [|split]].
  - unfold sim_eeprom_read_word. rewrite Hu, Hlo, Hhi. apply word_of_bytes. exact Hv.
  - rewrite Hlo. apply H8. lia.
  - rewrite Hhi, H8 by (apply Z.shiftr_nonneg; lia).
    rewrite Z.shiftr_div_pow2 by lia. change (2 ^ 8) with 256.
    apply Z.mod_small. split; [apply Z.div_pos; lia|].
    apply Z.div_lt_upper_bound; lia.
  - intros b Hb Hba Hba1. unfold sim_eeprom_write_word. rewrite Hu.
    rewrite !read_write_other by lia. reflexivity.
Qed.

Lemma eeprom_word_round_trip_witness :
  sim_eeprom_read_word 0 (sim_eeprom_write_word 0 EEPROM_MAGIC_VALUE sim_hal_init)
  = EEPROM_MAGIC_VALUE.
Proof.
  refine (proj1 (eeprom_word_round_trip 0 EEPROM_MAGIC_VALUE sim_hal_init _ _ _ _)).
  - split; reflexivity.
  - lia.
  - unfold SIM_EEPROM_SIZE. lia.
  - unfold EEPROM_MAGIC_VALUE. lia.
Defined.

(** ** Simulated watchdog *)

Lemma u32_sub_after (t d : Z) : 0 <= d < 4294967296 -> u32_sub (u32 (t + d)) t = d.
Proof.
  intros Hd. unfold u32_sub, u32.
  rewrite Zminus_mod_idemp_l. replace (t + d - t) with d by lia.
  apply Z.mod_small. lia.
Qed.

Lemma sim_advance_time_kicked (h : SimHal) (d : Z) :
  wdt_enabled h = true -> wdt_fired h = false -> 0 <= d < 4294967296 ->
  wdt_enabled (sim_advance_time d (sim_wdt_reset h)) = true /\
  wdt_fired (sim_advance_time d (sim_wdt_reset h)) = (SIM_WDT_TIMEOUT_MS <=? d).
Proof.
  intros He Hf Hd. unfold sim_advance_time, sim_wdt_reset, check_watchdog. rewrite He.
  cbn [with_time wdt_enabled wdt_fired sim_time_ms wdt_last_reset_time].
  rewrite ?He, ?Hf. cbn [andb negb]. rewrite u32_sub_after by exact Hd.
  destruct (SIM_WDT_TIMEOUT_MS <=? d); cbn [with_wdt_fired wdt_enabled wdt_fired];
    rewrite ?He, ?Hf; auto.
Qed.

(** X24: the simulated watchdog fires exactly when it is starved.
    With the watchdog enabled and not yet fired, kicking it and then
    letting [d] milliseconds pass fires it exactly when [d] is at
    least 250; a loop that kicks it before every delay shorter than
    250 ms never fires it, however long it runs; a disabled watchdog
    never fires; and once fired it stays fired through kicks and
    delays. *)
Theorem watchdog_fires_iff_starved :
  (forall h d,
      wdt_enabled h = true -> wdt_fired h = false -> 0 <= d < 4294967296 ->
      sim_wdt_has_fired (sim_advance_time d (sim_wdt_reset h))
      = (SIM_WDT_TIMEOUT_MS <=? d)) /\
  (forall delays h,
      Forall (fun d => 0 <= d < SIM_WDT_TIMEOUT_MS) delays ->
      sim_wdt_has_fired (wdt_kicked_run delays (sim_wdt_enable h)) = false) /\
  (forall h d,
      sim_wdt_has_fired (sim_delay_ms d (sim_wdt_disable (sim_wdt_clear_fired h)))
      = false) /\
  (forall h d,
      sim_wdt_has_fired h = true ->
      sim_wdt_has_fired (sim_advance_time d (sim_wdt_reset h)) = true).
Proof.
  split; [|split; [|split]].
  - intros h d He Hf Hd. apply sim_advance_time_kicked; assumption.
  - intros delays h Hall.
    assert (Hgen : forall h0, wdt_enabled h0 = true -> wdt_fired h0 = false ->
                              wdt_fired (wdt_kicked_run delays h0) = false).
    { induction Hall as [|d rest Hd Hrest IH]; intros h0 He Hf; cbn [wdt_kicked_run].
      - exact Hf.
      - unfold SIM_WDT_TIMEOUT_MS in Hd.
        destruct (sim_advance_time_kicked h0 d He Hf ltac:(lia)) as [E1 E2].
        apply IH; [exact E1|]. rewrite E2. apply Z.leb_gt.
        unfold SIM_WDT_TIMEOUT_MS. lia. }
    apply Hgen; reflexivity.
  - intros h d. reflexivity.
  - intros h d Hf. unfold sim_wdt_has_fired in *.
    unfold sim_advance_time, sim_wdt_reset, check_watchdog.
    destruct (wdt_enabled h);
      cbn [with_time wdt_enabled wdt_fired]; rewrite Hf; cbn [andb negb];
      rewrite ?andb_false_r; cbn [with_time wdt_fired]; rewrite ?Hf; reflexivity.
Qed.

Lemma watchdog_fires_iff_starved_witness :
  sim_wdt_has_fired
    (wdt_kicked_run [50; 50; 249; 0; 100] (sim_wdt_enable sim_hal_init)) = false /\
  sim_wdt_has_fired (sim_advance_time 250 (sim_wdt_reset (sim_wdt_enable sim_hal_init)))
  = true.
Proof.
  split.
  - apply (proj1 (proj2 watchdog_fires_iff_starved)).
    repeat constructor; vm_compute; discriminate.
  - exact (proj1 watchdog_fires_iff_starved (sim_wdt_enable sim_hal_init) 250
             eq_refl eq_refl ltac:(lia)).
Defined.

(** ** Neopixel frame buffer *)

Lemma neopixel_set_color_get (i j : Z) (c : NeopixelColor) (np : Neopixel) :
  neopixel_ok np -> 0 <= i < NEOPIXEL_COUNT -> 0 <= j < NEOPIXEL_COUNT ->
  neopixel_get_color j (neopixel_set_color i c np)
  = (if j =? i then c else neopixel_get_color j np) /\
  neopixel_ok (neopixel_set_color i c np) /\
  buffer_dirty (neopixel_set_color i c np) = true.
Proof.
  unfold neopixel_ok, neopixel_get_color, neopixel_set_color, NEOPIXEL_COUNT.
  intros Hlen Hi Hj.
  destruct (Z.leb_spec 2 i); [lia|]. destruct (Z.leb_spec 2 j); [lia|].
  cbn [led_buffer buffer_dirty]. rewrite !length_insert.
  split; [|split; [exact Hlen | reflexivity]].
  assert (Hi' : i = 0 \/ i = 1) by lia. assert (Hj' : j = 0 \/ j = 1) by lia.
  destruct c as [cr cg cb]. cbn [col_r col_g col_b].
  destruct (led_buffer np) as [|x0 [|x1 [|x2 [|x3 [|x4 [|x5 [|]]]]]]]; try discriminate.
  destruct Hi' as [-> | ->], Hj' as [-> | ->]; reflexivity.
Qed.

Lemma neopixel_set_rgb_color (i r g b : Z) (np : Neopixel) :
  neopixel_set_rgb i r g b np = neopixel_set_color i (mkColor r g b) np.
Proof. reflexivity. Qed.

Lemma neopixel_flush_get (j : Z) (np : Neopixel) :
  neopixel_get_color j (neopixel_flush np) = neopixel_get_color j np /\
  buffer_dirty (neopixel_flush np) = false /\
  (neopixel_ok np -> neopixel_ok (neopixel_flush np)).
Proof.
  unfold neopixel_flush. destruct (buffer_dirty np) eqn:E; cbn [negb]; auto.
Qed.

(** ** Colour scaling and the glow animation *)

Lemma scale_channel (c br : Z) :
  0 <= c < 256 -> 0 <= br < 256 ->
  u8 (u16 (c * br) / 255) = c * br / 255 /\ 0 <= c * br / 255 <= c.
Proof.
  intros Hc Hb.
  assert (Hp : 0 <= c * br <= c * 255) by nia.
  assert (Hq : 0 <= c * br / 255 <= c).
  { split; [apply Z.div_pos; lia|]. apply Z.div_le_upper_bound; lia. }
  split; [|exact Hq].
  unfold u8, u16. rewrite (Z.mod_small (c * br)) by nia.
  apply Z.mod_small. lia.
Qed.

(** X25: [led_color_scale] dims and never wraps.  For byte channels
    and a byte brightness each channel becomes the exact quotient
    [c * brightness / 255], which is a byte and not above [c];
    brightness 255 gives the colour back, brightness 0 gives black,
    and a higher brightness never gives a darker channel. *)
Theorem led_color_scale_dims (c : NeopixelColor) (br : Z) :
  color_is_bytes c -> 0 <= br < 256 ->
  led_color_scale c br
  = mkColor (col_r c * br / 255) (col_g c * br / 255) (col_b c * br / 255) /\
  color_le (led_color_scale c br) c /\
  color_is_bytes (led_color_scale c br) /\
  led_color_scale c 255 = c /\
  led_color_scale c 0 = mkColor 0 0 0 /\
  (forall br', 0 <= br' <= br -> color_le (led_color_scale c br') (led_color_scale c br)).
Proof.
  intros (Hr & Hg & Hb) Hbr. destruct c as [cr cg cb]. cbn [col_r col_g col_b] in *.
  assert (Heq : forall b, 0 <= b < 256 ->
             led_color_scale (mkColor cr cg cb) b
             = mkColor (cr * b / 255) (cg * b / 255) (cb * b / 255)).
  { intros b Hb0. unfold led_color_scale. cbn [col_r col_g col_b].
    rewrite (proj1 (scale_channel cr b Hr Hb0)), (proj1 (scale_channel cg b Hg Hb0)),
      (proj1 (scale_channel cb b Hb Hb0)). reflexivity. }
  pose proof (proj2 (scale_channel cr br Hr Hbr)).
  pose proof (proj2 (scale_channel cg br Hg Hbr)).
  pose proof (proj2 (scale_channel cb br Hb Hbr)).
  split; [apply Heq; exact Hbr|]. rewrite Heq by exact Hbr.
  split; [|split; [|split; [|split]]].
  - unfold color_le. cbn [col_r col_g col_b]. lia.
  - unfold color_is_bytes. cbn [col_r col_g col_b]. lia.
  - rewrite Heq by lia. rewrite !Z.div_mul by lia. reflexivity.
  - rewrite Heq by lia. rewrite !Z.mul_0_r. reflexivity.
  - intros br' Hbr'. rewrite Heq by lia. unfold color_le. cbn [col_r col_g col_b].
    repeat split; apply Z.div_le_mono; nia.
Qed.

Lemma led_color_scale_dims_witness :
  led_color_scale (mkColor 255 64 0) 128 = mkColor 128 32 0.
Proof.
  exact (proj1 (led_color_scale_dims (mkColor 255 64 0) 128
                  ltac:(unfold color_is_bytes; cbn; lia) ltac:(lia))).
Defined.

(** The animation entry points never leave a zero period behind. *)
Lemma led_animation_period_positive (anim : LEDAnimation) (ty : AnimationType)
    (c : NeopixelColor) (p idx t : Z) (np : Neopixel) :
  0 < period_ms led_animation_init /\
  0 < period_ms (led_animation_set anim ty c p) /\
  period_ms (led_animation_set_static anim c) = period_ms anim /\
  period_ms (fst (led_animation_update anim idx t np)) = period_ms anim /\
  period_ms (fst (led_animation_stop anim idx np)) = period_ms anim.
Proof.
  split; [reflexivity|]. split; [|split; [reflexivity|split; [|reflexivity]]].
  - unfold led_animation_set. cbn [period_ms].
    destruct (Z.ltb_spec 0 p); [assumption|reflexivity].
  - unfold led_animation_update.
    destruct (anim_type anim); cbn [fst period_ms]; try reflexivity.
    destruct (_ <=? _); reflexivity.
Qed.

Lemma glow_phase_range (t p : Z) :
  0 < p < 65536 -> 0 <= t ->
  u8 (u32 (t mod p * 255) / p) = t mod p * 255 / p /\
  0 <= t mod p * 255 / p < 255.
Proof.
  intros Hp Ht. pose proof (Z.mod_pos_bound t p ltac:(lia)) as Hm.
  assert (Hq : 0 <= t mod p * 255 / p < 255).
  { split; [apply Z.div_pos; lia|]. apply Z.div_lt_upper_bound; nia. }
  split; [|exact Hq].
  unfold u8, u32. rewrite (Z.mod_small (t mod p * 255)) by nia.
  apply Z.mod_small. lia.
Qed.

(** X26: the glow animation is well defined and never brighter than
    its base colour.  For a period that is not zero and any time, the
    phase stored by
    [led_animation_update] is [(t mod period) * 255 / period], below
    255; the brightness is the triangle [2 * phase] below phase 128
    and [2 * (255 - phase)] from there on, at most 254; the pixel is
    the base colour scaled by that brightness, channel by channel at
    most the base colour, and black at the start of every period. *)
Theorem glow_animation_within_base (anim : LEDAnimation) (idx t : Z) (np : Neopixel) :
  anim_type anim = ANIM_GLOW ->
  0 < period_ms anim < 65536 -> 0 <= t ->
  color_is_bytes (base_color anim) ->
  neopixel_ok np -> 0 <= idx < NEOPIXEL_COUNT ->
  let anim' := fst (led_animation_update anim idx t np) in
  let np' := snd (led_animation_update anim idx t np) in
  let brightness := if phase anim' <? 128 then 2 * phase anim'
                    else 2 * (255 - phase anim') in
  phase anim' = t mod period_ms anim * 255 / period_ms anim /\
  0 <= phase anim' < 255 /\
  0 <= brightness <= 254 /\
  neopixel_get_color idx np' = led_color_scale (base_color anim) brightness /\
  color_le (neopixel_get_color idx np') (base_color anim) /\
  (t mod period_ms anim = 0 -> neopixel_get_color idx np' = mkColor 0 0 0).
Proof.
  intros Hty Hp Ht Hc Hnp Hidx anim' np' brightness.
  destruct (glow_phase_range t (period_ms anim) Hp Ht) as [Hph Hrange].
  assert (Ha : phase anim' = t mod period_ms anim * 255 / period_ms anim).
  { subst anim'. unfold led_animation_update. rewrite Hty. cbn [fst phase]. exact Hph. }
  assert (Hb : 0 <= brightness <= 254).
  { subst brightness. rewrite Ha. destruct (Z.ltb_spec (t mod period_ms anim * 255
                                                        / period_ms anim) 128); lia. }
  assert (Hpix : neopixel_get_color idx np' = led_color_scale (base_color anim) brightness).
  { subst np' brightness. rewrite Ha. unfold led_animation_update. rewrite Hty.
    cbn [snd base_color]. rewrite Hph.
    destruct (neopixel_set_color_get idx idx
                (led_color_scale (base_color anim)
                   (u8 (if t mod period_ms anim * 255 / period_ms anim <? 128
                        then t mod period_ms anim * 255 / period_ms anim * 2
                        else (255 - t mod period_ms anim * 255 / period_ms anim) * 2)))
                np Hnp Hidx Hidx) as [Hget _].
    rewrite Hget, Z.eqb_refl. f_equal.
    destruct (Z.ltb_spec (t mod period_ms anim * 255 / period_ms anim) 128);
      unfold u8; rewrite Z.mod_small by lia; lia. }
  split; [exact Ha|]. split; [rewrite Ha; exact Hrange|]. split; [exact Hb|].
  split; [exact Hpix|]. rewrite Hpix.
  destruct Hc as (Hr & Hg & Hbl).
  split.
  - unfold color_le, led_color_scale. cbn [col_r col_g col_b].
    rewrite (proj1 (scale_channel _ brightness Hr ltac:(lia))),
      (proj1 (scale_channel _ brightness Hg ltac:(lia))),
      (proj1 (scale_channel _ brightness Hbl ltac:(lia))).
    pose proof (proj2 (scale_channel _ brightness Hr ltac:(lia))).
    pose proof (proj2 (scale_channel _ brightness Hg ltac:(lia))).
    pose proof (proj2 (scale_channel _ brightness Hbl ltac:(lia))).
    lia.
  - intros H0. subst brightness. rewrite Ha, H0. cbn [Z.mul Z.div Z.ltb Z.compare].
    change (0 / period_ms anim) with (Z.div 0 (period_ms anim)).
    rewrite Z.div_0_l by lia. cbn.
    unfold led_color_scale. rewrite !Z.mul_0_r. reflexivity.
Qed.

Lemma glow_animation_within_base_witness :
  neopixel_get_color LED_MODE
    (snd (led_animation_update
            (led_animation_set led_animation_init ANIM_GLOW (mkColor 0 128 255) 1000)
            LED_MODE 3000 (neopixel_init (mkNeopixel (replicate 6 7) false))))
  = mkColor 0 0 0.
Proof.
  refine (proj2 (proj2 (proj2 (proj2 (proj2
            (glow_animation_within_base
               (led_animation_set led_animation_init ANIM_GLOW (mkColor 0 128 255) 1000)
               LED_MODE 3000 (neopixel_init (mkNeopixel (replicate 6 7) false))
               eq_refl _ _ _ eq_refl _))))) eq_refl).
  - cbn. lia.
  - lia.
  - unfold color_is_bytes. cbn. lia.
  - unfold LED_MODE, NEOPIXEL_COUNT. lia.
Defined.

(** ** LED feedback controller *)

(** One animation step, seen from the frame buffer. *)
Lemma led_animation_update_pixel (anim : LEDAnimation) (idx t : Z) (np : Neopixel) :
  neopixel_ok np -> 0 <= idx < NEOPIXEL_COUNT ->
  let anim' := fst (led_animation_update anim idx t np) in
  let np' := snd (led_animation_update anim idx t np) in
  neopixel_ok np' /\
  (forall j, 0 <= j < NEOPIXEL_COUNT -> j <> idx ->
     neopixel_get_color j np' = neopixel_get_color j np) /\
  anim_type anim' = anim_type anim /\ base_color anim' = base_color anim /\
  period_ms anim' = period_ms anim /\
  match anim_type anim with
  | ANIM_NONE => neopixel_get_color idx np' = base_color anim
  | ANIM_BLINK =>
      neopixel_get_color idx np' = base_color anim \/
      neopixel_get_color idx np' = mkColor 0 0 0
  | ANIM_GLOW =>
      exists br, 0 <= br < 256 /\
                 neopixel_get_color idx np' = led_color_scale (base_color anim) br
  end.
Proof.
  intros Hnp Hidx anim' np'. subst anim' np'. unfold led_animation_update.
  assert (Hset : forall c,
             neopixel_ok (neopixel_set_color idx c np) /\
             (forall j, 0 <= j < NEOPIXEL_COUNT -> j <> idx ->
                neopixel_get_color j (neopixel_set_color idx c np)
                = neopixel_get_color j np) /\
             neopixel_get_color idx (neopixel_set_color idx c np) = c).
  { intros c. split; [apply (neopixel_set_color_get idx idx c np Hnp Hidx Hidx)|]. split.
    - intros j Hj Hne.
      rewrite (proj1 (neopixel_set_color_get idx j c np Hnp Hidx Hj)).
      destruct (Z.eqb_spec j idx); [contradiction|reflexivity].
    - rewrite (proj1 (neopixel_set_color_get idx idx c np Hnp Hidx Hidx)).
      rewrite Z.eqb_refl. reflexivity. }
  destruct (anim_type anim) eqn:Hty; cbn [fst snd].
  - destruct (Hset (base_color anim)) as (S1 & S2 & S3). rewrite ?Hty. auto 10.
  - set (a1 := if _ <=? _ then _ else anim).
    assert (Ha1 : anim_type a1 = ANIM_BLINK /\ base_color a1 = base_color anim /\
                  period_ms a1 = period_ms anim)
      by (subst a1; destruct (_ <=? _); cbn [anim_type base_color period_ms]; auto).
    destruct Ha1 as (T1 & T2 & T3). rewrite T1, T2, T3.
    destruct (current_on a1).
    + destruct (Hset (base_color anim)) as (S1 & S2 & S3). auto 10.
    + rewrite neopixel_set_rgb_color.
      destruct (Hset (mkColor 0 0 0)) as (S1 & S2 & S3). auto 10.
  - cbn [anim_type base_color period_ms]. rewrite ?Hty.
    set (br := u8 _).
    destruct (Hset (led_color_scale (base_color anim) br)) as (S1 & S2 & S3).
    repeat split; try assumption.
    exists br. split; [|exact S3].
    subst br. unfold u8 at 1. apply Z.mod_pos_bound. lia.
Qed.

Lemma mode_color_bytes (md : Z) : color_is_bytes (led_feedback_get_mode_color md).
Proof.
  unfold led_feedback_get_mode_color.
  destruct (MODE_COUNT <=? md); [unfold color_is_bytes; cbn; lia|].
  destruct (Z.to_nat md) as [|[|[|[|[|n]]]]]; cbv; repeat split; congruence.
Qed.


Lemma led_color_scale_ends (c : NeopixelColor) :
  color_is_bytes c ->
  led_color_scale c 255 = c /\ led_color_scale c 0 = mkColor 0 0 0.
Proof.
  intros (Hr & Hg & Hb). destruct c as [cr cg cb]. cbn [col_r col_g col_b] in *.
  unfold led_color_scale. cbn [col_r col_g col_b].
  rewrite (proj1 (scale_channel cr 255 Hr ltac:(lia))),
    (proj1 (scale_channel cg 255 Hg ltac:(lia))),
    (proj1 (scale_channel cb 255 Hb ltac:(lia))).
  rewrite !Z.div_mul by lia. rewrite !Z.mul_0_r. split; reflexivity.
Qed.

(** X27: the two LEDs in perform mode.  From a consistent controller,
    an update with feedback that is not in the menu and names a
    declared mode leaves the controller out of the menu on that mode,
    LED X at exactly the colour of the mode and LED Y at the activity
    colour scaled by the activity brightness (the colour itself at 255,
    black at 0); the frame buffer is flushed. *)
Theorem led_feedback_perform_shows_mode (ctrl : LEDFeedbackController)
    (feedback : LEDFeedback) (t : Z) (np : Neopixel) :
  led_ctrl_ok ctrl -> neopixel_ok np ->
  in_menu feedback = false ->
  0 <= current_mode feedback < MODE_COUNT ->
  0 <= activity_brightness feedback < 256 ->
  color_is_bytes
    (mkColor (activity_r feedback) (activity_g feedback) (activity_b feedback)) ->
  let ctrl' := fst (led_feedback_update ctrl feedback t np) in
  let np' := snd (led_feedback_update ctrl feedback t np) in
  led_ctrl_ok ctrl' /\
  ctrl_in_menu ctrl' = false /\
  ctrl_current_mode ctrl' = current_mode feedback /\
  neopixel_get_color LED_MODE np' = led_feedback_get_mode_color (current_mode feedback) /\
  neopixel_get_color LED_ACTIVITY np'
  = led_color_scale
      (mkColor (activity_r feedback) (activity_g feedback) (activity_b feedback))
      (activity_brightness feedback) /\
  neopixel_is_dirty np' = false.
Proof.
  intros (Hmode & Hper & Hanim) Hnp Hin Hfm Hbr Hcol ctrl' np'. subst ctrl' np'.
  unfold led_feedback_update. rewrite Hin. cbn [andb negb].
  set (ctrl1 := if ctrl_in_menu ctrl then led_feedback_exit_menu ctrl else ctrl).
  assert (H1 : ctrl_in_menu ctrl1 = false /\
               ctrl_current_mode ctrl1 = ctrl_current_mode ctrl /\
               0 < period_ms (mode_anim ctrl1) < 65536 /\
               anim_type (mode_anim ctrl1) = ANIM_NONE /\
               base_color (mode_anim ctrl1)
               = led_feedback_get_mode_color (ctrl_current_mode ctrl)).
  { subst ctrl1. destruct (ctrl_in_menu ctrl) eqn:E.
    - repeat split; apply Hper.
    - destruct Hanim as [A1 A2]. repeat split; (apply Hper || assumption). }
  destruct H1 as (I1 & M1 & P1 & T1 & B1).
  set (ctrl2 := if negb (current_mode feedback =? ctrl_current_mode ctrl1)
                then led_feedback_set_mode ctrl1 (current_mode feedback) else ctrl1).
  assert (H2 : ctrl_in_menu ctrl2 = false /\
               ctrl_current_mode ctrl2 = current_mode feedback /\
               0 < period_ms (mode_anim ctrl2) < 65536 /\
               anim_type (mode_anim ctrl2) = ANIM_NONE /\
               base_color (mode_anim ctrl2)
               = led_feedback_get_mode_color (current_mode feedback)).
  { subst ctrl2.
    destruct (Z.eqb_spec (current_mode feedback) (ctrl_current_mode ctrl1)) as [E|E];
      cbn [negb].
    - rewrite E, M1. repeat split; try assumption; apply P1.
    - unfold led_feedback_set_mode. rewrite I1. cbn [negb].
      destruct (Z.leb_spec MODE_COUNT (current_mode feedback)); [lia|].
      repeat split; apply P1. }
  clearbody ctrl2. clear ctrl1 I1 M1 P1 T1 B1.
  destruct H2 as (I2 & M2 & P2 & T2 & B2).
  rewrite I2. cbn [negb].
  assert (Hi0 : 0 <= LED_MODE < NEOPIXEL_COUNT) by (vm_compute; split; congruence).
  assert (Hi1 : 0 <= LED_ACTIVITY < NEOPIXEL_COUNT) by (vm_compute; split; congruence).
  pose proof (led_animation_update_pixel (mode_anim ctrl2) LED_MODE t np Hnp Hi0) as Q1.
  destruct (led_animation_update (mode_anim ctrl2) LED_MODE t np) as [ma np1].
  cbn [fst snd] in Q1. rewrite T2 in Q1.
  destruct Q1 as (N1 & F1 & Ty1 & Ba1 & Pe1 & X1).
  set (col := mkColor (activity_r feedback) (activity_g feedback) (activity_b feedback))
    in *.
  set (aa := if activity_brightness feedback =? 255 then _ else _).
  assert (Haa : anim_type aa = ANIM_NONE /\
                base_color aa = led_color_scale col (activity_brightness feedback)).
  { subst aa. destruct (led_color_scale_ends col Hcol) as [E255 E0].
    destruct (Z.eqb_spec (activity_brightness feedback) 255) as [->|];
      [split; [reflexivity | symmetry; exact E255]|].
    destruct (Z.eqb_spec (activity_brightness feedback) 0) as [->|];
      [split; [reflexivity | symmetry; exact E0]|].
    split; reflexivity. }
  destruct Haa as [Ty2 Ba2].
  pose proof (led_animation_update_pixel aa LED_ACTIVITY t np1 N1 Hi1) as Q2.
  destruct (led_animation_update aa LED_ACTIVITY t np1) as [aa' np2].
  cbn [fst snd] in Q2. rewrite Ty2 in Q2.
  destruct Q2 as (N2 & F2 & _ & _ & _ & X2).
  cbn [fst snd]. unfold neopixel_is_dirty.
  destruct (neopixel_flush_get LED_MODE np2) as (G1 & G2 & _).
  destruct (neopixel_flush_get LED_ACTIVITY np2) as (G3 & _ & _).
  rewrite G1, G2, G3, X2, Ba2, (F2 LED_MODE Hi0) by (vm_compute; congruence).
  rewrite X1, B2.
  split; [|auto].
  unfold led_ctrl_ok.
  cbn [ctrl_with_activity_anim ctrl_with_mode_anim ctrl_current_mode mode_anim
       ctrl_in_menu].
  rewrite I2, M2, Ty1, Ba1, Pe1, ?T2, B2. auto.
Qed.

Lemma led_feedback_init_ok (np : Neopixel) :
  neopixel_ok np ->
  led_ctrl_ok (fst (led_feedback_init np)) /\ neopixel_ok (snd (led_feedback_init np)).
Proof.
  intros Hnp. split.
  - unfold led_ctrl_ok. cbn. repeat split; lia.
  - unfold led_feedback_init, neopixel_init. cbn [snd].
    apply (neopixel_flush_get 0). unfold neopixel_ok in *. unfold neopixel_clear.
    cbn [led_buffer]. rewrite <- Hnp. generalize (led_buffer np).
    generalize (seqZ 0 (NEOPIXEL_COUNT * 3)).
    intros l. induction l as [|i l IH]; intros buf; cbn [fold_left]; [reflexivity|].
    rewrite IH, length_insert. reflexivity.
Qed.

Lemma led_feedback_perform_shows_mode_witness :
  let start := led_feedback_init (mkNeopixel (replicate 6 9) false) in
  let feedback := mkLEDFeedback 0 0 0 255 255 255 128 MODE_TOGGLE 0 false 0 1 in
  neopixel_get_color LED_MODE
    (snd (led_feedback_update (fst start) feedback 40 (snd start)))
  = led_feedback_get_mode_color MODE_TOGGLE.
Proof.
  intros start feedback.
  destruct (led_feedback_init_ok (mkNeopixel (replicate 6 9) false) eq_refl) as [Hc Hn].
  refine (proj1 (proj2 (proj2 (proj2
            (led_feedback_perform_shows_mode (fst start) feedback 40 (snd start)
               Hc Hn eq_refl _ _ _))))).
  - vm_compute. split; congruence.
  - vm_compute. split; congruence.
  - unfold color_is_bytes. cbn. lia.
Defined.




(** X29: the LED feedback names the field the B tap edits.  For a
    coordinator in its declared states with settings,
    [coordinator_get_led_feedback] reports the mode, the page and the
    menu flag of the coordinator; on a page with a settings field the
    reported value is that field and the reported maximum is the limit
    the loader checks it against, the same field and limit that
    [action_cycle_value] uses; on the two pages without a field it
    reports 0 of 1.  With valid settings the value is below the
    maximum.  The colours and the brightness the mode handler wrote
    for the two LEDs are kept. *)
Theorem led_feedback_reports_edited_field (M : ModeHandlers) (c : Coordinator)
    (feedback : LEDFeedback) (s : AppSettings) :
  coordinator_ok c -> settings c = Some s ->
  let fb' := coordinator_get_led_feedback c feedback in
  current_mode fb' = coordinator_get_mode c /\
  current_page fb' = coordinator_get_page c /\
  in_menu fb' = coordinator_in_menu c /\
  match page_setting_index (coordinator_get_page c) with
  | Some i => setting_value fb' = settings_byte s i /\ setting_max fb' = settings_limit i
  | None => setting_value fb' = 0 /\ setting_max fb' = 1
  end /\
  0 <= setting_value fb' < setting_max fb' /\
  (mode_r fb', mode_g fb', mode_b fb',
   activity_r fb', activity_g fb', activity_b fb', activity_brightness fb')
  = (mode_r feedback, mode_g feedback, mode_b feedback,
     activity_r feedback, activity_g feedback, activity_b feedback,
     activity_brightness feedback).
Proof.
  intros (_ & _ & _ & Hpage & Hvalid) Hs fb'. subst fb'.
  specialize (Hvalid s Hs). destruct s as [b0 b1 b2 b3 b4 b5 b6 b7].
  apply settings_valid_iff in Hvalid.
  unfold coordinator_get_led_feedback, coordinator_get_mode, coordinator_get_page,
    coordinator_in_menu, PAGE_COUNT in *. rewrite Hs.
  rewrite (u8_small (fsm_get_state (menu_fsm c))) by lia.
  cbn [gate_a_mode trigger_edge trigger_pulse_idx toggle_edge divide_divisor_idx
       cycle_tempo_idx].
  assert (Hp : fsm_get_state (menu_fsm c) = 0 \/ fsm_get_state (menu_fsm c) = 1 \/
               fsm_get_state (menu_fsm c) = 2 \/ fsm_get_state (menu_fsm c) = 3 \/
               fsm_get_state (menu_fsm c) = 4 \/ fsm_get_state (menu_fsm c) = 5 \/
               fsm_get_state (menu_fsm c) = 6 \/ fsm_get_state (menu_fsm c) = 7) by lia.
  destruct Hp as [-> | [-> | [-> | [-> | [-> | [-> | [-> | ->]]]]]]];
    cbn [Z.eqb Pos.eqb PAGE_GATE_CV PAGE_TRIGGER_BEHAVIOR PAGE_TRIGGER_PULSE_LEN
         PAGE_TOGGLE_BEHAVIOR PAGE_DIVIDE_DIVISOR PAGE_CYCLE_PATTERN page_setting_index
         current_mode current_page in_menu setting_value setting_max
         mode_r mode_g mode_b activity_r activity_g activity_b activity_brightness];
    unfold GATE_A_MODE_COUNT, TRIGGER_EDGE_COUNT, TRIGGER_PULSE_COUNT, TOGGLE_EDGE_COUNT,
      DIVIDE_DIVISOR_COUNT, CYCLE_TEMPO_COUNT;
    (split; [reflexivity|]); (split; [reflexivity|]); (split; [reflexivity|]);
    (split; [split; reflexivity|]); (split; [lia|reflexivity]).
Qed.

Lemma led_feedback_reports_edited_field_witness :
  setting_max
    (coordinator_get_led_feedback (coord (a_tapped menu_world))
       (mkLEDFeedback 0 0 0 0 0 0 0 0 0 false 0 0))
  = settings_limit 6.
Proof.
  assert (H1 : settings (coord (a_tapped menu_world)) = Some app_init_get_defaults)
    by (vm_compute; reflexivity).
  assert (H2 : page_setting_index (coordinator_get_page (coord (a_tapped menu_world)))
               = Some 6) by (vm_compute; reflexivity).
  pose proof (led_feedback_reports_edited_field gate_handlers (coord (a_tapped menu_world))
                (mkLEDFeedback 0 0 0 0 0 0 0 0 0 false 0 0) app_init_get_defaults
                (proj1 (tapped_ok menu_world menu_world_ok)) H1) as H.
  cbv zeta in H. rewrite H2 in H.
  exact (proj2 (proj1 (proj2 (proj2 (proj2 H))))).
Defined.
